(** * python-unitex: the file gateway (unitex/io.py) and the pipeline
      orchestrator (unitex/processor.py), embedded and verified.

    Python [str] values are [string]s (one [ascii] per character, so the
    development covers code points below 256).  The native extension
    [_unitex], the tool wrappers of [unitex.tools], the loaders of
    [unitex.resources], [os.path.exists] and the built-in file object are
    the outside world: a program is a tree of calls to them, and every
    theorem holds whatever the outside world answers.  The logger is not
    modelled (it never changes control flow).  [os.path] is [posixpath]. *)

From Stdlib Require Import String Ascii List ZArith Lia Bool.
Import ListNotations.
Open Scope string_scope.

(* ================================================================= *)
(** ** Python [str] methods *)

Module Str.

(** [s.startswith(p)] *)
Definition startswith (s p : string) : bool := prefix p s.

(** [s.endswith(suf)] *)
Fixpoint endswith (s suf : string) : bool :=
  (s =? suf) ||
  match s with
  | EmptyString => false
  | String _ s' => endswith s' suf
  end.

(** [sub in s] *)
Fixpoint contains (s sub : string) : bool :=
  prefix sub s ||
  match s with
  | EmptyString => false
  | String _ s' => contains s' sub
  end.

(** [s.rfind(c)] for a one-character [c]: the highest index, or -1. *)
Fixpoint rfind (s : string) (c : ascii) : Z :=
  match s with
  | EmptyString => (-1)%Z
  | String a s' =>
      let r := rfind s' c in
      if (0 <=? r)%Z then (r + 1)%Z
      else if Ascii.eqb a c then 0%Z else (-1)%Z
  end.

Fixpoint take (n : nat) (s : string) : string :=
  match n, s with
  | S n', String a s' => String a (take n' s')
  | _, _ => EmptyString
  end.

Fixpoint drop (n : nat) (s : string) : string :=
  match n, s with
  | S n', String _ s' => drop n' s'
  | _, _ => s
  end.

(** A slice bound, as Python resolves it: negative counts from the end,
    and everything is clamped to [0, len]. *)
Definition bound (s : string) (i : Z) : nat :=
  if (i <? 0)%Z then Z.to_nat (Z.of_nat (String.length s) + i) else Z.to_nat i.

(** [s[:i]] and [s[i:]] *)
Definition slice_to (s : string) (i : Z) : string := take (bound s i) s.
Definition slice_from (s : string) (i : Z) : string := drop (bound s i) s.

(** [c * n] *)
Fixpoint repeat (c : ascii) (n : nat) : string :=
  match n with
  | O => EmptyString
  | S n' => String c (repeat c n')
  end.

(** [s.rstrip(...)], the stripped characters given as a predicate. *)
Fixpoint rstrip_by (p : ascii -> bool) (s : string) : string :=
  match s with
  | EmptyString => EmptyString
  | String a s' =>
      match rstrip_by p s' with
      | EmptyString => if p a then EmptyString else String a EmptyString
      | r => String a r
      end
  end.

(** [str.isspace] on one character (code points below 256), as Python 3
    has it: the ASCII white space, the separators 0x1c-0x1f, NEL 0x85 and
    NBSP 0xa0.  The regular-expression class [\s] of a [str] pattern is
    the same set. *)
Definition isspace (a : ascii) : bool :=
  let n := nat_of_ascii a in
  (((9 <=? n) && (n <=? 13)) || ((28 <=? n) && (n <=? 32))
   || (n =? 133) || (n =? 160))%nat.

(** [s.rstrip()] *)
Definition rstrip (s : string) : string := rstrip_by isspace s.

(** [s.rstrip(c)] for a one-character [c] *)
Definition rstrip_char (c : ascii) (s : string) : string :=
  rstrip_by (Ascii.eqb c) s.

(** [s.split(c)] for a one-character separator: never an empty list. *)
Fixpoint split (s : string) (c : ascii) : list string :=
  match s with
  | EmptyString => [EmptyString]
  | String a s' =>
      let r := split s' c in
      if Ascii.eqb a c then EmptyString :: r
      else String a (hd EmptyString r) :: tl r
  end.

(** [not s] *)
Definition is_empty (s : string) : bool :=
  match s with EmptyString => true | _ => false end.

End Str.

(* ================================================================= *)
(** ** [posixpath] *)

Module PosixPath.

Definition sep : ascii := "/"%char.
Definition extsep : ascii := "."%char.

(** [posixpath.split]: everything up to the last slash, and the rest;
    trailing slashes leave the head unless it is nothing but slashes. *)
Definition split (p : string) : string * string :=
  let i := (Str.rfind p sep + 1)%Z in
  let head := Str.slice_to p i in
  let tail := Str.slice_from p i in
  let head :=
    if negb (Str.is_empty head)
       && negb (head =? Str.repeat sep (String.length head))
    then Str.rstrip_char sep head
    else head in
  (head, tail).

(** The loop of [genericpath._splitext] that skips the leading dots of
    the file name: [fuel] counts the indices from [filenameIndex] up to
    [dotIndex]. *)
Fixpoint skip_dots (p : string) (filenameIndex : Z) (dotIndex : Z)
    (fuel : nat) : string * string :=
  match fuel with
  | O => (p, EmptyString)
  | S fuel' =>
      if negb (Str.take 1 (Str.slice_from p filenameIndex)
               =? String extsep EmptyString)
      then (Str.slice_to p dotIndex, Str.slice_from p dotIndex)
      else skip_dots p (filenameIndex + 1)%Z dotIndex fuel'
  end.

(** [posixpath.splitext] *)
Definition splitext (p : string) : string * string :=
  let sepIndex := Str.rfind p sep in
  let dotIndex := Str.rfind p extsep in
  if (sepIndex <? dotIndex)%Z
  then skip_dots p (sepIndex + 1)%Z dotIndex
         (Z.to_nat (dotIndex - (sepIndex + 1)))
  else (p, EmptyString).

(** [posixpath.join(a, b)] *)
Definition join (a b : string) : string :=
  if Str.startswith b (String sep EmptyString) then b
  else if Str.is_empty a || Str.endswith a (String sep EmptyString)
       then a ++ b
       else a ++ String sep EmptyString ++ b.

End PosixPath.

(* ================================================================= *)
(** ** The fragment of [re] the code uses

    A backtracking matcher in continuation-passing style: alternatives are
    tried in the order Python's engine tries them (a greedy repetition
    first takes one more iteration, then gives up the last one), and the
    first success is the answer. *)

Module Re.

Inductive regex : Type :=
| Chr (c : ascii)                 (* a literal character *)
| Cls (p : ascii -> bool)         (* one character of a class *)
| Seq (r1 r2 : regex)             (* r1 r2 *)
| Star (r : regex)                (* r*, greedy *)
| Opt (r : regex)                 (* r?, greedy *)
| Grp (i : nat) (r : regex).      (* capturing group number i *)

(** [r+] *)
Definition Plus (r : regex) : regex := Seq r (Star r).

(** What the groups captured, the latest capture of a group first. *)
Definition caps : Type := list (nat * string).

Fixpoint lookup (i : nat) (c : caps) : option string :=
  match c with
  | [] => None
  | (j, s) :: c' => if Nat.eqb i j then Some s else lookup i c'
  end.

(** The loop of a greedy [*]: one more iteration of the body if it
    succeeds and consumes something, and only then the continuation;
    [fuel] bounds the iterations by the length of the input. *)
Fixpoint star_loop {R : Type}
    (body : string -> caps -> (string -> caps -> option R) -> option R)
    (k : string -> caps -> option R) (fuel : nat) (s : string) (c : caps)
    : option R :=
  match fuel with
  | O => k s c
  | S fuel' =>
      match body s c (fun s' c' =>
              if (String.length s' <? String.length s)%nat
              then star_loop body k fuel' s' c' else None) with
      | Some x => Some x
      | None => k s c
      end
  end.

(** [m r s c k]: match [r] at the start of [s], then hand the rest of the
    input and the captures to [k]; [None] when every alternative fails. *)
Fixpoint m {R : Type} (r : regex) (s : string) (c : caps)
    (k : string -> caps -> option R) {struct r} : option R :=
  match r with
  | Chr a =>
      match s with
      | String b s' => if Ascii.eqb a b then k s' c else None
      | EmptyString => None
      end
  | Cls p =>
      match s with
      | String b s' => if p b then k s' c else None
      | EmptyString => None
      end
  | Seq r1 r2 => m r1 s c (fun s' c' => m r2 s' c' k)
  | Opt r1 =>
      match m r1 s c k with
      | Some x => Some x
      | None => k s c
      end
  | Grp i r1 =>
      m r1 s c (fun s' c' =>
        k s' ((i, Str.take (String.length s - String.length s') s) :: c'))
  | Star r1 =>
      star_loop (fun s' c' k' => m r1 s' c' k') k (String.length s) s c
  end.

(** A match object: where the match ended, and the captures. *)
Record Match := { rest : string; captures : caps }.

(** [pattern.match(s)]: a match at the start of [s]. *)
Definition match_here (r : regex) (s : string) : option Match :=
  m r s [] (fun s' c => Some {| rest := s'; captures := c |}).

(** [pattern.search(s)]: the first position with a match. *)
Fixpoint search (r : regex) (s : string) : option Match :=
  match match_here r s with
  | Some x => Some x
  | None =>
      match s with
      | EmptyString => None
      | String _ s' => search r s'
      end
  end.

(** [match.groups()] for a pattern with [n] groups: [None] for a group
    that took no part in the match. *)
Definition groups (n : nat) (x : Match) : list (option string) :=
  map (fun i => lookup i (captures x)) (seq 1 n).

(** [pattern.sub(repl, s)] for a [repl] without back-references: every
    match, left to right, is replaced; [fuel] bounds the positions. *)
Fixpoint sub_from (fuel : nat) (r : regex) (repl : string) (s : string)
    : string :=
  match fuel with
  | O => s
  | S fuel' =>
      match match_here r s, s with
      | Some x, String a s' =>
          if (String.length (rest x) <? String.length s)%nat
          then repl ++ sub_from fuel' r repl (rest x)
          else repl ++ String a (sub_from fuel' r repl s')
      | Some x, EmptyString => repl
      | None, String a s' => String a (sub_from fuel' r repl s')
      | None, EmptyString => EmptyString
      end
  end.

Definition sub (r : regex) (repl : string) (s : string) : string :=
  sub_from (S (String.length s)) r repl s.

End Re.

(* ================================================================= *)
(** ** Values, constants and configuration *)

(** The Python values that travel as keyword arguments. *)
Inductive pyval : Type :=
| PNone
| PBool (b : bool)
| PStr (s : string)
| PInt (z : Z).

Definition kwargs : Type := list (string * pyval).

Inductive exn : Type :=
| UnitexException (msg : string)
| TypeError
| AttributeError
| NotImplementedError.

(** The class [UnitexConstants] of the package's [__init__] module, which
    the two modules import: the string constants they refer to.  Their
    values are parameters of the development. *)
Record UnitexConstants : Type := {
  VFS_PREFIX : string;
  MATCH_MODE_LONGEST : string;
  MATCH_MODE_SHORTEST : string;
  OUTPUT_MODE_IGNORE : string;
  OUTPUT_MODE_MERGE : string;
  OUTPUT_MODE_REPLACE : string;
  RESOURCE_GRAMMAR : string;
  RESOURCE_DICTIONARY : string;
  RESOURCE_ALPHABET : string;
  FORMAT_MERGE : string;
  FORMAT_TEXT : string;
  SORT_TEXT_ORDER : string
}.

(** [config["resources"]]: a path (or, once persisted, a handle), or
    [None]. *)
Record Resources : Type := {
  alphabet : option string;
  alphabet_sorted : option string;
  sentence : option string;
  replace : option string;
  dictionaries : option (list string)
}.

(** [config["tools"]]: the option bundles of the stages. *)
Record Tools : Type := {
  tools_normalize : kwargs;
  fst2txt_start_on_space : pyval;
  fst2txt_char_by_char : pyval;
  tools_tokenize : kwargs;
  tools_dico : kwargs;
  locate_morpho : pyval;
  locate_start_on_space : pyval;
  locate_char_by_char : pyval;
  locate_korean : pyval;
  locate_arabic_rules : pyval;
  locate_negation_operator : pyval;
  locate_stop_token_count : pyval;
  locate_protect_dic_chars : pyval;
  locate_variable : pyval;
  locate_variable_error : pyval;
  concord_thai : pyval
}.

(** The configuration mapping; the two flags are tested with [is True]
    and [is False] and are booleans here. *)
Record Config : Type := {
  persistence : bool;
  virtualization : bool;
  resources : Resources;
  tools : Tools
}.

(* ================================================================= *)
(** ** The outside world: calls, programs, runs *)

Inductive call : Type :=
(* the native extension _unitex *)
| unitex_cp (source_path target_path : string)
| unitex_rm (path : string)
| unitex_mv (old_path new_path : string)
| unitex_mkdir (path : string)
| unitex_rmdir (path : string)
| unitex_ls (path : string)
| unitex_read_file (path : string)
| unitex_read_binary_file (path : string)
| unitex_write_file (path data : string) (bom : Z)
| unitex_append_to_file (path data : string)
(* os.path *)
| os_path_exists (path : string)
(* unitex.tools: the stages of the engine *)
| normalize (text : string) (kw : kwargs)
| fst2txt (grammar text alphabet : string) (kw : kwargs)
| tokenize (text alphabet : string) (kw : kwargs)
| dico (dictionaries : list string) (text alphabet : string) (kw : kwargs)
| locate (grammar text alphabet : string) (kw : kwargs)
| concord (index alphabet : string) (kw : kwargs)
(* unitex.resources *)
| load_persistent_alphabet (path : string)
| load_persistent_fst2 (path : string)
| load_persistent_dictionary (path : string)
| free_persistent_alphabet (handle : string)
| free_persistent_fst2 (handle : string)
| free_persistent_dictionary (handle : string)
(* the built-in text file object *)
| file_open (path mode encoding : string)
| file_write (path data : string)
| file_close (path : string).

(** What a call answers. *)
Definition ans (c : call) : Type :=
  match c with
  | unitex_cp _ _ | unitex_rm _ | unitex_mv _ _
  | unitex_mkdir _ | unitex_rmdir _ | os_path_exists _
  | normalize _ _ | fst2txt _ _ _ _ | tokenize _ _ _ | dico _ _ _ _
  | locate _ _ _ _ | concord _ _ _ => bool
  | unitex_ls _ => list string
  | unitex_read_file _ | unitex_read_binary_file _
  | load_persistent_alphabet _ | load_persistent_fst2 _
  | load_persistent_dictionary _ => string
  | _ => unit
  end.

(** A program: it returns, or makes a call and goes on with the answer. *)
Inductive prog (A : Type) : Type :=
| Ret (a : A)
| Vis (c : call) (k : ans c -> prog A).

Arguments Ret {A} a.
Arguments Vis {A} c k.

Fixpoint bind {A B : Type} (p : prog A) (f : A -> prog B) : prog B :=
  match p with
  | Ret a => f a
  | Vis c k => Vis c (fun x => bind (k x) f)
  end.

Definition trigger (c : call) : prog (ans c) := Vis c (fun x => Ret x).

(** The outside world answers a call knowing the calls made before it. *)
Definition world : Type := forall c : call, list call -> ans c.

(** Running a program from the history [h]: its result and the history
    extended with the calls it made, in order. *)
Fixpoint run {A : Type} (p : prog A) (w : world) (h : list call)
    : A * list call :=
  match p with
  | Ret a => (a, h)
  | Vis c k => run (k (w c h)) w (h ++ [c])%list
  end.

Definition trace {A : Type} (p : prog A) (w : world) : list call :=
  snd (run p w []).

(** A value or a raised exception. *)
Inductive outcome (A : Type) : Type :=
| Val (a : A)
| Exc (e : exn).

Arguments Val {A} a.
Arguments Exc {A} e.

(** A method of an object of state [S]: it may call the outside world,
    change the object and raise; what it did to the object before raising
    stays done. *)
Definition M (S A : Type) : Type := S -> prog (outcome A * S).

Definition ret {S A : Type} (a : A) : M S A := fun s => Ret (Val a, s).
Definition raise {S A : Type} (e : exn) : M S A := fun s => Ret (Exc e, s).
Definition get {S : Type} : M S S := fun s => Ret (Val s, s).
Definition put {S : Type} (s : S) : M S unit := fun _ => Ret (Val tt, s).
Definition lift {S A : Type} (p : prog A) : M S A :=
  fun s => bind p (fun a => Ret (Val a, s)).

Definition bindM {S A B : Type} (m : M S A) (f : A -> M S B) : M S B :=
  fun s => bind (m s) (fun r =>
    match r with
    | (Val a, s') => f a s'
    | (Exc e, s') => Ret (Exc e, s')
    end).

Declare Scope py_scope.
Delimit Scope py_scope with py.
Notation "x <- c1 ;; c2" := (bindM c1 (fun x => c2))
  (at level 61, c1 at next level, right associativity) : py_scope.
Notation "c1 ;; c2" := (bindM c1 (fun _ => c2))
  (at level 61, right associativity) : py_scope.
Open Scope py_scope.

(** [if c: body] *)
Definition when {S : Type} (c : bool) (body : M S unit) : M S unit :=
  if c then body else ret tt.

(** [for x in l: body] *)
Fixpoint for_ {S A : Type} (l : list A) (body : A -> M S unit) : M S unit :=
  match l with
  | [] => ret tt
  | x :: l' => body x ;; for_ l' body
  end.

(** A string argument of a native call: [None] there is a [TypeError]. *)
Definition arg {S : Type} (o : option string) : M S string :=
  match o with
  | Some s => ret s
  | None => raise TypeError
  end.

(** [x in l] for a sequence of strings *)
Definition in_list (x : string) (l : list string) : bool :=
  existsb (String.eqb x) l.

(* ================================================================= *)
(** ** unitex/io.py *)

Module IO.

Section Gateway.

Context (UC : UnitexConstants).

Definition cp (source_path target_path : string) : prog bool :=
  trigger (unitex_cp source_path target_path).

Definition rm (path : string) : prog bool :=
  trigger (unitex_rm path).

Definition mv (old_path new_path : string) : prog bool :=
  trigger (unitex_mv old_path new_path).

Definition mkdir (path : string) : prog bool :=
  trigger (unitex_mkdir path).

Definition rmdir (path : string) : prog bool :=
  trigger (unitex_rmdir path).

Definition ls (path : string) : prog (list string) :=
  trigger (unitex_ls path).

Definition exists_ (path : string) : prog bool :=
  if negb (Str.startswith path (VFS_PREFIX UC))
  then trigger (os_path_exists path)
  else bind (ls path) (fun l => Ret (in_list path l)).

End Gateway.

(** The class [UnitexFile]. *)
Module UnitexFile.

Record obj : Type := {
  __use_bom : option bool;
  __path : option string;
  __mode : option string
}.

(** [__init__] *)
Definition init : obj :=
  {| __use_bom := None; __path := None; __mode := None |}.

Definition set_use_bom (v : option bool) : M obj unit :=
  fun self => Ret (Val tt, {| __use_bom := v; __path := __path self;
                              __mode := __mode self |}).
Definition set_path (v : option string) : M obj unit :=
  fun self => Ret (Val tt, {| __use_bom := __use_bom self; __path := v;
                              __mode := __mode self |}).
Definition set_mode (v : option string) : M obj unit :=
  fun self => Ret (Val tt, {| __use_bom := __use_bom self;
                              __path := __path self; __mode := v |}).

(** [mode in ("w", "a")] and the like, for a mode that may be [None] *)
Definition mode_in (mode : option string) (l : list string) : bool :=
  match mode with
  | Some x => in_list x l
  | None => false
  end.

Definition open (file : string) (mode : option string) (use_bom : bool)
    : M obj unit :=
  self <- get ;;
  match __path self with
  | Some path =>
      raise (UnitexException
        ("You must close the current file (" ++ path
         ++ ") before open another one..."))
  | None =>
      set_use_bom (Some use_bom) ;;
      set_path (Some file) ;;
      let mode := match mode with None => "r" | Some x => x end in
      set_mode (Some mode)
  end.

Definition close : M obj unit :=
  self <- get ;;
  match __path self with
  | None => raise (UnitexException "There is no file to close...")
  | Some _ =>
      set_path None ;;
      set_mode None
  end.

Definition write (data : string) : M obj unit :=
  self <- get ;;
  match __path self with
  | None => raise (UnitexException "You must open a file before writing...")
  | Some path =>
      if negb (mode_in (__mode self) ["w"; "a"])
      then raise (UnitexException
             ("File '" ++ path ++ "' is opened in read mode..."))
      else if mode_in (__mode self) ["w"]
      then
        let bom := match __use_bom self with
                   | Some true => 1%Z
                   | _ => 0%Z
                   end in
        lift (trigger (unitex_write_file path data bom))
      else lift (trigger (unitex_append_to_file path data))
  end.

(** The method returns [None] when it falls off its last [elif], which no
    mode that passed the test does. *)
Definition read : M obj (option string) :=
  self <- get ;;
  match __path self with
  | None => raise (UnitexException "You must open a file before reading...")
  | Some path =>
      if negb (mode_in (__mode self) ["r"; "b"])
      then raise (UnitexException
             ("File '" ++ path ++ "' is opened in write/append mode..."))
      else if mode_in (__mode self) ["r"]
      then x <- lift (trigger (unitex_read_file path)) ;; ret (Some x)
      else if mode_in (__mode self) ["b"]
      then x <- lift (trigger (unitex_read_binary_file path)) ;; ret (Some x)
      else ret None
  end.

(** A method called on a local object [f] from a method of another
    object: the local object changes, the caller's object does not. *)
Definition on {S A : Type} (f : obj) (m : M obj A) : M S (A * obj) :=
  fun s => bind (m f) (fun r =>
    match r with
    | (Val a, f') => Ret (Val (a, f'), s)
    | (Exc e, _) => Ret (Exc e, s)
    end).

End UnitexFile.

End IO.

(* ================================================================= *)
(** ** unitex/processor.py *)

Module Processor.

(** [RULES]: one rule, the pattern [&] and its substitute. *)
Definition RULES : list (Re.regex * string) :=
  [(Re.Chr "&", "&amp;")].

(** The module's own [escape], which hides the one it imports. *)
Definition escape (sequence : string) : string :=
  fold_left (fun sequence rule => Re.sub (fst rule) (snd rule) sequence)
            RULES sequence.

(** A record that [iter] yields: the dictionary with the keys [offsets]
    and [match]; a group that matched nothing is [None]. *)
Record match_record : Type := {
  offsets : option string * option string;
  match_ : option string
}.

(** What a generator did when run to its end: the values it yielded and,
    if it stopped by raising, the exception. *)
Definition generated (A : Type) : Type := (list A * option exn)%type.

(** The class [\s] negated, and the dot. *)
Definition not_space (a : ascii) : bool := negb (Str.isspace a).
Definition dot (a : ascii) : bool := negb (Ascii.eqb a "010").

(** The pattern of [iter]: group 1 is [[^\s]+], then one space, group 2
    is [[^\s]+], then an optional non-capturing group made of one space
    and group 3, which is the dot repeated greedily. *)
Definition ind : Re.regex :=
  Re.Seq (Re.Grp 1 (Re.Plus (Re.Cls not_space)))
  (Re.Seq (Re.Chr " ")
  (Re.Seq (Re.Grp 2 (Re.Plus (Re.Cls not_space)))
          (Re.Opt (Re.Seq (Re.Chr " ") (Re.Grp 3 (Re.Star (Re.Cls dot))))))).

Module UnitexProcessor.

Record obj : Type := {
  __config : Config;
  __persisted_objects : option (list (string * string));
  __txt : option string;
  __snt : option string;
  __dir : option string
}.

Definition set_config (v : Config) : M obj unit :=
  fun self => Ret (Val tt,
    {| __config := v; __persisted_objects := __persisted_objects self;
       __txt := __txt self; __snt := __snt self; __dir := __dir self |}).
Definition set_persisted_objects (v : option (list (string * string)))
    : M obj unit :=
  fun self => Ret (Val tt,
    {| __config := __config self; __persisted_objects := v;
       __txt := __txt self; __snt := __snt self; __dir := __dir self |}).
Definition set_txt (v : option string) : M obj unit :=
  fun self => Ret (Val tt,
    {| __config := __config self;
       __persisted_objects := __persisted_objects self;
       __txt := v; __snt := __snt self; __dir := __dir self |}).
Definition set_snt (v : option string) : M obj unit :=
  fun self => Ret (Val tt,
    {| __config := __config self;
       __persisted_objects := __persisted_objects self;
       __txt := __txt self; __snt := v; __dir := __dir self |}).
Definition set_dir (v : option string) : M obj unit :=
  fun self => Ret (Val tt,
    {| __config := __config self;
       __persisted_objects := __persisted_objects self;
       __txt := __txt self; __snt := __snt self; __dir := v |}).

(** [self.__config["resources"] = r] *)
Definition set_resources (r : Resources) : M obj unit :=
  self <- get ;;
  set_config {| persistence := persistence (__config self);
                virtualization := virtualization (__config self);
                resources := r;
                tools := tools (__config self) |}.

(** [self.__persisted_objects.append((_type, _object))] *)
Definition persisted_append (_type _object : string) : M obj unit :=
  self <- get ;;
  match __persisted_objects self with
  | Some l => set_persisted_objects (Some (l ++ [(_type, _object)])%list)
  | None => raise AttributeError
  end.

Section Methods.

Context (UC : UnitexConstants).

Definition _load : M obj unit :=
  self <- get ;;
  if negb (persistence (__config self)) then ret tt
  else
    set_persisted_objects (Some []) ;;
    (self <- get ;;
     let r := resources (__config self) in
     match alphabet r with
     | Some path =>
         _object <- lift (trigger (load_persistent_alphabet path)) ;;
         persisted_append (RESOURCE_ALPHABET UC) _object ;;
         set_resources
           {| alphabet := Some _object;
              alphabet_sorted := alphabet_sorted r; sentence := sentence r;
              replace := replace r; dictionaries := dictionaries r |}
     | None => ret tt
     end) ;;
    (self <- get ;;
     let r := resources (__config self) in
     match alphabet_sorted r with
     | Some path =>
         _object <- lift (trigger (load_persistent_alphabet path)) ;;
         persisted_append (RESOURCE_ALPHABET UC) _object ;;
         set_resources
           {| alphabet := alphabet r;
              alphabet_sorted := Some _object; sentence := sentence r;
              replace := replace r; dictionaries := dictionaries r |}
     | None => ret tt
     end) ;;
    (self <- get ;;
     let r := resources (__config self) in
     match sentence r with
     | Some path =>
         _object <- lift (trigger (load_persistent_fst2 path)) ;;
         persisted_append (RESOURCE_GRAMMAR UC) _object ;;
         set_resources
           {| alphabet := alphabet r;
              alphabet_sorted := alphabet_sorted r; sentence := Some _object;
              replace := replace r; dictionaries := dictionaries r |}
     | None => ret tt
     end) ;;
    (self <- get ;;
     let r := resources (__config self) in
     match replace r with
     | Some path =>
         _object <- lift (trigger (load_persistent_fst2 path)) ;;
         persisted_append (RESOURCE_GRAMMAR UC) _object ;;
         set_resources
           {| alphabet := alphabet r;
              alphabet_sorted := alphabet_sorted r; sentence := sentence r;
              replace := Some _object; dictionaries := dictionaries r |}
     | None => ret tt
     end) ;;
    (self <- get ;;
     let r := resources (__config self) in
     match dictionaries r with
     | Some l =>
         _objects <-
           fold_left
             (fun acc dictionary =>
                _objects <- acc ;;
                _object <- lift (trigger
                             (load_persistent_dictionary dictionary)) ;;
                persisted_append (RESOURCE_DICTIONARY UC) _object ;;
                ret (_objects ++ [_object])%list)
             l (ret []) ;;
         self <- get ;;
         let r := resources (__config self) in
         set_resources
           {| alphabet := alphabet r;
              alphabet_sorted := alphabet_sorted r; sentence := sentence r;
              replace := replace r; dictionaries := Some _objects |}
     | None => ret tt
     end).

(** [__init__]: the fields, then [_load]. *)
Definition init (config : Config) : prog (outcome unit * obj) :=
  _load {| __config := config; __persisted_objects := None;
           __txt := None; __snt := None; __dir := None |}.

(** The body of the loop of [_free]. *)
Definition free_one (entry : string * string) : M obj unit :=
  let '(_type, _object) := entry in
  if _type =? RESOURCE_GRAMMAR UC
  then lift (trigger (free_persistent_fst2 _object))
  else if _type =? RESOURCE_DICTIONARY UC
  then lift (trigger (free_persistent_dictionary _object))
  else if _type =? RESOURCE_ALPHABET UC
  then lift (trigger (free_persistent_alphabet _object))
  else ret tt.

Definition _free : M obj unit :=
  self <- get ;;
  match __persisted_objects self with
  | None => ret tt
  | Some l => for_ l free_one
  end.

(** [__del__] *)
Definition del : M obj unit := _free.

Definition _clean : M obj unit :=
  self <- get ;;
  match __txt self with
  | None => ret tt
  | Some _ =>
      (if virtualization (__config self)
       then
         match __dir self with
         | Some d =>
             l <- lift (IO.ls (VFS_PREFIX UC ++ d)) ;;
             for_ l (fun vf => _ <- lift (IO.rm vf) ;; ret tt)
         | None => ret tt
         end ;;
         snt <- arg (__snt self) ;;
         _ <- lift (IO.rm snt) ;;
         txt <- arg (__txt self) ;;
         _ <- lift (IO.rm txt) ;;
         ret tt
       else
         snt <- arg (__snt self) ;;
         _ <- lift (IO.rm snt) ;;
         ret tt) ;;
      d <- arg (__dir self) ;;
      _ <- lift (IO.rmdir d) ;;
      ret tt
  end.

Definition _normalize : M obj unit :=
  self <- get ;;
  let kwargs := tools_normalize (tools (__config self)) in
  txt <- arg (__txt self) ;;
  r <- lift (trigger (normalize txt kwargs)) ;;
  if negb r then raise (UnitexException "Text normalization failed!")
  else ret tt.

(** The keyword arguments of the two uses of [fst2txt]. *)
Definition fst2txt_kwargs (t : Tools) (merge : bool) : kwargs :=
  [("start_on_space", fst2txt_start_on_space t);
   ("char_by_char", fst2txt_char_by_char t);
   ("merge", PBool merge)].

Definition _segment : M obj unit :=
  self <- get ;;
  match sentence (resources (__config self)) with
  | None => raise (UnitexException
              "Unable to segment text. No sentence grammar provided.")
  | Some grammar =>
      match alphabet (resources (__config self)) with
      | None => raise (UnitexException
                  "Unable to segment text. No alphabet file provided.")
      | Some alphabet =>
          let kwargs := fst2txt_kwargs (tools (__config self)) true in
          snt <- arg (__snt self) ;;
          r <- lift (trigger (fst2txt grammar snt alphabet kwargs)) ;;
          if negb r then raise (UnitexException "Text segmentation failed!")
          else ret tt
      end
  end.

Definition _replace : M obj unit :=
  self <- get ;;
  match replace (resources (__config self)) with
  | None => raise (UnitexException
              "Unable to normalize text. No replace grammar provided.")
  | Some grammar =>
      match alphabet (resources (__config self)) with
      | None => raise (UnitexException
                  "Unable to normalize text. No alphabet file provided.")
      | Some alphabet =>
          let kwargs := fst2txt_kwargs (tools (__config self)) false in
          snt <- arg (__snt self) ;;
          r <- lift (trigger (fst2txt grammar snt alphabet kwargs)) ;;
          if negb r then raise (UnitexException "Text normalization failed!")
          else ret tt
      end
  end.

Definition _tokenize : M obj unit :=
  self <- get ;;
  match alphabet (resources (__config self)) with
  | None => raise (UnitexException
              "Unable to tokenize text. No alphabet file provided.")
  | Some alphabet =>
      let kwargs := tools_tokenize (tools (__config self)) in
      snt <- arg (__snt self) ;;
      r <- lift (trigger (tokenize snt alphabet kwargs)) ;;
      if negb r then raise (UnitexException "Text tokenization failed!")
      else ret tt
  end.

Definition _lexicalize : M obj unit :=
  self <- get ;;
  match dictionaries (resources (__config self)) with
  | None | Some [] =>
      raise (UnitexException
        "Unable to lexicalize text. No dictionaries provided.")
  | Some dictionaries =>
      match alphabet (resources (__config self)) with
      | None => raise (UnitexException
                  "Unable to tokenize text. No alphabet file provided.")
      | Some alphabet =>
          let kwargs := tools_dico (tools (__config self)) in
          snt <- arg (__snt self) ;;
          r <- lift (trigger (dico dictionaries snt alphabet kwargs)) ;;
          if negb r then raise (UnitexException "Text lexicalization failed!")
          else ret tt
      end
  end.

Definition _locate (grammar match_mode output_mode : string) : M obj string :=
  self <- get ;;
  match alphabet (resources (__config self)) with
  | None => raise (UnitexException
              "Unable to locate pattern. No alphabet file provided.")
  | Some alphabet =>
      let t := tools (__config self) in
      let kwargs : kwargs :=
        [("morpho", locate_morpho t);
         ("start_on_space", locate_start_on_space t);
         ("char_by_char", locate_char_by_char t);
         ("korean", locate_korean t);
         ("arabic_rules", locate_arabic_rules t);
         ("negation_operator", locate_negation_operator t);
         ("stop_token_count", locate_stop_token_count t);
         ("protect_dic_chars", locate_protect_dic_chars t);
         ("variable", locate_variable t);
         ("variable_error", locate_variable_error t);
         ("sntdir", PNone);
         ("number_of_matches", PNone);
         ("ambiguous_outputs", PBool false)] in
      if negb (in_list match_mode
                 [MATCH_MODE_LONGEST UC; MATCH_MODE_SHORTEST UC])
      then raise (UnitexException
             "Wrong value for the 'match_mode' option. UnitexConstants.MATCH_MODE_X required.")
      else
      let kwargs := (kwargs ++ [("match_mode", PStr match_mode)])%list in
      if negb (in_list output_mode
                 [OUTPUT_MODE_IGNORE UC; OUTPUT_MODE_MERGE UC;
                  OUTPUT_MODE_REPLACE UC])
      then raise (UnitexException
             "Wrong value for the 'output_mode' option. UnitexConstants.OUTPUT_MODE_X required.")
      else
      let kwargs := (kwargs ++ [("output_mode", PStr output_mode)])%list in
      snt <- arg (__snt self) ;;
      r <- lift (trigger (locate grammar snt alphabet kwargs)) ;;
      if negb r then raise (UnitexException "Locate failed!")
      else
        d <- arg (__dir self) ;;
        let index := PosixPath.join d "concord.ind" in
        let index := if virtualization (__config self)
                     then VFS_PREFIX UC ++ index else index in
        e <- lift (IO.exists_ UC index) ;;
        if negb e
        then raise (UnitexException "Locate failed! No index produced.")
        else ret index
  end.

Definition _concord (index : string) (merge : bool) (output : option string)
    : M obj string :=
  self <- get ;;
  match alphabet (resources (__config self)) with
  | None => raise (UnitexException
              "Unable to build concordance. No alphabet file provided.")
  | Some alphabet =>
      let kwargs : kwargs :=
        [("font", PNone); ("fontsize", PNone);
         ("only_ambiguous", PBool false);
         ("left", PStr "0"); ("right", PStr "0");
         ("sort", PStr (SORT_TEXT_ORDER UC));
         ("script", PNone); ("offsets", PNone); ("unxmlize", PNone);
         ("directory", PNone);
         ("thai", concord_thai (tools (__config self)))] in
      kr <-
        (if merge
         then
           match output with
           | None => raise (UnitexException
                       "You must provide the output file path to use the merge option.")
           | Some output =>
               ret ((kwargs ++ [("format", PStr (FORMAT_MERGE UC));
                                ("output", PStr output);
                                ("only_matches", PBool false)])%list,
                    output)
           end
         else
           d <- arg (__dir self) ;;
           let result := PosixPath.join d "concord.txt" in
           let result := if virtualization (__config self)
                         then VFS_PREFIX UC ++ result else result in
           ret ((kwargs ++ [("format", PStr (FORMAT_TEXT UC));
                            ("output", PNone);
                            ("only_matches", PBool false)])%list,
                result)) ;;
      let '(kwargs, result) := kr in
      r <- lift (trigger (concord index alphabet kwargs)) ;;
      if negb r then raise (UnitexException "Concord failed!")
      else
        e <- lift (IO.exists_ UC result) ;;
        if negb e
        then raise (UnitexException "Concord failed! No concordances produced.")
        else ret result
  end.

Definition open (path : string) (mode : string) (tagged : bool)
    : M obj unit :=
  let '(directory, filename) := PosixPath.split path in
  let '(name, extension) := PosixPath.splitext filename in
  set_txt (Some path) ;;
  set_snt (Some (PosixPath.join directory (name ++ ".snt"))) ;;
  set_dir (Some (PosixPath.join directory (name ++ "_snt"))) ;;
  (self <- get ;;
   when (virtualization (__config self))
     (self_txt <- arg (__txt self) ;;
      let txt := VFS_PREFIX UC ++ self_txt in
      _ <- lift (IO.cp self_txt txt) ;;
      set_txt (Some txt) ;;
      self_snt <- arg (__snt self) ;;
      set_snt (Some (VFS_PREFIX UC ++ self_snt)))) ;;
  (self <- get ;;
   d <- arg (__dir self) ;;
   e <- lift (trigger (os_path_exists d)) ;;
   when (negb e) (_ <- lift (IO.mkdir d) ;; ret tt)) ;;
  _normalize ;;
  when (negb tagged)
    (when (Str.contains mode "s") _segment ;;
     when (Str.contains mode "r") _replace) ;;
  when (Str.contains mode "t") _tokenize ;;
  when (Str.contains mode "l") _lexicalize.

Definition close (clean free : bool) : M obj unit :=
  when clean _clean ;;
  when free _free ;;
  set_txt None ;;
  set_snt None ;;
  set_dir None.

(** The loop of [iter] over the lines after the header. *)
Fixpoint iter_lines (output_mode : string) (lines : list string)
    : generated match_record :=
  match lines with
  | [] => ([], None)
  | line :: lines' =>
      let line := Str.rstrip line in
      if Str.is_empty line then iter_lines output_mode lines'
      else
        match Re.search ind line with
        | None => ([], Some AttributeError)
        | Some found =>
            let groups := Re.groups 3 found in
            let item :=
              if output_mode =? OUTPUT_MODE_IGNORE UC
              then {| offsets := (nth 0 groups None, nth 1 groups None);
                      match_ := Some "" |}
              else {| offsets := (nth 0 groups None, nth 1 groups None);
                      match_ := nth 2 groups None |} in
            let '(items, e) := iter_lines output_mode lines' in
            (item :: items, e)
        end
  end.

(** A generator function: an exception before the first [yield] ends the
    iteration with nothing yielded. *)
Definition generator {A : Type} (m : M obj (generated A))
    : obj -> prog (generated A * obj) :=
  fun self => bind (m self) (fun r =>
    match r with
    | (Val g, self') => Ret (g, self')
    | (Exc e, self') => Ret (([], Some e), self')
    end).

(** [iter]; a keyword argument that is not given is [None]. *)
Definition iter (grammar : string) (match_mode output_mode : option string)
    : obj -> prog (generated match_record * obj) :=
  generator (
    let match_mode := match match_mode with
                      | Some x => x
                      | None => MATCH_MODE_LONGEST UC
                      end in
    if negb (in_list match_mode
               [MATCH_MODE_LONGEST UC; MATCH_MODE_SHORTEST UC])
    then raise (UnitexException "Invalid match mode '%s'...")
    else
    let output_mode := match output_mode with
                       | Some x => x
                       | None => OUTPUT_MODE_MERGE UC
                       end in
    if negb (in_list output_mode
               [OUTPUT_MODE_MERGE UC; OUTPUT_MODE_IGNORE UC;
                OUTPUT_MODE_REPLACE UC])
    then raise (UnitexException "Invalid output mode '%s'...")
    else
    index <- _locate grammar match_mode output_mode ;;
    let matches := IO.UnitexFile.init in
    r <- IO.UnitexFile.on matches (IO.UnitexFile.open index (Some "r") false) ;;
    let matches := snd r in
    r <- IO.UnitexFile.on matches IO.UnitexFile.read ;;
    let '(content, matches) := r in
    r <- IO.UnitexFile.on matches IO.UnitexFile.close ;;
    match content with
    | None => raise AttributeError
    | Some content =>
        let lines := Str.split content "010" in
        ret (iter_lines output_mode (tl lines))
    end).

Definition tag (grammar output : string) (xml : bool)
    (match_mode output_mode : option string) : M obj bool :=
  let match_mode := match match_mode with
                    | Some x => x
                    | None => MATCH_MODE_LONGEST UC
                    end in
  if negb (in_list match_mode
             [MATCH_MODE_LONGEST UC; MATCH_MODE_SHORTEST UC])
  then raise (UnitexException "Invalid match mode '%s'...")
  else
  let output_mode := match output_mode with
                     | Some x => x
                     | None => OUTPUT_MODE_MERGE UC
                     end in
  if negb (in_list output_mode
             [OUTPUT_MODE_IGNORE UC; OUTPUT_MODE_MERGE UC;
              OUTPUT_MODE_REPLACE UC])
  then raise (UnitexException
         "Wrong value for the 'output_mode' option. UnitexConstants.OUTPUT_MODE_X required.")
  else
  index <- _locate grammar match_mode output_mode ;;
  if negb xml
  then
    _ <- _concord index true (Some output) ;;
    e <- lift (IO.exists_ UC output) ;;
    if negb e then raise (UnitexException "No tagged file produced!")
    else ret true
  else
    self <- get ;;
    d <- arg (__dir self) ;;
    let _output := PosixPath.join d "concord-merge-temp.txt" in
    let _output := if virtualization (__config self)
                   then VFS_PREFIX UC ++ _output else _output in
    _ <- _concord index true (Some _output) ;;
    e <- lift (IO.exists_ UC _output) ;;
    if negb e
    then raise (UnitexException "No (temporary) tagged file produced!")
    else
      lift (trigger (file_open output "w" "utf-8")) ;;
      lift (trigger (file_write output
              ("<?xml version='1.0' encoding='UTF-8'?>" ++ String "010" ""))) ;;
      lift (trigger (file_write output
              ("<TAGFILE query='" ++ grammar ++ "'>" ++ String "010" ""))) ;;
      let merged := IO.UnitexFile.init in
      r <- IO.UnitexFile.on merged (IO.UnitexFile.open _output (Some "r") false) ;;
      let merged := snd r in
      r <- IO.UnitexFile.on merged IO.UnitexFile.read ;;
      let '(content, merged) := r in
      r <- IO.UnitexFile.on merged IO.UnitexFile.close ;;
      content <- arg content ;;
      let content := escape content in
      lift (trigger (file_write output content)) ;;
      lift (trigger (file_write output ("</TAGFILE>" ++ String "010" ""))) ;;
      lift (trigger (file_close output)) ;;
      _ <- lift (IO.rm _output) ;;
      ret true.

Definition search (grammar output : string) : M obj unit :=
  raise NotImplementedError.

Definition extract (grammar output : string) : M obj unit :=
  raise NotImplementedError.

End Methods.

End UnitexProcessor.

End Processor.

(* ================================================================= *)
(** ** Definitions that follow the specification's words *)

(** Modelled from the spec: [UnitexConstants] is defined in the package's
    [__init__] module, which is not among the sources.  The names of the
    match modes, output modes and resource kinds are the specification's
    ({longest, shortest}, {ignore, merge, replace}, (grammar, dictionary,
    alphabet)); the virtual prefix, the formats and the sort order are
    sample values.  The theorems hold for every value of the constants;
    this instance serves the examples. *)
Definition constants : UnitexConstants := {|
  VFS_PREFIX := "$:";
  MATCH_MODE_LONGEST := "longest";
  MATCH_MODE_SHORTEST := "shortest";
  OUTPUT_MODE_IGNORE := "ignore";
  OUTPUT_MODE_MERGE := "merge";
  OUTPUT_MODE_REPLACE := "replace";
  RESOURCE_GRAMMAR := "grammar";
  RESOURCE_DICTIONARY := "dictionary";
  RESOURCE_ALPHABET := "alphabet";
  FORMAT_MERGE := "merge";
  FORMAT_TEXT := "text";
  SORT_TEXT_ORDER := "TO"
|}.

(** The three resource kinds of the specification, the constant that names
    each, and the free operation that matches it. *)
Inductive resource_kind : Type := Grammar | Dictionary | Alphabet.

Definition kind_name (UC : UnitexConstants) (k : resource_kind) : string :=
  match k with
  | Grammar => RESOURCE_GRAMMAR UC
  | Dictionary => RESOURCE_DICTIONARY UC
  | Alphabet => RESOURCE_ALPHABET UC
  end.

Definition matching_free (k : resource_kind) (handle : string) : call :=
  match k with
  | Grammar => free_persistent_fst2 handle
  | Dictionary => free_persistent_dictionary handle
  | Alphabet => free_persistent_alphabet handle
  end.

Definition tracked (UC : UnitexConstants) (e : resource_kind * string)
    : string * string :=
  (kind_name UC (fst e), snd e).

Definition release (e : resource_kind * string) : call :=
  matching_free (fst e) (snd e).

(** The three kinds have three different names. *)
Definition kinds_distinct (UC : UnitexConstants) : Prop :=
  RESOURCE_GRAMMAR UC <> RESOURCE_DICTIONARY UC /\
  RESOURCE_GRAMMAR UC <> RESOURCE_ALPHABET UC /\
  RESOURCE_DICTIONARY UC <> RESOURCE_ALPHABET UC.

(** "Only the [&] character is escaped": each [&] becomes [&amp;], every
    other character stays. *)
Fixpoint amp_escaped (s : string) : string :=
  match s with
  | EmptyString => EmptyString
  | String c s' =>
      if Ascii.eqb c "&" then "&amp;" ++ amp_escaped s'
      else String c (amp_escaped s')
  end.

(** Every character of [s] satisfies [p]. *)
Fixpoint all_chars (p : ascii -> bool) (s : string) : bool :=
  match s with
  | EmptyString => true
  | String c s' => p c && all_chars p s'
  end.

(** The character [c] does not occur in [s]. *)
Definition lacks (c : ascii) (s : string) : bool :=
  all_chars (fun a => negb (Ascii.eqb a c)) s.

(** [s] is empty, or starts with a character outside [p]. *)
Definition stops (p : ascii -> bool) (s : string) : bool :=
  match s with
  | EmptyString => true
  | String a _ => negb (p a)
  end.

(** A token: at least one character, none of them white space. *)
Definition is_token (t : string) : bool :=
  negb (Str.is_empty t) && all_chars Processor.not_space t.

(** The text up to the first space, and what follows that space. *)
Fixpoint cut_at_space (s : string) : string * option string :=
  match s with
  | EmptyString => (EmptyString, None)
  | String c s' =>
      if Ascii.eqb c " " then (EmptyString, Some s')
      else let '(t, r) := cut_at_space s' in (String c t, r)
  end.

(** A line of the index format [<start> <end> [match-text]]: first token,
    second token, remainder of the line if present. *)
Definition index_line (line : string)
    : option (string * string * option string) :=
  match cut_at_space line with
  | (t1, Some r1) =>
      let '(t2, r2) := cut_at_space r1 in
      if is_token t1 && is_token t2 then Some (t1, t2, r2) else None
  | (_, None) => None
  end.

(** The record of a line of the index format. *)
Definition record_of (UC : UnitexConstants) (output_mode : string)
    (e : string * string * option string) : Processor.match_record :=
  let '(t1, t2, r) := e in
  {| Processor.offsets := (Some t1, Some t2);
     Processor.match_ :=
       if output_mode =? OUTPUT_MODE_IGNORE UC then Some "" else r |}.

(** The records of the lines of an index file after its header: blank
    lines give none; [None] when a line is not in the index format. *)
Fixpoint index_records (UC : UnitexConstants) (output_mode : string)
    (lines : list string) : option (list Processor.match_record) :=
  match lines with
  | [] => Some []
  | line :: lines' =>
      let line := Str.rstrip line in
      if Str.is_empty line then index_records UC output_mode lines'
      else
        match index_line line, index_records UC output_mode lines' with
        | Some e, Some rs => Some (record_of UC output_mode e :: rs)
        | _, _ => None
        end
  end.

(** The text written to [path] in a history: the data of its writes, in
    order. *)
Fixpoint written (path : string) (h : list call) : string :=
  match h with
  | [] => EmptyString
  | file_write p data :: h' =>
      if p =? path then data ++ written path h' else written path h'
  | _ :: h' => written path h'
  end.

(** The calls that touch the output file of [tag] or remove a file. *)
Definition is_output_call (c : call) : bool :=
  match c with
  | file_open _ _ _ | file_write _ _ | file_close _ | unitex_rm _ => true
  | _ => false
  end.

(** The two names that [open] computes from its argument before anything
    else: the normalized text and the working directory. *)
Definition normalized_text (path : string) : string :=
  let '(directory, filename) := PosixPath.split path in
  let '(name, extension) := PosixPath.splitext filename in
  PosixPath.join directory (name ++ ".snt").

Definition working_directory (path : string) : string :=
  let '(directory, filename) := PosixPath.split path in
  let '(name, extension) := PosixPath.splitext filename in
  PosixPath.join directory (name ++ "_snt").

(** A path as a session keeps it: in the virtual namespace when the
    session is virtualized. *)
Definition staged (UC : UnitexConstants) (c : Config) (path : string)
    : string :=
  if virtualization c then VFS_PREFIX UC ++ path else path.

(** The calls by which [_clean] removes the artifacts of the session of
    [path], when the directory listing answers [listing]. *)
Definition cleaning (UC : UnitexConstants) (c : Config) (path : string)
    (listing : list string) : list call :=
  if virtualization c
  then [unitex_ls (VFS_PREFIX UC ++ working_directory path)]
       ++ map unitex_rm listing
       ++ [unitex_rm (VFS_PREFIX UC ++ normalized_text path);
           unitex_rm (VFS_PREFIX UC ++ path);
           unitex_rmdir (working_directory path)]
  else [unitex_rm (normalized_text path);
        unitex_rmdir (working_directory path)].

(** A processor with an open session. *)
Definition opened_processor (UC : UnitexConstants) (c : Config)
    (p : option (list (string * string))) (path : string)
    : Processor.UnitexProcessor.obj :=
  {| Processor.UnitexProcessor.__config := c;
     Processor.UnitexProcessor.__persisted_objects := p;
     Processor.UnitexProcessor.__txt := Some (staged UC c path);
     Processor.UnitexProcessor.__snt :=
       Some (staged UC c (normalized_text path));
     Processor.UnitexProcessor.__dir := Some (working_directory path) |}.

(** [m] never changes the object, whatever the world answers. *)
Definition preserves {S A : Type} (m : M S A) : Prop :=
  forall s w h, snd (fst (run (m s) w h)) = s.

(** The calls of [p], whatever the world answers, all satisfy [P]. *)
Definition emits_prog {A : Type} (P : call -> bool) (p : prog A) : Prop :=
  forall w h, exists l,
    snd (run p w h) = (h ++ l)%list /\ forallb P l = true.

Definition emits {S A : Type} (P : call -> bool) (m : M S A) : Prop :=
  forall s, emits_prog P (m s).

(** Whatever the world answers, [m] keeps the invariant [I] of the
    object. *)
Definition keeps {S A : Type} (I : S -> Prop) (m : M S A) : Prop :=
  forall s w h, I s -> I (snd (fst (run (m s) w h))).

(** The persisted objects of the processor are pairs of the name of a
    kind and a handle. *)
Definition well_tracked (UC : UnitexConstants)
    (self : Processor.UnitexProcessor.obj) : Prop :=
  exists es,
    Processor.UnitexProcessor.__persisted_objects self
    = Some (map (tracked UC) es).

(** The answer of the world to a call of the engine, a gateway
    operation or the disk check, as a boolean (any other call counts as
    done). *)
Definition answered (w : world) (c : call) (h : list call) : bool :=
  match c return ans c -> bool with
  | unitex_cp _ _ | unitex_rm _ | unitex_mv _ _
  | unitex_mkdir _ | unitex_rmdir _ | os_path_exists _
  | normalize _ _ | fst2txt _ _ _ _ | tokenize _ _ _ | dico _ _ _ _
  | locate _ _ _ _ | concord _ _ _ => fun b => b
  | _ => fun _ => true
  end (w c h).

(** A pipeline: stages, each with the message of its failure, run in
    order until one fails. *)
Fixpoint walk (w : world) (h : list call) (stages : list (call * string))
    : outcome unit * list call :=
  match stages with
  | [] => (Val tt, h)
  | (c, msg) :: rest =>
      if answered w c h then walk w (h ++ [c])%list rest
      else (Exc (UnitexException msg), (h ++ [c])%list)
  end.

(** The stages that [open] asks for, for a processor that has all its
    resources: the normalization, then what the mode letters and the
    [tagged] flag select. *)
Definition stages_of (t : Tools) (mode : string) (tagged : bool)
    (txt snt alphabet sentence replace : string)
    (dictionaries : list string) : list (call * string) :=
  ([(normalize txt (tools_normalize t), "Text normalization failed!")]
   ++ (if negb tagged && Str.contains mode "s"
       then [(fst2txt sentence snt alphabet
                [("start_on_space", fst2txt_start_on_space t);
                 ("char_by_char", fst2txt_char_by_char t);
                 ("merge", PBool true)],
              "Text segmentation failed!")]
       else [])
   ++ (if negb tagged && Str.contains mode "r"
       then [(fst2txt replace snt alphabet
                [("start_on_space", fst2txt_start_on_space t);
                 ("char_by_char", fst2txt_char_by_char t);
                 ("merge", PBool false)],
              "Text normalization failed!")]
       else [])
   ++ (if Str.contains mode "t"
       then [(tokenize snt alphabet (tools_tokenize t),
              "Text tokenization failed!")]
       else [])
   ++ (if Str.contains mode "l"
       then [(dico dictionaries snt alphabet (tools_dico t),
              "Text lexicalization failed!")]
       else []))%list.

(** The calls [open] may make at all. *)
Definition is_staging_call (c : call) : bool :=
  match c with
  | unitex_cp _ _ | os_path_exists _ | unitex_mkdir _
  | normalize _ _ | fst2txt _ _ _ _ | tokenize _ _ _ | dico _ _ _ _ => true
  | _ => false
  end.

Definition is_fst2txt (c : call) : bool :=
  match c with
  | fst2txt _ _ _ _ => true
  | _ => false
  end.

(** What [_load] has to load, in its order: the alphabet, the sorted
    alphabet, the sentence grammar, the replace grammar, the
    dictionaries. *)
Definition load_plan (r : Resources) : list (resource_kind * string) :=
  ((match alphabet r with Some p => [(Alphabet, p)] | None => [] end)
   ++ (match alphabet_sorted r with Some p => [(Alphabet, p)] | None => [] end)
   ++ (match sentence r with Some p => [(Grammar, p)] | None => [] end)
   ++ (match replace r with Some p => [(Grammar, p)] | None => [] end)
   ++ (match dictionaries r with
       | Some l => map (fun p => (Dictionary, p)) l
       | None => []
       end))%list.

(** The load operation of a kind, and the handle the world answers. *)
Definition matching_load (e : resource_kind * string) : call :=
  match fst e with
  | Grammar => load_persistent_fst2 (snd e)
  | Dictionary => load_persistent_dictionary (snd e)
  | Alphabet => load_persistent_alphabet (snd e)
  end.

Definition loaded_handle (w : world) (h : list call)
    (e : resource_kind * string) : string :=
  match fst e with
  | Grammar => w (load_persistent_fst2 (snd e)) h
  | Dictionary => w (load_persistent_dictionary (snd e)) h
  | Alphabet => w (load_persistent_alphabet (snd e)) h
  end.

(** The handles of a plan loaded one after the other from the history
    [h], each with its kind. *)
Fixpoint loaded (w : world) (h : list call)
    (plan : list (resource_kind * string)) : list (resource_kind * string) :=
  match plan with
  | [] => []
  | e :: plan' =>
      (fst e, loaded_handle w h e)
      :: loaded w (h ++ [matching_load e])%list plan'
  end.

(** The resources with the handles of their loaded plan in place of the
    paths; [hs] are the handles in the order of the plan. *)
Definition with_handles (r : Resources) (hs : list string) : Resources :=
  let take1 (o : option string) (hs : list string) :=
    match o with
    | Some _ => (Some (hd "" hs), tl hs)
    | None => (None, hs)
    end in
  let '(a, hs) := take1 (alphabet r) hs in
  let '(b, hs) := take1 (alphabet_sorted r) hs in
  let '(c, hs) := take1 (sentence r) hs in
  let '(d, hs) := take1 (replace r) hs in
  {| alphabet := a; alphabet_sorted := b; sentence := c; replace := d;
     dictionaries := match dictionaries r with
                     | Some _ => Some hs
                     | None => None
                     end |}.

(** The number of occurrences of a character. *)
Fixpoint count_char (c : ascii) (s : string) : nat :=
  match s with
  | EmptyString => O
  | String a s' => (if Ascii.eqb a c then 1 else 0) + count_char c s'
  end.

(** On the object [s], the method [m] is the pipeline of [stages]: it
    makes their calls until one fails, raises the failure's message, and
    leaves the object alone. *)
Definition runs_as {S : Type} (m : M S unit) (s : S)
    (stages : list (call * string)) : Prop :=
  forall w h,
    run (m s) w h = ((fst (walk w h stages), s), snd (walk w h stages)).

(** ** Sample objects and a sample world *)

Definition sample_tools : Tools := {|
  tools_normalize := [];
  fst2txt_start_on_space := PBool false;
  fst2txt_char_by_char := PBool false;
  tools_tokenize := [];
  tools_dico := [];
  locate_morpho := PNone;
  locate_start_on_space := PBool false;
  locate_char_by_char := PBool false;
  locate_korean := PBool false;
  locate_arabic_rules := PNone;
  locate_negation_operator := PStr "tilde";
  locate_stop_token_count := PNone;
  locate_protect_dic_chars := PBool false;
  locate_variable := PNone;
  locate_variable_error := PStr "ignore";
  concord_thai := PBool false
|}.

Definition sample_resources : Resources := {|
  alphabet := Some "Alphabet.txt";
  alphabet_sorted := None;
  sentence := Some "Sentence.fst2";
  replace := Some "Replace.fst2";
  dictionaries := Some ["Dela.bin"]
|}.

Definition sample_config (persist virtual : bool) : Config := {|
  persistence := persist;
  virtualization := virtual;
  resources := sample_resources;
  tools := sample_tools
|}.

(** A processor that has opened nothing. *)
Definition closed_processor (c : Config)
    (p : option (list (string * string))) : Processor.UnitexProcessor.obj :=
  {| Processor.UnitexProcessor.__config := c;
     Processor.UnitexProcessor.__persisted_objects := p;
     Processor.UnitexProcessor.__txt := None;
     Processor.UnitexProcessor.__snt := None;
     Processor.UnitexProcessor.__dir := None |}.

(** A world where every stage succeeds, every path exists, a virtual
    directory lists the path asked for, and every file reads [content]. *)
Definition sample_world (content : string) : world :=
  fun c _ =>
    match c return ans c with
    | unitex_cp _ _ => true
    | unitex_rm _ => true
    | unitex_mv _ _ => true
    | unitex_mkdir _ => true
    | unitex_rmdir _ => true
    | unitex_ls path => [path]
    | unitex_read_file _ => content
    | unitex_read_binary_file _ => content
    | unitex_write_file _ _ _ => tt
    | unitex_append_to_file _ _ => tt
    | os_path_exists _ => true
    | normalize _ _ => true
    | fst2txt _ _ _ _ => true
    | tokenize _ _ _ => true
    | dico _ _ _ _ => true
    | locate _ _ _ _ => true
    | concord _ _ _ => true
    | load_persistent_alphabet path => path
    | load_persistent_fst2 path => path
    | load_persistent_dictionary path => path
    | free_persistent_alphabet _ => tt
    | free_persistent_fst2 _ => tt
    | free_persistent_dictionary _ => tt
    | file_open _ _ _ => tt
    | file_write _ _ => tt
    | file_close _ => tt
    end.

(** An index file: the header [abc], then the lines [0 5 Hello] and
    [6 11 World]. *)
Definition sample_index : string :=
  "abc" ++ String "010" ("0 5 Hello" ++ String "010" "6 11 World").

(** ** A client of the processor *)

(** The public operations of a processor that has been built. *)
Inductive operation : Type :=
| Open (path mode : string) (tagged : bool)
| Close (clean free : bool)
| Iter (grammar : string) (match_mode output_mode : option string)
| Tag (grammar output : string) (xml : bool)
      (match_mode output_mode : option string)
| Search (grammar output : string)
| Extract (grammar output : string).

(** A client calls an operation, runs a generator to its end, and goes
    on with the same object whether the operation returned or raised. *)
Definition perform (UC : UnitexConstants) (o : operation)
    (self : Processor.UnitexProcessor.obj)
    : prog Processor.UnitexProcessor.obj :=
  match o with
  | Open path mode tagged =>
      bind (Processor.UnitexProcessor.open UC path mode tagged self)
           (fun r => Ret (snd r))
  | Close clean free =>
      bind (Processor.UnitexProcessor.close UC clean free self)
           (fun r => Ret (snd r))
  | Iter grammar match_mode output_mode =>
      bind (Processor.UnitexProcessor.iter UC grammar match_mode output_mode
              self)
           (fun r => Ret (snd r))
  | Tag grammar output xml match_mode output_mode =>
      bind (Processor.UnitexProcessor.tag UC grammar output xml match_mode
              output_mode self)
           (fun r => Ret (snd r))
  | Search grammar output =>
      bind (Processor.UnitexProcessor.search grammar output self)
           (fun r => Ret (snd r))
  | Extract grammar output =>
      bind (Processor.UnitexProcessor.extract grammar output self)
           (fun r => Ret (snd r))
  end.

Fixpoint perform_all (UC : UnitexConstants) (ops : list operation)
    (self : Processor.UnitexProcessor.obj)
    : prog Processor.UnitexProcessor.obj :=
  match ops with
  | [] => Ret self
  | o :: ops' => bind (perform UC o self) (perform_all UC ops')
  end.

(** The corpus of the session after the operations: that of the last
    [open] if no [close] came after it. *)
Fixpoint session_after (ops : list operation) (session : option string)
    : option string :=
  match ops with
  | [] => session
  | Open path _ _ :: ops' => session_after ops' (Some path)
  | Close _ _ :: ops' => session_after ops' None
  | _ :: ops' => session_after ops' session
  end.

(** The two states of a processor: closed, or open on a corpus. *)
Definition processor_in (UC : UnitexConstants) (c : Config)
    (p : option (list (string * string))) (session : option string)
    : Processor.UnitexProcessor.obj :=
  match session with
  | None => closed_processor c p
  | Some path => opened_processor UC c p path
  end.

(* ================================================================= *)
(** * Properties *)

(** ** The library models on sample inputs *)

Example split_foo : PosixPath.split "corpus/foo.txt" = ("corpus", "foo.txt").
Proof. reflexivity. Qed.
Example split_root : PosixPath.split "/foo.txt" = ("/", "foo.txt").
Proof. reflexivity. Qed.
Example split_dslash : PosixPath.split "a//foo.txt" = ("a", "foo.txt").
Proof. reflexivity. Qed.
Example splitext_foo : PosixPath.splitext "foo.tar.gz" = ("foo.tar", ".gz").
Proof. reflexivity. Qed.
Example splitext_dot : PosixPath.splitext "..bashrc" = ("..bashrc", "").
Proof. reflexivity. Qed.
Example splitext_dota : PosixPath.splitext ".a.txt" = (".a", ".txt").
Proof. reflexivity. Qed.
Example join1 : PosixPath.join "corpus" "foo.snt" = "corpus/foo.snt".
Proof. reflexivity. Qed.
Example split_nl :
  Str.split ("a" ++ String "010" "b" ++ String "010" "") "010"
  = ["a"; "b"; ""].
Proof. reflexivity. Qed.

Example re_sub_amp :
  Re.sub (Re.Chr "&") "&amp;" "A & B && " = "A &amp; B &amp;&amp; ".
Proof. reflexivity. Qed.

(** Names that are not of the form [dir/name.ext]: a file name that
    starts with its only dot has no extension, and slashes that end the
    directory are dropped. *)
Example normalized_text_hidden :
  normalized_text "corpus/.hidden" = "corpus/.hidden.snt".
Proof. reflexivity. Qed.
Example working_directory_slashes :
  working_directory "corpus//foo.txt" = "corpus/foo_snt".
Proof. reflexivity. Qed.

(** ** Running programs *)

Lemma run_bind {A B : Type} (p : prog A) (f : A -> prog B) (w : world) :
  forall h, run (bind p f) w h = run (f (fst (run p w h))) w (snd (run p w h)).
Proof.
  induction p as [a | c k IH]; intro h; simpl.
  - reflexivity.
  - apply IH.
Qed.

Lemma run_bindM {S A B : Type} (m : M S A) (f : A -> M S B) (s : S)
    (w : world) (h : list call) :
  run (bindM m f s) w h =
  match fst (run (m s) w h) with
  | (Val a, s') => run (f a s') w (snd (run (m s) w h))
  | (Exc e, s') => ((Exc e, s'), snd (run (m s) w h))
  end.
Proof.
  unfold bindM. rewrite run_bind.
  destruct (fst (run (m s) w h)) as [[a | e] s']; reflexivity.
Qed.

Lemma run_lift {S A : Type} (p : prog A) (s : S) (w : world) (h : list call) :
  run (lift p s) w h = ((Val (fst (run p w h)), s), snd (run p w h)).
Proof.
  unfold lift. rewrite run_bind. reflexivity.
Qed.

Lemma run_lift_trigger {S : Type} (c : call) (s : S) (w : world)
    (h : list call) :
  run (lift (trigger c) s) w h = ((Val (w c h), s), (h ++ [c])%list).
Proof. reflexivity. Qed.

Lemma in_list_In (x : string) (l : list string) :
  in_list x l = true <-> In x l.
Proof.
  unfold in_list. rewrite existsb_exists. split.
  - intros [y [Hy Heq]]. apply String.eqb_eq in Heq. subst y. exact Hy.
  - intro H. exists x. split; [exact H | apply String.eqb_refl].
Qed.

Lemma in_list_not_In (x : string) (l : list string) :
  ~ In x l -> in_list x l = false.
Proof.
  intro H. destruct (in_list x l) eqn:E; [| reflexivity].
  apply in_list_In in E. contradiction.
Qed.

(** ** The file gateway *)

(** C6. For a path with the virtual prefix, [exists] answers True exactly
    when the path is a member of what [ls] returns for it; for any other
    path it answers what the disk's existence check answers. *)
Theorem exists_virtual_or_disk (UC : UnitexConstants) (path : string)
    (w : world) (h : list call) :
  if Str.startswith path (VFS_PREFIX UC)
  then fst (run (IO.exists_ UC path) w h) = true
       <-> In path (fst (run (IO.ls path) w h))
  else fst (run (IO.exists_ UC path) w h)
       = fst (run (trigger (os_path_exists path)) w h).
Proof.
  unfold IO.exists_.
  destruct (Str.startswith path (VFS_PREFIX UC)); simpl.
  - apply in_list_In.
  - reflexivity.
Qed.

(** C7. A file handle that is open refuses a second [open]; [write]
    refuses a handle whose mode is neither 'w' nor 'a'; [read] refuses a
    handle whose mode is neither 'r' nor 'b'.  Each refusal raises the
    usage error at once: no call is made and the handle is unchanged. *)
Theorem UnitexFile_usage_errors (f : IO.UnitexFile.obj) :
  (forall current file mode use_bom,
     IO.UnitexFile.__path f = Some current ->
     exists msg,
       IO.UnitexFile.open file mode use_bom f
       = Ret (Exc (UnitexException msg), f)) /\
  (forall data,
     IO.UnitexFile.__mode f <> Some "w" ->
     IO.UnitexFile.__mode f <> Some "a" ->
     exists msg,
       IO.UnitexFile.write data f = Ret (Exc (UnitexException msg), f)) /\
  (IO.UnitexFile.__mode f <> Some "r" ->
   IO.UnitexFile.__mode f <> Some "b" ->
   exists msg,
     IO.UnitexFile.read f = Ret (Exc (UnitexException msg), f)).
Proof.
  destruct f as [bom path mode]; simpl.
  assert (Hmode : forall a b : string,
            mode <> Some a -> mode <> Some b ->
            IO.UnitexFile.mode_in mode [a; b] = false).
  { intros a b Ha Hb. destruct mode as [x |]; [| reflexivity].
    unfold IO.UnitexFile.mode_in. apply in_list_not_In. simpl.
    intros [E | [E | []]]; subst x; [apply Ha | apply Hb]; reflexivity. }
  split; [| split].
  - intros current file mode' use_bom Hp. subst path.
    eexists. reflexivity.
  - intros data Hw Ha.
    unfold IO.UnitexFile.write, bindM, get; simpl.
    destruct path as [p |]; simpl.
    + rewrite (Hmode "w" "a" Hw Ha). simpl. eexists. reflexivity.
    + eexists. reflexivity.
  - intros Hr Hb.
    unfold IO.UnitexFile.read, bindM, get; simpl.
    destruct path as [p |]; simpl.
    + rewrite (Hmode "r" "b" Hr Hb). simpl. eexists. reflexivity.
    + eexists. reflexivity.
Qed.

(** A handle opened for reading: a second [open], and a [write], are
    refused; a handle opened for writing refuses [read]. *)
Lemma UnitexFile_usage_errors_witness :
  (exists msg,
     IO.UnitexFile.open "b.txt" None false
       {| IO.UnitexFile.__use_bom := Some false;
          IO.UnitexFile.__path := Some "a.txt";
          IO.UnitexFile.__mode := Some "r" |}
     = Ret (Exc (UnitexException msg),
            {| IO.UnitexFile.__use_bom := Some false;
               IO.UnitexFile.__path := Some "a.txt";
               IO.UnitexFile.__mode := Some "r" |})) /\
  (exists msg,
     IO.UnitexFile.write "data"
       {| IO.UnitexFile.__use_bom := Some false;
          IO.UnitexFile.__path := Some "a.txt";
          IO.UnitexFile.__mode := Some "r" |}
     = Ret (Exc (UnitexException msg),
            {| IO.UnitexFile.__use_bom := Some false;
               IO.UnitexFile.__path := Some "a.txt";
               IO.UnitexFile.__mode := Some "r" |})) /\
  (exists msg,
     IO.UnitexFile.read
       {| IO.UnitexFile.__use_bom := Some false;
          IO.UnitexFile.__path := Some "a.txt";
          IO.UnitexFile.__mode := Some "w" |}
     = Ret (Exc (UnitexException msg),
            {| IO.UnitexFile.__use_bom := Some false;
               IO.UnitexFile.__path := Some "a.txt";
               IO.UnitexFile.__mode := Some "w" |})).
Proof.
  split; [| split].
  - apply (proj1 (UnitexFile_usage_errors _) "a.txt"). reflexivity.
  - apply (proj1 (proj2 (UnitexFile_usage_errors _))); simpl; discriminate.
  - apply (proj2 (proj2 (UnitexFile_usage_errors _))); simpl; discriminate.
Defined.

(** ** The orchestrator: mode validation *)

Lemma locate_raises_on_modes (UC : UnitexConstants)
    (grammar match_mode output_mode : string)
    (self : Processor.UnitexProcessor.obj) :
  in_list match_mode [MATCH_MODE_LONGEST UC; MATCH_MODE_SHORTEST UC] = false
  \/ in_list output_mode [OUTPUT_MODE_IGNORE UC; OUTPUT_MODE_MERGE UC;
                          OUTPUT_MODE_REPLACE UC] = false ->
  exists msg,
    Processor.UnitexProcessor._locate UC grammar match_mode output_mode self
    = Ret (Exc (UnitexException msg), self).
Proof.
  intro Hm.
  unfold Processor.UnitexProcessor._locate, bindM, get; cbn [bind].
  destruct (alphabet (resources (Processor.UnitexProcessor.__config self)));
    [| eexists; reflexivity].
  destruct Hm as [Hm | Hm].
  - rewrite Hm. eexists; reflexivity.
  - destruct (in_list match_mode _); cbn [negb];
      [| eexists; reflexivity].
    rewrite Hm. eexists; reflexivity.
Qed.

(** C5. With a match mode that is not one of {longest, shortest}, or an
    output mode that is not one of {ignore, merge, replace}, [_locate]
    raises the configuration error at once, and so do [iter] and [tag]:
    the program is a bare return, so no stage of the engine, and no other
    call, comes before the error; the processor is unchanged. *)
Theorem locate_rejects_unknown_modes (UC : UnitexConstants)
    (grammar match_mode output_mode : string)
    (self : Processor.UnitexProcessor.obj) :
  ~ In match_mode [MATCH_MODE_LONGEST UC; MATCH_MODE_SHORTEST UC] \/
  ~ In output_mode [OUTPUT_MODE_IGNORE UC; OUTPUT_MODE_MERGE UC;
                    OUTPUT_MODE_REPLACE UC] ->
  (exists msg,
     Processor.UnitexProcessor._locate UC grammar match_mode output_mode self
     = Ret (Exc (UnitexException msg), self)) /\
  (exists msg,
     Processor.UnitexProcessor.iter UC grammar
       (Some match_mode) (Some output_mode) self
     = Ret (([], Some (UnitexException msg)), self)) /\
  (forall output xml, exists msg,
     Processor.UnitexProcessor.tag UC grammar output xml
       (Some match_mode) (Some output_mode) self
     = Ret (Exc (UnitexException msg), self)).
Proof.
  intro H.
  assert (Hm : in_list match_mode
                 [MATCH_MODE_LONGEST UC; MATCH_MODE_SHORTEST UC] = false \/
               in_list output_mode
                 [OUTPUT_MODE_IGNORE UC; OUTPUT_MODE_MERGE UC;
                  OUTPUT_MODE_REPLACE UC] = false).
  { destruct H as [H | H]; [left | right]; apply in_list_not_In; exact H. }
  assert (Hm' : in_list match_mode
                  [MATCH_MODE_LONGEST UC; MATCH_MODE_SHORTEST UC] = false \/
                in_list output_mode
                  [OUTPUT_MODE_MERGE UC; OUTPUT_MODE_IGNORE UC;
                   OUTPUT_MODE_REPLACE UC] = false).
  { destruct H as [H | H]; [left | right]; apply in_list_not_In.
    - exact H.
    - simpl in *. tauto. }
  clear H.
  split; [| split].
  - apply locate_raises_on_modes. exact Hm.
  - unfold Processor.UnitexProcessor.iter, Processor.UnitexProcessor.generator.
    destruct Hm' as [Hm' | Hm'].
    + rewrite Hm'. eexists; reflexivity.
    + destruct (in_list match_mode _); cbn [negb];
        [| eexists; reflexivity].
      rewrite Hm'. eexists; reflexivity.
  - intros output xml. unfold Processor.UnitexProcessor.tag.
    destruct Hm as [Hm | Hm].
    + rewrite Hm. eexists; reflexivity.
    + destruct (in_list match_mode _); cbn [negb];
        [| eexists; reflexivity].
      rewrite Hm. eexists; reflexivity.
Qed.

(** The match mode "best" is not a mode of the sample constants. *)
Lemma locate_rejects_unknown_modes_witness :
  (exists msg,
     Processor.UnitexProcessor._locate constants "g.fst2" "best" "merge"
       (closed_processor (sample_config false false) None)
     = Ret (Exc (UnitexException msg),
            closed_processor (sample_config false false) None)) /\
  (exists msg,
     Processor.UnitexProcessor.iter constants "g.fst2"
       (Some "best") (Some "merge")
       (closed_processor (sample_config false false) None)
     = Ret (([], Some (UnitexException msg)),
            closed_processor (sample_config false false) None)) /\
  (forall output xml, exists msg,
     Processor.UnitexProcessor.tag constants "g.fst2" output xml
       (Some "best") (Some "merge")
       (closed_processor (sample_config false false) None)
     = Ret (Exc (UnitexException msg),
            closed_processor (sample_config false false) None)).
Proof.
  apply (locate_rejects_unknown_modes constants "g.fst2" "best" "merge").
  left. simpl. intros [E | [E | []]]; discriminate E.
Defined.

(** ** Histories only grow; methods that leave the object alone *)

Lemma run_extends {A : Type} (p : prog A) (w : world) :
  forall h, exists l, snd (run p w h) = (h ++ l)%list.
Proof.
  induction p as [a | c k IH]; intro h; simpl.
  - exists []. symmetry. apply app_nil_r.
  - destruct (IH (w c h) (h ++ [c])%list) as [l Hl].
    exists (c :: l). rewrite Hl. rewrite <- app_assoc. reflexivity.
Qed.

Lemma preserves_ret {S A : Type} (a : A) : preserves (@ret S A a).
Proof. intros s w h. reflexivity. Qed.

Lemma preserves_raise {S A : Type} (e : exn) : preserves (@raise S A e).
Proof. intros s w h. reflexivity. Qed.

Lemma preserves_get {S : Type} : preserves (@get S).
Proof. intros s w h. reflexivity. Qed.

Lemma preserves_lift {S A : Type} (p : prog A) : preserves (@lift S A p).
Proof. intros s w h. rewrite run_lift. reflexivity. Qed.

Lemma preserves_arg {S : Type} (o : option string) : preserves (@arg S o).
Proof. destruct o; [apply preserves_ret | apply preserves_raise]. Qed.

Lemma preserves_bindM {S A B : Type} (m : M S A) (f : A -> M S B) :
  preserves m -> (forall a, preserves (f a)) -> preserves (bindM m f).
Proof.
  intros Hm Hf s w h. rewrite run_bindM.
  specialize (Hm s w h).
  destruct (fst (run (m s) w h)) as [[a | e] s']; simpl in Hm; subst s'.
  - apply Hf.
  - reflexivity.
Qed.

Lemma preserves_when {S : Type} (c : bool) (m : M S unit) :
  preserves m -> preserves (when c m).
Proof. intro H. destruct c; [exact H | apply preserves_ret]. Qed.

Lemma preserves_for {S A : Type} (l : list A) (body : A -> M S unit) :
  (forall x, preserves (body x)) -> preserves (for_ l body).
Proof.
  intro H. induction l as [| x l IH]; simpl.
  - apply preserves_ret.
  - apply preserves_bindM; [apply H | intros _; exact IH].
Qed.

Lemma preserves_on {S A : Type} (f : IO.UnitexFile.obj)
    (m : M IO.UnitexFile.obj A) : preserves (@IO.UnitexFile.on S A f m).
Proof.
  intros s w h. unfold IO.UnitexFile.on. rewrite run_bind.
  destruct (fst (run (m f) w h)) as [[a | e] f']; reflexivity.
Qed.

Create HintDb preserve.
#[export] Hint Resolve preserves_ret preserves_raise preserves_get
  preserves_lift preserves_arg preserves_on : preserve.

(** Walks through a method built from binds, tests and matches. *)
Ltac preserve :=
  repeat first
    [ progress auto with preserve
    | apply preserves_bindM; [| intro]
    | apply preserves_when
    | apply preserves_for; intro
    | match goal with
      | |- preserves (match ?x with _ => _ end) => destruct x
      | |- preserves (if ?x then _ else _) => destruct x
      | |- preserves (let '(_, _) := ?x in _) => destruct x
      end ].

Lemma preserves_normalize :
  preserves Processor.UnitexProcessor._normalize.
Proof. unfold Processor.UnitexProcessor._normalize. preserve. Qed.

Lemma preserves_segment (UC : UnitexConstants) :
  preserves Processor.UnitexProcessor._segment.
Proof. unfold Processor.UnitexProcessor._segment. preserve. Qed.

Lemma preserves_replace (UC : UnitexConstants) :
  preserves Processor.UnitexProcessor._replace.
Proof. unfold Processor.UnitexProcessor._replace. preserve. Qed.

Lemma preserves_tokenize :
  preserves Processor.UnitexProcessor._tokenize.
Proof. unfold Processor.UnitexProcessor._tokenize. preserve. Qed.

Lemma preserves_lexicalize :
  preserves Processor.UnitexProcessor._lexicalize.
Proof. unfold Processor.UnitexProcessor._lexicalize. preserve. Qed.

Lemma preserves_locate (UC : UnitexConstants) (g mm om : string) :
  preserves (Processor.UnitexProcessor._locate UC g mm om).
Proof. unfold Processor.UnitexProcessor._locate. preserve. Qed.

Lemma preserves_concord (UC : UnitexConstants) (index : string) (merge : bool)
    (output : option string) :
  preserves (Processor.UnitexProcessor._concord UC index merge output).
Proof. unfold Processor.UnitexProcessor._concord. preserve. Qed.

Lemma preserves_free (UC : UnitexConstants) :
  preserves (Processor.UnitexProcessor._free UC).
Proof.
  unfold Processor.UnitexProcessor._free.
  apply preserves_bindM; [apply preserves_get | intro self].
  destruct (Processor.UnitexProcessor.__persisted_objects self) as [l |];
    [| apply preserves_ret].
  apply preserves_for. intros [_type _object].
  unfold Processor.UnitexProcessor.free_one. preserve.
Qed.

Lemma preserves_clean (UC : UnitexConstants) :
  preserves (Processor.UnitexProcessor._clean UC).
Proof. unfold Processor.UnitexProcessor._clean. preserve. Qed.

(** ** The orchestrator: sessions *)

#[export] Hint Resolve preserves_normalize preserves_segment
  preserves_replace preserves_tokenize preserves_lexicalize preserves_locate
  preserves_concord preserves_free preserves_clean : preserve.

(** After a prefix [m], a rest that leaves the object alone does not
    change what [m] made of it. *)
Lemma state_before_preserving {S A B : Type} (m : M S A) (f : A -> M S B)
    (s : S) (w : world) (h : list call) :
  (forall a, preserves (f a)) ->
  snd (fst (run (bindM m f s) w h)) = snd (fst (run (m s) w h)).
Proof.
  intro Hf. rewrite run_bindM.
  destruct (fst (run (m s) w h)) as [[a | e] s']; simpl.
  - apply Hf.
  - reflexivity.
Qed.

(** Whatever the world answers and however [open] ends, it leaves the
    processor with the session of its argument. *)
Lemma open_state (UC : UnitexConstants) (path mode : string) (tagged : bool)
    (self : Processor.UnitexProcessor.obj) (w : world) (h : list call) :
  snd (fst (run (Processor.UnitexProcessor.open UC path mode tagged self) w h))
  = opened_processor UC (Processor.UnitexProcessor.__config self)
      (Processor.UnitexProcessor.__persisted_objects self) path.
Proof.
  unfold Processor.UnitexProcessor.open, opened_processor, normalized_text,
    working_directory, staged.
  destruct (PosixPath.split path) as [directory filename].
  destruct (PosixPath.splitext filename) as [name extension].
  do 3 (rewrite run_bindM;
        cbn [Processor.UnitexProcessor.set_txt
             Processor.UnitexProcessor.set_snt
             Processor.UnitexProcessor.set_dir run fst snd
             Processor.UnitexProcessor.__config
             Processor.UnitexProcessor.__persisted_objects
             Processor.UnitexProcessor.__txt
             Processor.UnitexProcessor.__snt
             Processor.UnitexProcessor.__dir]).
  rewrite state_before_preserving.
  - unfold bindM, get; cbn [bind Processor.UnitexProcessor.__config].
    destruct (virtualization (Processor.UnitexProcessor.__config self));
      reflexivity.
  - intros _. preserve.
Qed.

Lemma run_rm_loop (l : list string) :
  forall (self : Processor.UnitexProcessor.obj) w h,
    run (for_ l (fun vf => _ <- lift (IO.rm vf) ;; ret tt) self) w h
    = ((Val tt, self), (h ++ map unitex_rm l)%list).
Proof.
  induction l as [| vf l IH]; intros self w h; cbn [map for_].
  - simpl. rewrite app_nil_r. reflexivity.
  - rewrite run_bindM. simpl. rewrite IH. rewrite <- app_assoc. reflexivity.
Qed.

Lemma run_clean (UC : UnitexConstants) (c : Config)
    (p : option (list (string * string))) (path : string) (w : world)
    (h : list call) :
  run (Processor.UnitexProcessor._clean UC (opened_processor UC c p path)) w h
  = ((Val tt, opened_processor UC c p path),
     (h ++ cleaning UC c path
             (w (unitex_ls (VFS_PREFIX UC ++ working_directory path)) h))%list).
Proof.
  unfold Processor.UnitexProcessor._clean, cleaning, opened_processor, staged.
  rewrite run_bindM.
  cbn [get run fst snd Processor.UnitexProcessor.__txt
       Processor.UnitexProcessor.__config].
  destruct (virtualization c).
  - rewrite run_bindM, run_bindM.
    cbn [Processor.UnitexProcessor.__dir].
    rewrite run_bindM, run_lift. unfold IO.ls.
    cbn [trigger run fst snd]. rewrite run_rm_loop.
    cbn [fst snd]. simpl. repeat rewrite <- app_assoc. reflexivity.
  - simpl. rewrite <- app_assoc. reflexivity.
Qed.

(** [_free] never raises: it returns, the processor unchanged, after
    some calls. *)
Lemma free_returns (UC : UnitexConstants)
    (self : Processor.UnitexProcessor.obj) (w : world) (h : list call) :
  exists l,
    run (Processor.UnitexProcessor._free UC self) w h
    = ((Val tt, self), (h ++ l)%list).
Proof.
  unfold Processor.UnitexProcessor._free.
  rewrite run_bindM. cbn [get run fst snd].
  destruct (Processor.UnitexProcessor.__persisted_objects self) as [l |].
  - revert h. induction l as [| [t o] l IH]; intro h.
    + exists []. simpl. rewrite app_nil_r. reflexivity.
    + cbn [for_]. rewrite run_bindM.
      assert (E : exists c,
                run (Processor.UnitexProcessor.free_one UC (t, o) self) w h
                = ((Val tt, self), (h ++ c)%list)).
      { unfold Processor.UnitexProcessor.free_one.
        destruct (t =? RESOURCE_GRAMMAR UC);
          [simpl; destruct (w (free_persistent_fst2 o) h);
           eexists; reflexivity |].
        destruct (t =? RESOURCE_DICTIONARY UC);
          [simpl; destruct (w (free_persistent_dictionary o) h);
           eexists; reflexivity |].
        destruct (t =? RESOURCE_ALPHABET UC);
          [simpl; destruct (w (free_persistent_alphabet o) h);
           eexists; reflexivity |].
        exists []. simpl. rewrite app_nil_r. reflexivity. }
      destruct E as [c E]. rewrite E. cbn [fst snd].
      destruct (IH (h ++ c)%list) as [l' IH'].
      exists (c ++ l')%list. rewrite IH', <- app_assoc. reflexivity.
  - exists []. simpl. rewrite app_nil_r. reflexivity.
Qed.

(** C8. On the processor that [open] leaves, [close(clean=True)] makes
    these calls and no other before the teardown: with virtualization,
    the listing of the virtual working directory, the removal of every
    entry listed, in the order listed, then of the staged normalized file,
    then of the staged original file, then of the working directory;
    without virtualization, the removal of the normalized file and then of
    the working directory.  It returns with the session reset. *)
Theorem close_clean_removes (UC : UnitexConstants) (path mode : string)
    (tagged free : bool) (self0 : Processor.UnitexProcessor.obj)
    (w0 w : world) (h0 h : list call) :
  let self :=
    snd (fst (run (Processor.UnitexProcessor.open UC path mode tagged self0)
                w0 h0)) in
  let c := Processor.UnitexProcessor.__config self0 in
  let listing : list string :=
    w (unitex_ls (VFS_PREFIX UC ++ working_directory path)) h in
  let removals : list call :=
    if virtualization c
    then ([unitex_ls (VFS_PREFIX UC ++ working_directory path)]
          ++ map unitex_rm listing
          ++ [unitex_rm (VFS_PREFIX UC ++ normalized_text path);
              unitex_rm (VFS_PREFIX UC ++ path);
              unitex_rmdir (working_directory path)])%list
    else [unitex_rm (normalized_text path);
          unitex_rmdir (working_directory path)] in
  fst (run (Processor.UnitexProcessor.close UC true free self) w h)
  = (Val tt,
     closed_processor c (Processor.UnitexProcessor.__persisted_objects self0))
  /\
  exists freed,
    snd (run (Processor.UnitexProcessor.close UC true free self) w h)
    = (h ++ removals ++ freed)%list /\
    (if free then True else freed = []).
Proof.
  intros self c listing removals.
  assert (Hs : self = opened_processor UC c
                 (Processor.UnitexProcessor.__persisted_objects self0) path)
    by apply open_state.
  rewrite Hs. clear Hs self.
  set (p := Processor.UnitexProcessor.__persisted_objects self0).
  unfold Processor.UnitexProcessor.close.
  rewrite run_bindM. cbn [when]. rewrite run_clean. cbn [fst snd].
  fold listing. change (cleaning UC c path listing) with removals.
  destruct free; cbn [when].
  - rewrite run_bindM.
    destruct (free_returns UC (opened_processor UC c p path) w
                (h ++ removals)%list) as [freed Hf].
    rewrite Hf. cbn [fst snd].
    split; [reflexivity |].
    exists freed. split; [| exact I].
    simpl. rewrite <- app_assoc. reflexivity.
  - split; [reflexivity |].
    exists []. split; [| reflexivity].
    simpl. rewrite app_nil_r. reflexivity.
Qed.

(** ** Strings and paths *)

Lemma append_nil_r (s : string) : s ++ "" = s.
Proof. induction s as [| a s IH]; simpl; [| rewrite IH]; reflexivity. Qed.

Lemma append_assoc (a b c : string) : (a ++ b) ++ c = a ++ (b ++ c).
Proof. induction a as [| x a IH]; simpl; [| rewrite IH]; reflexivity. Qed.

Lemma length_append (a b : string) :
  String.length (a ++ b) = (String.length a + String.length b)%nat.
Proof. induction a as [| x a IH]; simpl; [| rewrite IH]; reflexivity. Qed.

Lemma take_append (a b : string) : Str.take (String.length a) (a ++ b) = a.
Proof. induction a as [| x a IH]; simpl; [destruct b | rewrite IH]; reflexivity. Qed.

Lemma drop_append (a b : string) : Str.drop (String.length a) (a ++ b) = b.
Proof. induction a as [| x a IH]; simpl; [destruct b | rewrite IH]; reflexivity. Qed.

Lemma rfind_absent (c : ascii) (s : string) :
  lacks c s = true -> Str.rfind s c = (-1)%Z.
Proof.
  induction s as [| a s IH]; simpl; intro H; [reflexivity |].
  apply andb_true_iff in H. destruct H as [Ha Hs].
  rewrite (IH Hs). simpl.
  apply negb_true_iff in Ha. rewrite Ha. reflexivity.
Qed.

Lemma rfind_last (c : ascii) (a b : string) :
  lacks c b = true ->
  Str.rfind (a ++ String c b) c = Z.of_nat (String.length a).
Proof.
  intro Hb. induction a as [| x a IH].
  - simpl. rewrite (rfind_absent c b Hb). simpl.
    rewrite Ascii.eqb_refl. reflexivity.
  - cbn [append Str.rfind String.length]. rewrite IH.
    destruct (Z.leb_spec 0 (Z.of_nat (String.length a))); lia.
Qed.

Lemma bound_nat (s : string) (n : nat) : Str.bound s (Z.of_nat n) = n.
Proof.
  unfold Str.bound.
  destruct (Z.ltb_spec (Z.of_nat n) 0); [lia |]. apply Nat2Z.id.
Qed.

Lemma lacks_append (c : ascii) (a b : string) :
  lacks c (a ++ b) = lacks c a && lacks c b.
Proof.
  unfold lacks. induction a as [| x a IH]; simpl; [reflexivity |].
  rewrite IH. apply andb_assoc.
Qed.

(** A string that is not empty has a last character. *)
Lemma string_snoc (s : string) :
  s <> "" -> exists d a, s = d ++ String a "".
Proof.
  induction s as [| x s IH]; intro H; [contradiction H; reflexivity |].
  destruct s as [| y s'].
  - exists "", x. reflexivity.
  - destruct IH as [d [a E]]; [discriminate |].
    exists (String x d), a. simpl. rewrite <- E. reflexivity.
Qed.

Lemma endswith_snoc (d : string) (a c : ascii) :
  Str.endswith (d ++ String a "") (String c "") = Ascii.eqb a c.
Proof.
  induction d as [| x d IH].
  - simpl. destruct (Ascii.eqb a c); reflexivity.
  - cbn [append Str.endswith]. rewrite IH.
    destruct d; simpl; [destruct (Ascii.eqb x c) | destruct (Ascii.eqb x c)];
      reflexivity.
Qed.

Lemma rstrip_by_snoc (p : ascii -> bool) (d : string) (a : ascii) :
  p a = false -> Str.rstrip_by p (d ++ String a "") = d ++ String a "".
Proof.
  intro Ha. induction d as [| x d IH].
  - simpl. rewrite Ha. reflexivity.
  - cbn [append Str.rstrip_by]. rewrite IH.
    destruct d; reflexivity.
Qed.

Lemma rstrip_by_stripped (p : ascii -> bool) (d : string) (a b : ascii) :
  p a = false -> p b = true ->
  Str.rstrip_by p (d ++ String a (String b "")) = d ++ String a "".
Proof.
  intros Ha Hb. induction d as [| x d IH].
  - simpl. rewrite Hb, Ha. reflexivity.
  - cbn [append Str.rstrip_by]. rewrite IH.
    destruct d; reflexivity.
Qed.

Lemma repeat_differs (c a : ascii) (d t : string) (n : nat) :
  Ascii.eqb a c = false -> (d ++ String a t =? Str.repeat c n) = false.
Proof.
  intro Ha. revert n. induction d as [| x d IH]; intros [| n]; simpl;
    try reflexivity.
  - rewrite Ha. reflexivity.
  - rewrite IH. destruct (Ascii.eqb x c); reflexivity.
Qed.

Lemma split_dir_file (dir file : string) :
  lacks "/" file = true ->
  Str.endswith dir "/" = false ->
  PosixPath.split (dir ++ String "/" file)
  = ((if Str.is_empty dir then "/" else dir), file).
Proof.
  intros Hf Hd. unfold PosixPath.split, PosixPath.sep.
  rewrite (rfind_last "/" dir file Hf).
  replace (Z.of_nat (String.length dir) + 1)%Z
    with (Z.of_nat (String.length (dir ++ "/")))
    by (rewrite length_append; simpl; lia).
  unfold Str.slice_to, Str.slice_from. rewrite bound_nat.
  replace (dir ++ String "/" file) with ((dir ++ "/") ++ file)
    by (rewrite append_assoc; reflexivity).
  rewrite take_append, drop_append.
  destruct dir as [| x dir']; [reflexivity |].
  destruct (string_snoc (String x dir')) as [d [a E]]; [discriminate |].
  rewrite E in *. rewrite endswith_snoc in Hd.
  rewrite append_assoc. cbn [append].
  rewrite (repeat_differs "/" a d "/" _ Hd).
  assert (Hne : Str.is_empty (d ++ String a "/") = false)
    by (destruct d; reflexivity).
  rewrite Hne. cbn [negb andb]. unfold Str.rstrip_char.
  rewrite rstrip_by_stripped.
  - destruct d; reflexivity.
  - rewrite Ascii.eqb_sym. exact Hd.
  - reflexivity.
Qed.

Lemma drop_next (i : nat) (p t : string) (x : ascii) :
  Str.drop i p = String x t -> Str.drop (S i) p = t.
Proof.
  revert p. induction i as [| i IH]; intros p H.
  - simpl in H. subst p. reflexivity.
  - destruct p as [| y p']; [discriminate H |].
    simpl in H. cbn [Str.drop]. apply IH. exact H.
Qed.

Lemma skip_dots_found (p : string) (dotIndex : Z) :
  forall ds i fuel c r,
    all_chars (Ascii.eqb ".") ds = true ->
    Ascii.eqb "." c = false ->
    Str.drop i p = ds ++ String c r ->
    (String.length ds < fuel)%nat ->
    PosixPath.skip_dots p (Z.of_nat i) dotIndex fuel
    = (Str.slice_to p dotIndex, Str.slice_from p dotIndex).
Proof.
  induction ds as [| x ds IH]; intros i fuel c r Hds Hc Hp Hfuel;
    (destruct fuel as [| fuel]; [simpl in Hfuel; lia |]);
    cbn [PosixPath.skip_dots]; unfold Str.slice_from at 1;
    rewrite bound_nat, Hp; cbn [append Str.take]; unfold PosixPath.extsep.
  - simpl. rewrite Ascii.eqb_sym, Hc. reflexivity.
  - cbn [all_chars] in Hds. apply andb_true_iff in Hds.
    destruct Hds as [Hx Hds].
    apply Ascii.eqb_eq in Hx. subst x. simpl.
    replace (Z.of_nat i + 1)%Z with (Z.of_nat (S i)) by lia.
    apply (IH (S i) fuel c r Hds Hc).
    + apply (drop_next i p _ "."). exact Hp.
    + simpl in Hfuel. lia.
Qed.

(** A string with a character that is not a dot: some dots, that
    character, the rest. *)
Lemma leading_dots (name : string) :
  all_chars (Ascii.eqb ".") name = false ->
  exists ds c r,
    name = ds ++ String c r /\
    all_chars (Ascii.eqb ".") ds = true /\ Ascii.eqb "." c = false.
Proof.
  induction name as [| x name IH]; cbn [all_chars]; intro H;
    [discriminate H |].
  destruct (Ascii.eqb "." x) eqn:Ex.
  - cbn [andb] in H. destruct (IH H) as [ds [c [r [E [Hds Hc]]]]].
    exists (String x ds), c, r. cbn [append all_chars].
    rewrite Ex, Hds, E. auto.
  - exists "", x, name. auto.
Qed.

Lemma splitext_name_ext (name ext : string) :
  lacks "/" name = true ->
  lacks "/" ext = true ->
  lacks "." ext = true ->
  all_chars (Ascii.eqb ".") name = false ->
  PosixPath.splitext (name ++ String "." ext) = (name, String "." ext).
Proof.
  intros Hn He Hdot Hname. unfold PosixPath.splitext, PosixPath.sep,
    PosixPath.extsep.
  rewrite (rfind_absent "/" (name ++ String "." ext)).
  2:{ rewrite lacks_append, Hn. simpl. exact He. }
  rewrite (rfind_last "." name ext Hdot).
  destruct (Z.ltb_spec (-1) (Z.of_nat (String.length name))); [| lia].
  destruct (leading_dots name Hname) as [ds [c [r [E [Hds Hc]]]]].
  replace (-1 + 1)%Z with (Z.of_nat 0) by reflexivity.
  rewrite (skip_dots_found _ _ ds 0 _ c (r ++ String "." ext) Hds Hc).
  - unfold Str.slice_to, Str.slice_from. rewrite bound_nat.
    rewrite take_append, drop_append. reflexivity.
  - simpl. rewrite E, append_assoc. reflexivity.
  - rewrite E, length_append. simpl. lia.
Qed.

Lemma join_dir_file (dir x : string) :
  Str.endswith dir "/" = false ->
  Str.startswith x "/" = false ->
  PosixPath.join (if Str.is_empty dir then "/" else dir) x
  = dir ++ String "/" x.
Proof.
  intros Hd Hx. unfold PosixPath.join, PosixPath.sep. rewrite Hx.
  destruct dir as [| a dir']; [reflexivity |].
  cbn [Str.is_empty orb]. rewrite Hd. reflexivity.
Qed.

Lemma startswith_name (name t : string) (c : ascii) :
  lacks c name = true -> all_chars (Ascii.eqb ".") name = false ->
  Str.startswith (name ++ t) (String c "") = false.
Proof.
  intros Hn Hd. destruct name as [| a name']; [discriminate Hd |].
  unfold lacks in Hn. simpl in Hn. apply andb_true_iff in Hn.
  destruct Hn as [Ha _]. apply negb_true_iff in Ha.
  unfold Str.startswith. simpl.
  destruct (Ascii.ascii_dec c a) as [E | E].
  - subst a. rewrite Ascii.eqb_refl in Ha. discriminate Ha.
  - reflexivity.
Qed.

(** C1. For a path [dir/name.ext] (a directory that does not end with a
    slash, a name without slash that is not made of dots only, an
    extension without slash or dot), [open] derives the normalized-text
    name [dir/name.snt] and the working directory [dir/name_snt]: it
    starts by assigning the path, [dir/name.snt] and [dir/name_snt] to the
    three fields of the session; and whatever the world answers, and
    whether or not a stage fails, the session keeps the working directory
    exactly so, and the normalized path exactly so (in the virtual
    namespace when the processor is virtualized). *)
Theorem open_derives_names (UC : UnitexConstants) (dir name ext mode : string)
    (tagged : bool) (self : Processor.UnitexProcessor.obj) (w : world)
    (h : list call) :
  Str.endswith dir "/" = false ->
  lacks "/" name = true ->
  all_chars (Ascii.eqb ".") name = false ->
  lacks "/" ext = true ->
  lacks "." ext = true ->
  let path := dir ++ "/" ++ name ++ "." ++ ext in
  let self' :=
    snd (fst (run (Processor.UnitexProcessor.open UC path mode tagged self)
                w h)) in
  (exists rest : M Processor.UnitexProcessor.obj unit,
     Processor.UnitexProcessor.open UC path mode tagged
     = (Processor.UnitexProcessor.set_txt (Some path) ;;
        Processor.UnitexProcessor.set_snt
          (Some (dir ++ "/" ++ name ++ ".snt")) ;;
        Processor.UnitexProcessor.set_dir
          (Some (dir ++ "/" ++ name ++ "_snt")) ;;
        rest)) /\
  Processor.UnitexProcessor.__snt self'
  = Some ((if virtualization (Processor.UnitexProcessor.__config self)
           then VFS_PREFIX UC else "")
          ++ dir ++ "/" ++ name ++ ".snt") /\
  Processor.UnitexProcessor.__dir self'
  = Some (dir ++ "/" ++ name ++ "_snt").
Proof.
  intros Hdir Hname Hdots Hext Hdot path self'.
  assert (Hfile : lacks "/" (name ++ String "." ext) = true)
    by (rewrite lacks_append, Hname; simpl; exact Hext).
  assert (Hsplit : PosixPath.split path
                   = ((if Str.is_empty dir then "/" else dir),
                      name ++ String "." ext))
    by (apply split_dir_file; assumption).
  assert (Hjoin : forall suffix,
            PosixPath.join (if Str.is_empty dir then "/" else dir)
              (name ++ suffix)
            = dir ++ "/" ++ name ++ suffix).
  { intro suffix. apply join_dir_file; [exact Hdir |].
    apply startswith_name; assumption. }
  split; [| split].
  - unfold Processor.UnitexProcessor.open.
    rewrite Hsplit, (splitext_name_ext name ext Hname Hext Hdot Hdots).
    rewrite !Hjoin. eexists. reflexivity.
  - unfold self'. rewrite open_state.
    unfold opened_processor, normalized_text, staged.
    cbn [Processor.UnitexProcessor.__snt].
    rewrite Hsplit, (splitext_name_ext name ext Hname Hext Hdot Hdots), Hjoin.
    destruct (virtualization (Processor.UnitexProcessor.__config self));
      reflexivity.
  - unfold self'. rewrite open_state.
    unfold opened_processor, working_directory.
    cbn [Processor.UnitexProcessor.__dir].
    rewrite Hsplit, (splitext_name_ext name ext Hname Hext Hdot Hdots), Hjoin.
    reflexivity.
Qed.

(** [open(path="corpus/foo.txt")] on a processor that is not virtualized:
    the normalized path is [corpus/foo.snt] and the working directory is
    [corpus/foo_snt]. *)
Lemma open_derives_names_witness :
  Processor.UnitexProcessor.__snt
    (snd (fst (run (Processor.UnitexProcessor.open constants
                      "corpus/foo.txt" "srtl" false
                      (closed_processor (sample_config false false) None))
                 (sample_world "") [])))
  = Some "corpus/foo.snt" /\
  Processor.UnitexProcessor.__dir
    (snd (fst (run (Processor.UnitexProcessor.open constants
                      "corpus/foo.txt" "srtl" false
                      (closed_processor (sample_config false false) None))
                 (sample_world "") [])))
  = Some "corpus/foo_snt".
Proof.
  apply (proj2 (open_derives_names constants "corpus" "foo" "txt" "srtl"
                  false (closed_processor (sample_config false false) None)
                  (sample_world "") []
                  eq_refl eq_refl eq_refl eq_refl eq_refl)).
Defined.

(** C3, as the code has it.  [open] does not look at the session: on a
    processor with an open session it is the very program it is on the
    closed processor with the same configuration and handles.  It
    overwrites the three paths of the session with those of its argument
    and stages the new corpus; no usage error is raised on account of the
    session that was open, and nothing of that session is cleaned. *)
Theorem open_ignores_session (UC : UnitexConstants) (path mode : string)
    (tagged : bool) (self : Processor.UnitexProcessor.obj) :
  Processor.UnitexProcessor.open UC path mode tagged self
  = Processor.UnitexProcessor.open UC path mode tagged
      (closed_processor (Processor.UnitexProcessor.__config self)
         (Processor.UnitexProcessor.__persisted_objects self)).
Proof.
  destruct self as [c p t s d].
  unfold Processor.UnitexProcessor.open, closed_processor.
  destruct (PosixPath.split path) as [directory filename].
  destruct (PosixPath.splitext filename) as [name extension].
  reflexivity.
Qed.

(** C3 as stated fails: a second [open] with no [close] in between
    returns normally; it has staged the second corpus (checked the
    working directory, run the normalization) and the session is the
    second one. *)
Lemma reopen_stages_new_corpus :
  run (bindM (Processor.UnitexProcessor.open constants "a.txt" "" false)
         (fun _ => Processor.UnitexProcessor.open constants "b.txt" "" false)
         (closed_processor (sample_config false false) None))
      (sample_world "") []
  = ((Val tt,
      opened_processor constants (sample_config false false) None "b.txt"),
     [os_path_exists "a_snt"; normalize "a.txt" [];
      os_path_exists "b_snt"; normalize "b.txt" []]).
Proof. vm_compute. reflexivity. Qed.

(** ** Where the working directory lives *)

Lemma prefix_nil (s : string) : prefix "" s = true.
Proof. destruct s; reflexivity. Qed.

Lemma prefix_append (p a b : string) :
  prefix p a = true -> prefix p (a ++ b) = true.
Proof.
  revert a. induction p as [| x p IH]; intros a H; [apply prefix_nil |].
  destruct a as [| y a]; [discriminate H |].
  simpl in *. destruct (Ascii.ascii_dec x y); [| discriminate H].
  apply IH. exact H.
Qed.

(** A prefix without the character [c] ends before the first [c]. *)
Lemma prefix_lacks (c : ascii) (p u v : string) :
  lacks c p = true ->
  prefix p (u ++ String c v) = true -> prefix p u = true.
Proof.
  revert p. induction u as [| y u IH]; intros p Hp H.
  - destruct p as [| x p]; [reflexivity |].
    simpl in H. destruct (Ascii.ascii_dec x c) as [E | E]; [| discriminate H].
    subst x. unfold lacks in Hp. cbn [all_chars] in Hp.
    rewrite Ascii.eqb_refl in Hp. discriminate Hp.
  - destruct p as [| x p]; [reflexivity |].
    simpl in *. destruct (Ascii.ascii_dec x y); [| discriminate H].
    apply IH; [| exact H].
    unfold lacks in *. cbn [all_chars] in Hp.
    apply andb_true_iff in Hp. apply Hp.
Qed.

Lemma prefix_first (c : ascii) (p t : string) :
  p <> "" -> lacks c p = true -> prefix p (String c t) = false.
Proof.
  intros Hne Hp. destruct p as [| x p]; [contradiction Hne; reflexivity |].
  simpl. destruct (Ascii.ascii_dec x c) as [E | E]; [| reflexivity].
  subst x. unfold lacks in Hp. cbn [all_chars] in Hp.
  rewrite Ascii.eqb_refl in Hp. discriminate Hp.
Qed.

(** A string with a [c] splits at its last [c]. *)
Lemma last_occurrence (c : ascii) (s : string) :
  lacks c s = false ->
  exists a b, s = a ++ String c b /\ lacks c b = true.
Proof.
  induction s as [| x s IH]; intro H; [discriminate H |].
  destruct (lacks c s) eqn:Es.
  - unfold lacks in H, Es. cbn [all_chars] in H. rewrite Es in H.
    rewrite andb_true_r in H. apply negb_false_iff in H.
    apply Ascii.eqb_eq in H. subst x.
    exists "", s. split; [reflexivity | exact Es].
  - destruct (IH eq_refl) as [a [b [E Hb]]].
    exists (String x a), b. rewrite E. split; [reflexivity | exact Hb].
Qed.

Lemma take_drop (n : nat) (s : string) : Str.take n s ++ Str.drop n s = s.
Proof.
  revert s. induction n as [| n IH]; intros [| a s]; simpl;
    try reflexivity.
  rewrite IH. reflexivity.
Qed.

Lemma skip_dots_whole (p : string) (dotIndex : Z) :
  forall fuel i,
    fst (PosixPath.skip_dots p i dotIndex fuel)
    ++ snd (PosixPath.skip_dots p i dotIndex fuel) = p.
Proof.
  induction fuel as [| fuel IH]; intro i; cbn [PosixPath.skip_dots].
  - simpl. apply append_nil_r.
  - destruct (negb _).
    + simpl. apply take_drop.
    + apply IH.
Qed.

(** The root and the extension of [splitext] make up its argument. *)
Lemma splitext_whole (p : string) :
  fst (PosixPath.splitext p) ++ snd (PosixPath.splitext p) = p.
Proof.
  unfold PosixPath.splitext.
  destruct (_ <? _)%Z.
  - apply skip_dots_whole.
  - simpl. apply append_nil_r.
Qed.

(** [rstrip] takes a suffix of stripped characters away. *)
Lemma rstrip_by_whole (p : ascii -> bool) (s : string) :
  exists t, s = Str.rstrip_by p s ++ t /\ all_chars p t = true.
Proof.
  induction s as [| a s IH]; [exists ""; split; reflexivity |].
  destruct IH as [t [E Ht]]. cbn [Str.rstrip_by].
  destruct (Str.rstrip_by p s) as [| b r] eqn:Er.
  - simpl in E. subst t. destruct (p a) eqn:Ea.
    + exists (String a s). split; [reflexivity |].
      cbn [all_chars]. rewrite Ea, Ht. reflexivity.
    + exists s. split; [reflexivity | exact Ht].
  - exists t. split; [| exact Ht]. simpl in *. rewrite <- E. reflexivity.
Qed.

(** What [rstrip] leaves does not end with a stripped character. *)
Lemma rstrip_by_end (p : ascii -> bool) (s : string) :
  Str.rstrip_by p s = "" \/
  exists d a, Str.rstrip_by p s = d ++ String a "" /\ p a = false.
Proof.
  induction s as [| x s IH]; [left; reflexivity |].
  cbn [Str.rstrip_by].
  destruct IH as [E | [d [a [E Ha]]]]; rewrite E.
  - destruct (p x) eqn:Ex; [left; reflexivity |].
    right. exists "", x. split; [reflexivity | exact Ex].
  - right. exists (String x d), a.
    split; [destruct d; reflexivity | exact Ha].
Qed.

Lemma rstrip_by_empty (c : ascii) (s : string) :
  Str.rstrip_by (Ascii.eqb c) s = "" ->
  (s =? Str.repeat c (String.length s)) = true.
Proof.
  induction s as [| x s IH]; intro H; [reflexivity |].
  cbn [Str.rstrip_by] in H.
  destruct (Str.rstrip_by (Ascii.eqb c) s) eqn:Er; [| discriminate H].
  destruct (Ascii.eqb c x) eqn:Ex; [| discriminate H].
  apply Ascii.eqb_eq in Ex. subst x.
  cbn [String.length Str.repeat]. simpl.
  rewrite Ascii.eqb_refl. apply IH. reflexivity.
Qed.

(** [posixpath.split], case by case: no slash; or a head of slashes
    only; or a head that does not end with a slash and that the path
    starts with, a slash following it there. *)
Lemma split_cases (path : string) :
  (lacks "/" path = true /\ PosixPath.split path = ("", path)) \/
  (exists t b, PosixPath.split path = (String "/" t, b)) \/
  (exists d a rest b,
     PosixPath.split path = (d ++ String a "", b) /\
     Ascii.eqb "/" a = false /\
     path = (d ++ String a "") ++ String "/" rest /\
     lacks "/" b = true).
Proof.
  destruct (lacks "/" path) eqn:El.
  - left. split; [reflexivity |].
    unfold PosixPath.split, PosixPath.sep.
    rewrite (rfind_absent "/" path El). simpl.
    unfold Str.slice_to, Str.slice_from, Str.bound. simpl.
    destruct path; reflexivity.
  - right.
    destruct (last_occurrence "/" path El) as [a [b [E Hb]]].
    unfold PosixPath.split, PosixPath.sep. rewrite E.
    rewrite (rfind_last "/" a b Hb).
    replace (Z.of_nat (String.length a) + 1)%Z
      with (Z.of_nat (String.length (a ++ "/")))
      by (rewrite length_append; simpl; lia).
    unfold Str.slice_to, Str.slice_from. rewrite bound_nat.
    replace (a ++ String "/" b) with ((a ++ "/") ++ b)
      by (rewrite append_assoc; reflexivity).
    rewrite take_append, drop_append.
    assert (Hne : Str.is_empty (a ++ "/") = false) by (destruct a; reflexivity).
    rewrite Hne. cbn [negb andb].
    destruct (a ++ "/" =? Str.repeat "/" (String.length (a ++ "/"))) eqn:Er.
    + left. cbn [negb].
      apply String.eqb_eq in Er. rewrite Er.
      destruct (String.length (a ++ "/")) as [| n] eqn:En.
      * rewrite length_append in En. simpl in En. lia.
      * exists (Str.repeat "/" n), b. reflexivity.
    + right. cbn [negb]. unfold Str.rstrip_char.
      destruct (rstrip_by_end (Ascii.eqb "/") (a ++ "/"))
        as [E0 | [d [x [Ed Hx]]]].
      * apply rstrip_by_empty in E0. rewrite E0 in Er. discriminate Er.
      * destruct (rstrip_by_whole (Ascii.eqb "/") (a ++ "/")) as [t [Et Ht]].
        rewrite Ed in *.
        destruct t as [| z t'].
        -- exfalso. rewrite append_nil_r in Et.
           assert (Hl : Str.endswith (a ++ String "/" "") "/"
                        = Ascii.eqb x "/")
             by (change (a ++ String "/" "") with (a ++ "/");
                 rewrite Et; apply endswith_snoc).
           rewrite endswith_snoc in Hl.
           rewrite Ascii.eqb_sym in Hx. rewrite Hx in Hl. discriminate Hl.
        -- cbn [all_chars] in Ht. apply andb_true_iff in Ht.
           destruct Ht as [Hz _]. apply Ascii.eqb_eq in Hz. subst z.
           exists d, x, (t' ++ b), b.
           split; [reflexivity |].
           split; [exact Hx |].
           split; [| exact Hb].
           rewrite Et. rewrite !append_assoc. reflexivity.
Qed.

Lemma prefix_one (c : ascii) (x : string) :
  prefix (String c "") x = true -> exists x', x = String c x'.
Proof.
  destruct x as [| y x']; [discriminate |].
  simpl. destruct (Ascii.ascii_dec c y) as [E | E]; [| discriminate].
  subst y. intros _. exists x'. reflexivity.
Qed.

(** With a virtual prefix that is not empty and has neither a slash nor
    an underscore, the working directory of a path outside the virtual
    namespace is outside it too. *)
Lemma working_directory_on_disk (pre path : string) :
  pre <> "" -> lacks "/" pre = true -> lacks "_" pre = true ->
  Str.startswith path pre = false ->
  Str.startswith (working_directory path) pre = false.
Proof.
  intros Hne Hslash Hunder Hpath.
  unfold Str.startswith in *. unfold working_directory.
  assert (Hx : forall x, prefix (String "/" "") x = true ->
                         prefix pre x = false).
  { intros x H. destruct (prefix_one _ _ H) as [x' E]. subst x.
    apply prefix_first; assumption. }
  destruct (split_cases path)
    as [[Hl E] | [[t [b E]] | [d [a [rest [b [E [Ha [Ep Hb]]]]]]]]];
    rewrite E; clear E.
  - pose proof (splitext_whole path) as Hw.
    destruct (PosixPath.splitext path) as [name ext]. simpl in Hw.
    assert (Hj : PosixPath.join "" (name ++ "_snt") = name ++ "_snt").
    { unfold PosixPath.join. destruct (Str.startswith _ _); reflexivity. }
    rewrite Hj.
    destruct (prefix pre (name ++ "_snt")) eqn:Ep; [| reflexivity].
    apply (prefix_lacks "_" pre name "snt" Hunder) in Ep.
    apply (prefix_append pre name ext) in Ep.
    rewrite Hw, Hpath in Ep. discriminate Ep.
  - destruct (PosixPath.splitext b) as [name ext].
    unfold PosixPath.join, Str.startswith.
    destruct (prefix _ (name ++ "_snt")) eqn:Es; [apply Hx; exact Es |].
    destruct (_ || _); apply prefix_first; assumption.
  - destruct (PosixPath.splitext b) as [name ext].
    unfold PosixPath.join, Str.startswith.
    destruct (prefix _ (name ++ "_snt")) eqn:Es; [apply Hx; exact Es |].
    fold (Str.startswith (name ++ "_snt") "/") in Es.
    unfold PosixPath.sep. rewrite endswith_snoc.
    rewrite Ascii.eqb_sym, Ha.
    assert (Hem : Str.is_empty (d ++ String a "") = false)
      by (destruct d; reflexivity).
    rewrite Hem. cbn [orb].
    destruct (prefix pre ((d ++ String a "") ++ "/" ++ name ++ "_snt"))
      eqn:Ed; [| reflexivity].
    apply (prefix_lacks "/" pre _ _ Hslash) in Ed.
    apply (prefix_append pre _ (String "/" rest)) in Ed.
    rewrite <- Ep, Hpath in Ed. discriminate Ed.
Qed.

(** The first calls of [open]: the copy into the virtual namespace when
    the processor is virtualized, then the existence check of the working
    directory on the disk and, when it answers no, its creation. *)
Lemma open_first_calls (UC : UnitexConstants) (path mode : string)
    (tagged : bool) (self : Processor.UnitexProcessor.obj) (w : world)
    (h : list call) :
  let d := working_directory path in
  let staging : list call :=
    if virtualization (Processor.UnitexProcessor.__config self)
    then [unitex_cp path (VFS_PREFIX UC ++ path)] else [] in
  let making : list call :=
    if (w (os_path_exists d) (h ++ staging)%list : bool)
    then [] else [unitex_mkdir d] in
  exists rest,
    snd (run (Processor.UnitexProcessor.open UC path mode tagged self) w h)
    = (h ++ staging ++ [os_path_exists d] ++ making ++ rest)%list.
Proof.
  intros d staging making. subst d staging making.
  unfold Processor.UnitexProcessor.open, working_directory.
  destruct (PosixPath.split path) as [directory filename].
  destruct (PosixPath.splitext filename) as [name extension].
  do 3 (rewrite run_bindM;
        cbn [Processor.UnitexProcessor.set_txt
             Processor.UnitexProcessor.set_snt
             Processor.UnitexProcessor.set_dir run fst snd
             Processor.UnitexProcessor.__config
             Processor.UnitexProcessor.__persisted_objects
             Processor.UnitexProcessor.__txt
             Processor.UnitexProcessor.__snt
             Processor.UnitexProcessor.__dir]).
  set (d := PosixPath.join directory (name ++ "_snt")).
  rewrite run_bindM.
  match goal with
  | |- context [run (bindM get ?f ?s) w h] =>
      assert (E : exists s',
                run (bindM get f s) w h
                = ((Val tt, s'),
                   (h ++ (if virtualization
                               (Processor.UnitexProcessor.__config self)
                          then [unitex_cp path (VFS_PREFIX UC ++ path)]
                          else []))%list)
                /\ Processor.UnitexProcessor.__dir s' = Some d)
  end.
  { unfold bindM, get; cbn [bind Processor.UnitexProcessor.__config].
    destruct (virtualization (Processor.UnitexProcessor.__config self)).
    - eexists. split; reflexivity.
    - eexists. simpl. rewrite app_nil_r. split; reflexivity. }
  destruct E as [s' [E Hd]]. rewrite E. cbn [fst snd]. clear E.
  set (h1 := (h ++ _)%list).
  rewrite run_bindM.
  match goal with
  | |- context [run (bindM get ?f s') w h1] =>
      assert (E : run (bindM get f s') w h1
                  = ((Val tt, s'),
                     (h1 ++ [os_path_exists d]
                         ++ (if (w (os_path_exists d) h1 : bool)
                             then [] else [unitex_mkdir d]))%list))
  end.
  { unfold bindM, get; cbn [bind]. rewrite Hd. simpl.
    destruct (w (os_path_exists d) h1); simpl.
    - reflexivity.
    - rewrite <- app_assoc. reflexivity. }
  rewrite E. cbn [fst snd]. clear E.
  match goal with
  | |- context [snd (run ?p w ?hh)] =>
      destruct (run_extends p w hh) as [rest Hr]
  end.
  exists rest. rewrite Hr. subst h1.
  repeat rewrite <- app_assoc. reflexivity.
Qed.

(** C10, as the code has it.  [open] never moves the working directory
    into the virtual namespace: whatever the virtualization flag, the
    session keeps as working directory the name derived from the path as
    given, while the original and normalized paths are kept with the
    virtual prefix when the processor is virtualized; [open] asks the
    disk whether that directory exists and creates it on the disk when it
    does not; the removals of [close(clean=True)] end with the removal of
    that directory; and when the path given is outside the virtual
    namespace (the prefix being non-empty, without slash or underscore),
    so is the working directory. *)
Theorem working_directory_stays_on_disk (UC : UnitexConstants)
    (path mode : string) (tagged : bool)
    (self : Processor.UnitexProcessor.obj) (w : world) (h : list call) :
  let c := Processor.UnitexProcessor.__config self in
  let d := working_directory path in
  let self' :=
    snd (fst (run (Processor.UnitexProcessor.open UC path mode tagged self)
                w h)) in
  let staging : list call :=
    if virtualization c then [unitex_cp path (VFS_PREFIX UC ++ path)]
    else [] in
  let making : list call :=
    if (w (os_path_exists d) (h ++ staging)%list : bool)
    then [] else [unitex_mkdir d] in
  Processor.UnitexProcessor.__dir self' = Some d /\
  Processor.UnitexProcessor.__txt self'
  = Some (if virtualization c then VFS_PREFIX UC ++ path else path) /\
  Processor.UnitexProcessor.__snt self'
  = Some (if virtualization c then VFS_PREFIX UC ++ normalized_text path
          else normalized_text path) /\
  (exists rest,
     snd (run (Processor.UnitexProcessor.open UC path mode tagged self) w h)
     = (h ++ staging ++ [os_path_exists d] ++ making ++ rest)%list) /\
  (forall w' h', exists removed,
     snd (run (Processor.UnitexProcessor.close UC true false self') w' h')
     = (h' ++ removed ++ [unitex_rmdir d])%list) /\
  (VFS_PREFIX UC <> "" ->
   lacks "/" (VFS_PREFIX UC) = true ->
   lacks "_" (VFS_PREFIX UC) = true ->
   Str.startswith path (VFS_PREFIX UC) = false ->
   Str.startswith d (VFS_PREFIX UC) = false).
Proof.
  intros c d self' staging making.
  assert (Hs : self' = opened_processor UC c
                 (Processor.UnitexProcessor.__persisted_objects self) path)
    by apply open_state.
  split; [rewrite Hs; reflexivity |].
  split; [rewrite Hs; reflexivity |].
  split; [rewrite Hs; reflexivity |].
  split; [apply open_first_calls |].
  split.
  - intros w' h'. rewrite Hs.
    unfold Processor.UnitexProcessor.close.
    rewrite run_bindM. cbn [when]. rewrite run_clean. cbn [fst snd].
    unfold cleaning. fold d.
    destruct (virtualization c).
    + eexists ([_] ++ map unitex_rm _ ++ [_; _])%list. simpl.
      repeat rewrite <- app_assoc. reflexivity.
    + exists [unitex_rm (normalized_text path)]. reflexivity.
  - apply working_directory_on_disk.
Qed.

(** A corpus on the disk, opened by a virtualized processor whose disk
    has no working directory yet. *)
Lemma working_directory_stays_on_disk_witness :
  Str.startswith (working_directory "corpus/foo.txt") (VFS_PREFIX constants)
  = false.
Proof.
  apply (working_directory_stays_on_disk constants "corpus/foo.txt" "srtl"
           false (closed_processor (sample_config false true) None)
           (sample_world "") []).
  - discriminate.
  - reflexivity.
  - reflexivity.
  - reflexivity.
Defined.

(** C10 as stated fails: a path that is itself in the virtual namespace
    gives a working directory that carries the virtual prefix. *)
Lemma working_directory_of_virtual_path :
  Processor.UnitexProcessor.__dir
    (snd (fst (run (Processor.UnitexProcessor.open constants "$:foo.txt"
                      "srtl" false
                      (closed_processor (sample_config false false) None))
                 (sample_world "") [])))
  = Some "$:foo_snt" /\
  Str.startswith "$:foo_snt" (VFS_PREFIX constants) = true.
Proof. split; reflexivity. Qed.

(** ** The pattern of [iter] on a line of the index format *)

Lemma take_all (s : string) : Str.take (String.length s) s = s.
Proof.
  rewrite <- (append_nil_r s) at 2. apply take_append.
Qed.

(** A greedy star of a class takes a whole run of the class when the run
    stops there and the continuation accepts what follows. *)
Lemma star_loop_run {R : Type} (p : ascii -> bool)
    (k : string -> Re.caps -> option R) (s : string) (c : Re.caps) (x : R) :
  stops p s = true ->
  k s c = Some x ->
  forall t fuel,
    (String.length t <= fuel)%nat ->
    all_chars p t = true ->
    Re.star_loop (fun s' c' k' => Re.m (Re.Cls p) s' c' k') k fuel (t ++ s) c
    = Some x.
Proof.
  intros Hs Hk.
  induction t as [| b t IH]; intros fuel Hfuel Ht.
  - cbn [append]. destruct fuel as [| fuel]; cbn [Re.star_loop]; [exact Hk |].
    destruct s as [| a s']; cbn [Re.m]; [exact Hk |].
    cbn [stops] in Hs. apply negb_true_iff in Hs. rewrite Hs. exact Hk.
  - destruct fuel as [| fuel]; [simpl in Hfuel; lia |].
    cbn [all_chars] in Ht. apply andb_true_iff in Ht. destruct Ht as [Hb Ht].
    cbn [append Re.star_loop Re.m]. rewrite Hb.
    assert (Hl : (String.length (t ++ s)
                  <? String.length (String b (t ++ s)))%nat = true)
      by (apply Nat.ltb_lt; simpl; lia).
    rewrite Hl. rewrite IH; [reflexivity | simpl in Hfuel; lia | exact Ht].
Qed.

Lemma m_star_run {R : Type} (p : ascii -> bool)
    (k : string -> Re.caps -> option R) (t s : string) (c : Re.caps) (x : R) :
  all_chars p t = true ->
  stops p s = true ->
  k s c = Some x ->
  Re.m (Re.Star (Re.Cls p)) (t ++ s) c k = Some x.
Proof.
  intros Ht Hs Hk. cbn [Re.m].
  apply star_loop_run; try assumption.
  rewrite length_append. lia.
Qed.

(** A group around [[^\s]+] captures a whole token. *)
Lemma m_token {R : Type} (i : nat) (k : string -> Re.caps -> option R)
    (t s : string) (c : Re.caps) (x : R) :
  is_token t = true ->
  stops Processor.not_space s = true ->
  k s ((i, t) :: c) = Some x ->
  Re.m (Re.Grp i (Re.Plus (Re.Cls Processor.not_space))) (t ++ s) c k
  = Some x.
Proof.
  intros Ht Hs Hk. unfold is_token in Ht.
  apply andb_true_iff in Ht. destruct Ht as [Hne Ht].
  destruct t as [| a t]; [discriminate Hne |].
  cbn [all_chars] in Ht. apply andb_true_iff in Ht. destruct Ht as [Ha Ht].
  unfold Re.Plus. cbn [Re.m append]. rewrite Ha.
  apply star_loop_run; try assumption.
  - replace (String.length (String a (t ++ s)) - String.length s)%nat
      with (String.length (String a t))
      by (cbn [String.length]; rewrite length_append; lia).
    change (String a (t ++ s)) with (String a t ++ s).
    rewrite take_append. exact Hk.
  - rewrite length_append. lia.
Qed.

Lemma m_seq {R : Type} (r1 r2 : Re.regex) (s : string) (c : Re.caps)
    (k : string -> Re.caps -> option R) :
  Re.m (Re.Seq r1 r2) s c k = Re.m r1 s c (fun s' c' => Re.m r2 s' c' k).
Proof. reflexivity. Qed.

Lemma m_chr {R : Type} (a : ascii) (s : string) (c : Re.caps)
    (k : string -> Re.caps -> option R) :
  Re.m (Re.Chr a) (String a s) c k = k s c.
Proof. cbn [Re.m]. rewrite Ascii.eqb_refl. reflexivity. Qed.

Lemma m_opt {R : Type} (r : Re.regex) (s : string) (c : Re.caps)
    (k : string -> Re.caps -> option R) :
  Re.m (Re.Opt r) s c k
  = match Re.m r s c k with Some x => Some x | None => k s c end.
Proof. reflexivity. Qed.

Lemma m_grp {R : Type} (i : nat) (r : Re.regex) (s : string) (c : Re.caps)
    (k : string -> Re.caps -> option R) :
  Re.m (Re.Grp i r) s c k
  = Re.m r s c (fun s' c' =>
      k s' ((i, Str.take (String.length s - String.length s') s) :: c')).
Proof. reflexivity. Qed.

(** On a line made of two tokens separated by one space, and then
    nothing or one space and a text without line feed, the pattern
    matches at the start of the line with the two tokens and the text (or
    no third group). *)
Lemma ind_matches (t1 t2 : string) (r : option string) :
  is_token t1 = true ->
  is_token t2 = true ->
  match r with Some x => lacks "010" x | None => true end = true ->
  Re.search Processor.ind
    (t1 ++ " " ++ t2 ++ match r with Some x => " " ++ x | None => "" end)
  = Some {| Re.rest := "";
            Re.captures :=
              match r with
              | Some x => [(3, x); (2, t2); (1, t1)]
              | None => [(2, t2); (1, t1)]
              end |}.
Proof.
  intros H1 H2 Hr.
  assert (E : Re.match_here Processor.ind
                (t1 ++ " " ++ t2
                 ++ match r with Some x => " " ++ x | None => "" end)
              = Some {| Re.rest := "";
                        Re.captures :=
                          match r with
                          | Some x => [(3, x); (2, t2); (1, t1)]
                          | None => [(2, t2); (1, t1)]
                          end |}).
  { unfold Re.match_here, Processor.ind. rewrite m_seq.
    apply m_token; [exact H1 | reflexivity |].
    rewrite m_seq. cbn [append]. rewrite m_chr. rewrite m_seq.
    apply m_token; [exact H2 | destruct r; reflexivity |].
    destruct r as [x |].
    - rewrite m_opt, m_seq. cbn [append]. rewrite m_chr, m_grp.
      rewrite <- (append_nil_r x) at 1.
      rewrite (m_star_run Processor.dot _ x "" _
                 {| Re.rest := ""; Re.captures := [(3, x); (2, t2); (1, t1)] |});
        [reflexivity | exact Hr | reflexivity |].
      cbn [String.length]. rewrite Nat.sub_0_r, take_all. reflexivity.
    - reflexivity. }
  destruct (t1 ++ _) eqn:El; cbn [Re.search]; rewrite E; reflexivity.
Qed.

Lemma cut_at_space_shape (s t : string) (r : option string) :
  cut_at_space s = (t, r) ->
  s = t ++ match r with Some x => String " " x | None => "" end.
Proof.
  revert t r. induction s as [| a s IH]; intros t r H.
  - simpl in H. injection H as Ht Hr. subst. reflexivity.
  - cbn [cut_at_space] in H. destruct (Ascii.eqb a " ") eqn:Ea.
    + apply Ascii.eqb_eq in Ea. subst a.
      injection H as Ht Hr. subst. reflexivity.
    + destruct (cut_at_space s) as [t' r'].
      specialize (IH t' r' eq_refl).
      injection H as Ht Hr. subst t r.
      cbn [append]. rewrite <- IH. reflexivity.
Qed.

(** A line of the index format: its shape. *)
Lemma index_line_shape (line t1 t2 : string) (r : option string) :
  index_line line = Some (t1, t2, r) ->
  is_token t1 = true /\ is_token t2 = true /\
  line = t1 ++ " " ++ t2
         ++ match r with Some x => " " ++ x | None => "" end.
Proof.
  unfold index_line. intro H.
  destruct (cut_at_space line) as [a [r1 |]] eqn:E1; [| discriminate H].
  destruct (cut_at_space r1) as [b r2] eqn:E2.
  destruct (is_token a) eqn:Ha; [| discriminate H].
  destruct (is_token b) eqn:Hb; [| discriminate H].
  cbn [andb] in H. injection H as -> -> ->.
  repeat split; try assumption.
  apply cut_at_space_shape in E1. apply cut_at_space_shape in E2.
  rewrite E1, E2. destruct r; reflexivity.
Qed.

Lemma lacks_suffix (c : ascii) (a b : string) :
  lacks c (a ++ b) = true -> lacks c b = true.
Proof.
  rewrite lacks_append. intro H. apply andb_true_iff in H. apply H.
Qed.

Lemma lacks_prefix (c : ascii) (a b : string) :
  lacks c (a ++ b) = true -> lacks c a = true.
Proof.
  rewrite lacks_append. intro H. apply andb_true_iff in H. apply H.
Qed.

Lemma lacks_rstrip (c : ascii) (s : string) :
  lacks c s = true -> lacks c (Str.rstrip s) = true.
Proof.
  intro H. unfold Str.rstrip.
  destruct (rstrip_by_whole Str.isspace s) as [t [E _]].
  rewrite E in H. apply lacks_prefix in H. exact H.
Qed.

(** The pieces of a split do not contain the separator. *)
Lemma split_lacks (c : ascii) (s : string) :
  Forall (fun l => lacks c l = true) (Str.split s c).
Proof.
  induction s as [| a s IH]; cbn [Str.split].
  - constructor; [reflexivity | constructor].
  - destruct (Ascii.eqb a c) eqn:Ea.
    + constructor; [reflexivity | exact IH].
    + destruct (Str.split s c) as [| x l]; cbn [hd tl].
      * constructor; [| constructor].
        unfold lacks. cbn [all_chars]. rewrite Ea. reflexivity.
      * inversion IH as [| ? ? Hx Hl]; subst.
        constructor; [| exact Hl].
        unfold lacks in *. cbn [all_chars]. rewrite Ea, Hx. reflexivity.
Qed.

(** The loop of [iter] yields the records of the index format. *)
Lemma iter_lines_index (UC : UnitexConstants) (output_mode : string)
    (lines : list string) :
  Forall (fun l => lacks "010" l = true) lines ->
  forall records,
    index_records UC output_mode lines = Some records ->
    Processor.UnitexProcessor.iter_lines UC output_mode lines
    = (records, None).
Proof.
  induction 1 as [| line lines Hl Hls IH]; intros records H.
  - simpl in H. injection H as <-. reflexivity.
  - cbn [index_records Processor.UnitexProcessor.iter_lines] in *.
    destruct (Str.is_empty (Str.rstrip line)); [apply IH; exact H |].
    destruct (index_line (Str.rstrip line)) as [[[t1 t2] r] |] eqn:E;
      [| discriminate H].
    destruct (index_records UC output_mode lines) as [rs |];
      [| discriminate H].
    injection H as <-.
    destruct (index_line_shape _ _ _ _ E) as [H1 [H2 Hshape]].
    assert (Hr : match r with Some x => lacks "010" x | None => true end
                 = true).
    { destruct r as [x |]; [| reflexivity].
      apply lacks_rstrip in Hl. rewrite Hshape in Hl.
      apply lacks_suffix in Hl. change (" " ++ t2 ++ " " ++ x)
        with (String " " t2 ++ String " " x) in Hl.
      apply lacks_suffix in Hl. unfold lacks in Hl. cbn [all_chars] in Hl.
      apply andb_true_iff in Hl. apply Hl. }
    rewrite Hshape, (ind_matches t1 t2 r H1 H2 Hr).
    rewrite (IH rs eq_refl).
    unfold record_of, Re.groups. cbn [seq map Re.captures].
    destruct r; destruct (output_mode =? OUTPUT_MODE_IGNORE UC); reflexivity.
Qed.

Lemma locate_value_modes (UC : UnitexConstants)
    (grammar match_mode output_mode index : string)
    (self : Processor.UnitexProcessor.obj) (w : world) (h : list call) :
  fst (fst (run (Processor.UnitexProcessor._locate UC grammar match_mode
                   output_mode self) w h)) = Val index ->
  in_list match_mode [MATCH_MODE_LONGEST UC; MATCH_MODE_SHORTEST UC] = true /\
  in_list output_mode [OUTPUT_MODE_IGNORE UC; OUTPUT_MODE_MERGE UC;
                       OUTPUT_MODE_REPLACE UC] = true.
Proof.
  intro H.
  destruct (in_list match_mode _) eqn:E1;
    [destruct (in_list output_mode _) eqn:E2; [split; reflexivity |] |].
  - destruct (locate_raises_on_modes UC grammar match_mode output_mode self
                (or_intror E2)) as [msg E].
    rewrite E in H. discriminate H.
  - destruct (locate_raises_on_modes UC grammar match_mode output_mode self
                (or_introl E1)) as [msg E].
    rewrite E in H. discriminate H.
Qed.

(** C2. Once [_locate] has produced the index, [iter] reads it, skips
    its first line, and, when every later line that is not blank is in the
    index format (start token, one space, end token, and then nothing or
    one space and the rest of the line), yields for these lines, in file
    order, exactly one record each: the two tokens as offsets and the rest
    of the line as match text, or the empty text when the output mode is
    ignore.  It makes one more call, the read of the index. *)
Theorem iter_yields_index_records (UC : UnitexConstants) (grammar : string)
    (match_mode output_mode : option string)
    (self : Processor.UnitexProcessor.obj) (w : world) (h : list call)
    (index : string) (records : list Processor.match_record) :
  let mm := match match_mode with
            | Some x => x
            | None => MATCH_MODE_LONGEST UC
            end in
  let om := match output_mode with
            | Some x => x
            | None => OUTPUT_MODE_MERGE UC
            end in
  let located :=
    run (Processor.UnitexProcessor._locate UC grammar mm om self) w h in
  let content : string := w (unitex_read_file index) (snd located) in
  fst (fst located) = Val index ->
  index_records UC om (tl (Str.split content "010")) = Some records ->
  run (Processor.UnitexProcessor.iter UC grammar match_mode output_mode self)
      w h
  = (((records, None), self), (snd located ++ [unitex_read_file index])%list).
Proof.
  intros mm om located content Hloc Hrec.
  destruct (locate_value_modes UC grammar mm om index self w h Hloc)
    as [Hmm Hom].
  assert (Hom' : in_list om [OUTPUT_MODE_MERGE UC; OUTPUT_MODE_IGNORE UC;
                             OUTPUT_MODE_REPLACE UC] = true).
  { apply in_list_In. apply in_list_In in Hom. simpl in *. tauto. }
  pose proof (preserves_locate UC grammar mm om self w h) as Hself.
  change (snd (fst located) = self) in Hself.
  unfold Processor.UnitexProcessor.iter, Processor.UnitexProcessor.generator.
  fold mm. rewrite Hmm. cbn [negb]. fold om. rewrite Hom'. cbn [negb].
  rewrite run_bind, run_bindM. fold located.
  clearbody located.
  destruct located as [[o s'] h1]. cbn [fst snd] in *. subst o s'.
  simpl.
  assert (Hl : Forall (fun l => lacks "010" l = true)
                 (tl (Str.split content "010"))).
  { pose proof (split_lacks "010" content) as Hs.
    destruct (Str.split content "010"); [constructor |].
    inversion Hs; assumption. }
  change (w (unitex_read_file index) h1) with content.
  rewrite (iter_lines_index UC om _ Hl records Hrec).
  reflexivity.
Qed.

(** The index with the header [abc] and the lines [0 5 Hello] and
    [6 11 World]: with the default output mode (merge) two records, with
    their texts; with the output mode ignore the same offsets and empty
    texts. *)
Lemma iter_yields_index_records_witness :
  fst (fst (run (Processor.UnitexProcessor.iter constants "g.fst2" None None
                   (opened_processor constants (sample_config false false)
                      None "corpus/foo.txt"))
              (sample_world sample_index) []))
  = ([ {| Processor.offsets := (Some "0", Some "5");
          Processor.match_ := Some "Hello" |};
       {| Processor.offsets := (Some "6", Some "11");
          Processor.match_ := Some "World" |} ], None) /\
  fst (fst (run (Processor.UnitexProcessor.iter constants "g.fst2" None
                   (Some "ignore")
                   (opened_processor constants (sample_config false false)
                      None "corpus/foo.txt"))
              (sample_world sample_index) []))
  = ([ {| Processor.offsets := (Some "0", Some "5");
          Processor.match_ := Some "" |};
       {| Processor.offsets := (Some "6", Some "11");
          Processor.match_ := Some "" |} ], None).
Proof.
  split.
  - pose proof (iter_yields_index_records constants "g.fst2" None None
                  (opened_processor constants (sample_config false false)
                     None "corpus/foo.txt")
                  (sample_world sample_index) []
                  "corpus/foo_snt/concord.ind"
                  [ {| Processor.offsets := (Some "0", Some "5");
                       Processor.match_ := Some "Hello" |};
                    {| Processor.offsets := (Some "6", Some "11");
                       Processor.match_ := Some "World" |} ]
                  eq_refl eq_refl) as H.
    rewrite H. reflexivity.
  - pose proof (iter_yields_index_records constants "g.fst2" None
                  (Some "ignore")
                  (opened_processor constants (sample_config false false)
                     None "corpus/foo.txt")
                  (sample_world sample_index) []
                  "corpus/foo_snt/concord.ind"
                  [ {| Processor.offsets := (Some "0", Some "5");
                       Processor.match_ := Some "" |};
                    {| Processor.offsets := (Some "6", Some "11");
                       Processor.match_ := Some "" |} ]
                  eq_refl eq_refl) as H.
    rewrite H. reflexivity.
Defined.

(** Outside the index format the loop stops: a line with one token has
    no match, and the lookup of its groups raises. *)
Example iter_lines_one_token :
  Processor.UnitexProcessor.iter_lines constants "merge" ["0 5 Hello"; "foo"]
  = ([ {| Processor.offsets := (Some "0", Some "5");
          Processor.match_ := Some "Hello" |} ], Some AttributeError).
Proof. reflexivity. Qed.

(** ** The tagged XML output *)

Lemma sub_from_amp (s : string) :
  forall fuel,
    (String.length s < fuel)%nat ->
    Re.sub_from fuel (Re.Chr "&") "&amp;" s = amp_escaped s.
Proof.
  induction s as [| a s IH]; intros fuel Hfuel;
    (destruct fuel as [| fuel]; [simpl in Hfuel; lia |]).
  - reflexivity.
  - cbn [Re.sub_from amp_escaped]. unfold Re.match_here. cbn [Re.m].
    rewrite (Ascii.eqb_sym a "&").
    destruct (Ascii.eqb "&" a).
    + cbn [Re.rest].
      assert (Hl : (String.length s <? String.length (String a s))%nat = true)
        by (apply Nat.ltb_lt; simpl; lia).
      rewrite Hl. rewrite IH; [reflexivity | simpl in Hfuel; lia].
    + rewrite IH; [reflexivity | simpl in Hfuel; lia].
Qed.

(** The module's [escape] replaces each [&] by [&amp;] and changes
    nothing else. *)
Lemma escape_amp (s : string) : Processor.escape s = amp_escaped s.
Proof.
  unfold Processor.escape, Processor.RULES. cbn [fold_left fst snd].
  unfold Re.sub. apply sub_from_amp. lia.
Qed.

Lemma emits_prog_ret {A : Type} (P : call -> bool) (a : A) :
  emits_prog P (Ret a).
Proof.
  intros w h. exists []. simpl. rewrite app_nil_r. split; reflexivity.
Qed.

Lemma emits_prog_trigger (P : call -> bool) (c : call) :
  P c = true -> emits_prog P (trigger c).
Proof.
  intros Hc w h. exists [c]. simpl. rewrite Hc. split; reflexivity.
Qed.

Lemma emits_prog_bind {A B : Type} (P : call -> bool) (p : prog A)
    (f : A -> prog B) :
  emits_prog P p -> (forall a, emits_prog P (f a)) ->
  emits_prog P (bind p f).
Proof.
  intros Hp Hf w h. rewrite run_bind.
  destruct (Hp w h) as [l1 [E1 H1]].
  destruct (Hf (fst (run p w h)) w (snd (run p w h))) as [l2 [E2 H2]].
  exists (l1 ++ l2)%list. rewrite E2, E1, <- app_assoc.
  split; [reflexivity |]. rewrite forallb_app, H1, H2. reflexivity.
Qed.

Lemma emits_ret {S A : Type} (P : call -> bool) (a : A) :
  emits P (@ret S A a).
Proof. intro s. apply emits_prog_ret. Qed.

Lemma emits_raise {S A : Type} (P : call -> bool) (e : exn) :
  emits P (@raise S A e).
Proof. intro s. apply emits_prog_ret. Qed.

Lemma emits_get {S : Type} (P : call -> bool) : emits P (@get S).
Proof. intro s. apply emits_prog_ret. Qed.

Lemma emits_arg {S : Type} (P : call -> bool) (o : option string) :
  emits P (@arg S o).
Proof. destruct o; [apply emits_ret | apply emits_raise]. Qed.

Lemma emits_lift {S A : Type} (P : call -> bool) (p : prog A) :
  emits_prog P p -> emits P (@lift S A p).
Proof.
  intros Hp s. unfold lift. apply emits_prog_bind; [exact Hp |].
  intro a. apply emits_prog_ret.
Qed.

Lemma emits_bindM {S A B : Type} (P : call -> bool) (m : M S A)
    (f : A -> M S B) :
  emits P m -> (forall a, emits P (f a)) -> emits P (bindM m f).
Proof.
  intros Hm Hf s. unfold bindM. apply emits_prog_bind; [apply Hm |].
  intros [[a | e] s']; [apply Hf | apply emits_prog_ret].
Qed.

Lemma emits_exists (UC : UnitexConstants) (P : call -> bool) (path : string) :
  P (os_path_exists path) = true -> P (unitex_ls path) = true ->
  emits_prog P (IO.exists_ UC path).
Proof.
  intros H1 H2. unfold IO.exists_.
  destruct (negb _).
  - apply emits_prog_trigger. exact H1.
  - apply emits_prog_bind.
    + apply emits_prog_trigger. exact H2.
    + intro l. apply emits_prog_ret.
Qed.

(** Walks through a method as [preserve] does, for the calls. *)
Ltac emit :=
  repeat first
    [ apply emits_ret | apply emits_raise | apply emits_get | apply emits_arg
    | apply emits_lift; first
        [ apply emits_prog_trigger; reflexivity
        | apply emits_exists; reflexivity ]
    | apply emits_bindM; [| intro]
    | match goal with
      | |- emits _ (match ?x with _ => _ end) => destruct x
      | |- emits _ (if ?x then _ else _) => destruct x
      | |- emits _ (let '(_, _) := ?x in _) => destruct x
      end ].

Lemma emits_locate (UC : UnitexConstants) (g mm om : string) :
  emits (fun c => negb (is_output_call c))
        (Processor.UnitexProcessor._locate UC g mm om).
Proof. unfold Processor.UnitexProcessor._locate. emit. Qed.

Lemma emits_concord (UC : UnitexConstants) (index : string) (merge : bool)
    (output : option string) :
  emits (fun c => negb (is_output_call c))
        (Processor.UnitexProcessor._concord UC index merge output).
Proof. unfold Processor.UnitexProcessor._concord. emit. Qed.

(** C4. When [tag] with [xml=True] returns, the calls it made end with:
    the opening of the output file for writing in UTF-8; the write of the
    declaration line; the write of the [TAGFILE] line with the grammar
    path in its [query] attribute; the read of the temporary merge file;
    the write of what was read with each [&] replaced by [&amp;] and no
    other change; the write of the closing line; the closing of the
    file; and last the removal of the temporary merge file.  None of the
    calls before these touches the output or removes a file, so the text
    written to the output is exactly the four pieces in that order. *)
Theorem tag_xml_writes_envelope (UC : UnitexConstants)
    (grammar output : string) (match_mode output_mode : option string)
    (self : Processor.UnitexProcessor.obj) (w : world) (h : list call)
    (b : bool) :
  fst (fst (run (Processor.UnitexProcessor.tag UC grammar output true
                   match_mode output_mode self) w h)) = Val b ->
  exists d before content,
    let _output :=
      if virtualization (Processor.UnitexProcessor.__config self)
      then VFS_PREFIX UC ++ PosixPath.join d "concord-merge-temp.txt"
      else PosixPath.join d "concord-merge-temp.txt" in
    let declaration :=
      "<?xml version='1.0' encoding='UTF-8'?>" ++ String "010" "" in
    let opening := "<TAGFILE query='" ++ grammar ++ "'>" ++ String "010" "" in
    let closing := "</TAGFILE>" ++ String "010" "" in
    let calls :=
      (before ++
       [file_open output "w" "utf-8";
        file_write output declaration;
        file_write output opening;
        unitex_read_file _output;
        file_write output (amp_escaped content);
        file_write output closing;
        file_close output;
        unitex_rm _output])%list in
    b = true /\
    Processor.UnitexProcessor.__dir self = Some d /\
    snd (run (Processor.UnitexProcessor.tag UC grammar output true
                match_mode output_mode self) w h) = (h ++ calls)%list /\
    forallb (fun c => negb (is_output_call c)) before = true /\
    content
    = w (unitex_read_file _output)
        (h ++ before ++ [file_open output "w" "utf-8";
                         file_write output declaration;
                         file_write output opening])%list /\
    written output calls
    = declaration ++ opening ++ amp_escaped content ++ closing.
Proof.
  unfold Processor.UnitexProcessor.tag.
  set (mm := match match_mode with
             | Some x => x
             | None => MATCH_MODE_LONGEST UC
             end).
  set (om := match output_mode with
             | Some x => x
             | None => OUTPUT_MODE_MERGE UC
             end).
  destruct (in_list mm _); cbn [negb]; [| intro H; discriminate H].
  destruct (in_list om _); cbn [negb]; [| intro H; discriminate H].
  rewrite run_bindM.
  pose proof (preserves_locate UC grammar mm om self w h) as Hs1.
  destruct (emits_locate UC grammar mm om self w h) as [l1 [Hh1 Hl1]].
  destruct (run (Processor.UnitexProcessor._locate UC grammar mm om self) w h)
    as [[[index | e] s1] h1]; cbn [fst snd] in *; subst s1 h1;
    [| intro H; discriminate H].
  cbn [negb].
  rewrite run_bindM. cbn [get run fst snd].
  destruct (Processor.UnitexProcessor.__dir self) as [d |] eqn:Ed;
    [| intro H; discriminate H].
  rewrite run_bindM. cbn [arg ret run fst snd].
  set (_output := if virtualization (Processor.UnitexProcessor.__config self)
                  then VFS_PREFIX UC ++ PosixPath.join d "concord-merge-temp.txt"
                  else PosixPath.join d "concord-merge-temp.txt").
  rewrite run_bindM.
  pose proof (preserves_concord UC index true (Some _output) self w
                (h ++ l1)%list) as Hs2.
  destruct (emits_concord UC index true (Some _output) self w (h ++ l1)%list)
    as [l2 [Hh2 Hl2]].
  destruct (run (Processor.UnitexProcessor._concord UC index true
                   (Some _output) self) w (h ++ l1)%list)
    as [[[result | e] s2] h2]; cbn [fst snd] in *; subst s2 h2;
    [| intro H; discriminate H].
  rewrite run_bindM, run_lift. cbn [fst snd].
  destruct (emits_exists UC (fun c => negb (is_output_call c)) _output
              eq_refl eq_refl w ((h ++ l1) ++ l2)%list) as [l3 [Hh3 Hl3]].
  destruct (run (IO.exists_ UC _output) w ((h ++ l1) ++ l2)%list)
    as [e h3]; cbn [fst snd] in *; subst h3.
  destruct e; cbn [negb]; [| intro H; discriminate H].
  simpl. intro H. injection H as <-.
  exists d, (l1 ++ l2 ++ l3)%list.
  eexists. cbv zeta. fold _output.
  split; [reflexivity |].
  split; [reflexivity |].
  split; [| split; [| split]].
  - rewrite escape_amp. repeat rewrite <- app_assoc. reflexivity.
  - rewrite !forallb_app, Hl1, Hl2, Hl3. reflexivity.
  - repeat rewrite <- app_assoc. reflexivity.
  - set (before := (l1 ++ l2 ++ l3)%list).
    assert (Hb : forallb (fun c => negb (is_output_call c)) before = true)
      by (unfold before; rewrite !forallb_app, Hl1, Hl2, Hl3; reflexivity).
    clearbody before. clear - Hb.
    induction before as [| c before IH].
    + simpl. rewrite String.eqb_refl. reflexivity.
    + cbn [forallb] in Hb. apply andb_true_iff in Hb.
      destruct Hb as [Hc Hb]. specialize (IH Hb).
      destruct c; try discriminate Hc; exact IH.
Qed.

(** A session on [corpus/foo.txt], the grammar [g.fst2], and a merged
    concordance that reads [A & B]: the output gets the declaration, the
    [TAGFILE] line for [g.fst2], the body [A &amp; B] and the closing
    line, and the temporary file is removed last. *)
Lemma tag_xml_writes_envelope_witness :
  exists before,
    snd (run (Processor.UnitexProcessor.tag constants "g.fst2" "out.xml" true
                None None
                (opened_processor constants (sample_config false false) None
                   "corpus/foo.txt"))
           (sample_world "A & B") [])
    = (before ++
       [file_open "out.xml" "w" "utf-8";
        file_write "out.xml"
          ("<?xml version='1.0' encoding='UTF-8'?>" ++ String "010" "");
        file_write "out.xml"
          ("<TAGFILE query='g.fst2'>" ++ String "010" "");
        unitex_read_file "corpus/foo_snt/concord-merge-temp.txt";
        file_write "out.xml" "A &amp; B";
        file_write "out.xml" ("</TAGFILE>" ++ String "010" "");
        file_close "out.xml";
        unitex_rm "corpus/foo_snt/concord-merge-temp.txt"])%list.
Proof.
  destruct (tag_xml_writes_envelope constants "g.fst2" "out.xml" None None
              (opened_processor constants (sample_config false false) None
                 "corpus/foo.txt")
              (sample_world "A & B") [] true eq_refl)
    as [d [before [content [_ [Hd [Hcalls [_ [Hcontent _]]]]]]]].
  exists before. rewrite Hcalls.
  injection Hd as <-. simpl in Hcontent. subst content. reflexivity.
Defined.

(** ** What [_load] tracks *)

(** A method keeps an invariant of the object. *)
Lemma keeps_bindM {S A B : Type} (I : S -> Prop) (m : M S A)
    (f : A -> M S B) :
  keeps I m -> (forall a, keeps I (f a)) -> keeps I (bindM m f).
Proof.
  intros Hm Hf s w h Hs. rewrite run_bindM.
  specialize (Hm s w h Hs).
  destruct (fst (run (m s) w h)) as [[a | e] s']; simpl in *.
  - apply Hf. exact Hm.
  - exact Hm.
Qed.

Lemma keeps_preserves {S A : Type} (I : S -> Prop) (m : M S A) :
  preserves m -> keeps I m.
Proof. intros Hm s w h Hs. rewrite Hm. exact Hs. Qed.

(** The list of persisted objects holds kinds and handles. *)
Lemma keeps_append (UC : UnitexConstants) (k : resource_kind) (o : string) :
  keeps (well_tracked UC)
        (Processor.UnitexProcessor.persisted_append (kind_name UC k) o).
Proof.
  intros s w h [es Hes].
  unfold Processor.UnitexProcessor.persisted_append, bindM, get;
    cbn [bind]. rewrite Hes. simpl.
  exists (es ++ [(k, o)])%list. rewrite map_app. reflexivity.
Qed.

Lemma keeps_set_resources (UC : UnitexConstants) (r : Resources) :
  keeps (well_tracked UC) (Processor.UnitexProcessor.set_resources r).
Proof. intros s w h Hs. exact Hs. Qed.

Lemma keeps_load_dictionaries (UC : UnitexConstants) (l : list string) :
  forall acc : M Processor.UnitexProcessor.obj (list string),
    keeps (well_tracked UC) acc ->
    keeps (well_tracked UC)
      (fold_left
         (fun acc dictionary =>
            _objects <- acc ;;
            _object <- lift (trigger (load_persistent_dictionary dictionary)) ;;
            Processor.UnitexProcessor.persisted_append
              (RESOURCE_DICTIONARY UC) _object ;;
            ret (_objects ++ [_object])%list)
         l acc).
Proof.
  induction l as [| d l IH]; intros acc Hacc; cbn [fold_left];
    [exact Hacc |].
  apply IH.
  apply keeps_bindM; [exact Hacc | intro objs].
  apply keeps_bindM; [apply keeps_preserves, preserves_lift | intro o].
  apply keeps_bindM; [apply (keeps_append UC Dictionary) | intros _].
  apply keeps_preserves, preserves_ret.
Qed.

(** After [__init__], a processor without persistence tracks nothing, and
    a processor with persistence tracks a list of kinds and handles. *)
Lemma init_tracks (UC : UnitexConstants) (config : Config) (w : world)
    (h : list call) :
  let self := snd (fst (run (Processor.UnitexProcessor.init UC config) w h)) in
  if persistence config
  then well_tracked UC self
  else Processor.UnitexProcessor.__persisted_objects self = None.
Proof.
  unfold Processor.UnitexProcessor.init, Processor.UnitexProcessor._load.
  rewrite run_bindM.
  cbn [get run fst snd Processor.UnitexProcessor.__config].
  destruct (persistence config); cbn [negb]; [| reflexivity].
  rewrite run_bindM.
  cbn [Processor.UnitexProcessor.set_persisted_objects run fst snd].
  match goal with
  | |- well_tracked UC (snd (fst (run (?m ?s) w h))) =>
      assert (Hk : keeps (well_tracked UC) m)
  end.
  { repeat (apply keeps_bindM;
            [apply keeps_bindM;
             [apply keeps_preserves, preserves_get | intro];
             match goal with
             | |- keeps _ (match ?x with _ => _ end) =>
                 destruct x; [| apply keeps_preserves, preserves_ret]
             end;
             apply keeps_bindM;
             [apply keeps_preserves, preserves_lift | intro];
             apply keeps_bindM;
             [first [apply (keeps_append UC Alphabet)
                    | apply (keeps_append UC Grammar)] | intro];
             apply keeps_set_resources
            | intro]).
    apply keeps_bindM; [apply keeps_preserves, preserves_get | intro].
    match goal with
    | |- keeps _ (match ?x with _ => _ end) =>
        destruct x; [| apply keeps_preserves, preserves_ret]
    end.
    apply keeps_bindM.
    - apply keeps_load_dictionaries. apply keeps_preserves, preserves_ret.
    - intro objs.
      apply keeps_bindM; [apply keeps_preserves, preserves_get | intro].
      apply keeps_set_resources. }
  apply Hk. exists []. reflexivity.
Qed.

(** ** The orchestrator: teardown *)

Lemma run_free_loop (UC : UnitexConstants) :
  kinds_distinct UC ->
  forall es self w h,
    run (for_ (map (tracked UC) es) (Processor.UnitexProcessor.free_one UC)
           self) w h
    = ((Val tt, self), (h ++ map release es)%list).
Proof.
  intros [Hgd [Hga Hda]].
  induction es as [| [k o] es IH]; intros self w h; cbn [map for_].
  - simpl. rewrite app_nil_r. reflexivity.
  - rewrite run_bindM.
    assert (E : run (Processor.UnitexProcessor.free_one UC
                       (tracked UC (k, o)) self) w h
                = ((Val tt, self), (h ++ [release (k, o)])%list)).
    { unfold Processor.UnitexProcessor.free_one, tracked, release; simpl.
      destruct k; simpl.
      - rewrite String.eqb_refl. simpl.
        destruct (w (free_persistent_fst2 o) h). reflexivity.
      - apply not_eq_sym in Hgd. apply String.eqb_neq in Hgd.
        rewrite Hgd, String.eqb_refl. simpl.
        destruct (w (free_persistent_dictionary o) h). reflexivity.
      - apply not_eq_sym in Hga. apply String.eqb_neq in Hga.
        apply not_eq_sym in Hda. apply String.eqb_neq in Hda.
        rewrite Hga, Hda, String.eqb_refl. simpl.
        destruct (w (free_persistent_alphabet o) h). reflexivity. }
    rewrite E. cbn [fst snd]. rewrite IH. rewrite <- app_assoc. reflexivity.
Qed.

(** C9, as the code has it.  When the names of the three kinds differ,
    [_free] calls, for every tracked handle in tracking order, the free
    operation that matches the handle's kind, and leaves the processor as
    it was; when nothing was persisted (no list, or an empty one) it makes
    no call at all.  The processor that [__init__] leaves is of the one
    sort or of the other: with persistence it tracks kinds and handles,
    all of which [_free] releases; without persistence [_free] does
    nothing. *)
Theorem free_releases_tracked (UC : UnitexConstants)
    (self : Processor.UnitexProcessor.obj) :
  kinds_distinct UC ->
  (forall es w h,
     Processor.UnitexProcessor.__persisted_objects self
     = Some (map (tracked UC) es) ->
     run (Processor.UnitexProcessor._free UC self) w h
     = ((Val tt, self), (h ++ map release es)%list)) /\
  (Processor.UnitexProcessor.__persisted_objects self = None \/
   Processor.UnitexProcessor.__persisted_objects self = Some [] ->
   Processor.UnitexProcessor._free UC self = Ret (Val tt, self)) /\
  (forall config w0 h0,
     let loaded :=
       snd (fst (run (Processor.UnitexProcessor.init UC config) w0 h0)) in
     if persistence config
     then exists es,
            Processor.UnitexProcessor.__persisted_objects loaded
            = Some (map (tracked UC) es) /\
            forall w h,
              run (Processor.UnitexProcessor._free UC loaded) w h
              = ((Val tt, loaded), (h ++ map release es)%list)
     else Processor.UnitexProcessor._free UC loaded
          = Ret (Val tt, loaded)).
Proof.
  intro Hd.
  assert (Hfree : forall s es w h,
            Processor.UnitexProcessor.__persisted_objects s
            = Some (map (tracked UC) es) ->
            run (Processor.UnitexProcessor._free UC s) w h
            = ((Val tt, s), (h ++ map release es)%list)).
  { intros s es w h Hp.
    unfold Processor.UnitexProcessor._free, bindM, get; cbn [bind].
    rewrite Hp. apply run_free_loop. exact Hd. }
  assert (Hnone : forall s,
            Processor.UnitexProcessor.__persisted_objects s = None \/
            Processor.UnitexProcessor.__persisted_objects s = Some [] ->
            Processor.UnitexProcessor._free UC s = Ret (Val tt, s)).
  { intros s [Hp | Hp];
      unfold Processor.UnitexProcessor._free, bindM, get; cbn [bind];
      rewrite Hp; reflexivity. }
  split; [apply Hfree | split; [apply Hnone |]].
  intros config w0 h0 loaded.
  pose proof (init_tracks UC config w0 h0) as Hi. fold loaded in Hi.
  destruct (persistence config).
  - destruct Hi as [es Hes]. exists es. split; [exact Hes |].
    intros w h. apply Hfree. exact Hes.
  - apply Hnone. left. exact Hi.
Qed.

(** A processor that tracks an alphabet, a grammar and a dictionary. *)
Lemma free_releases_tracked_witness :
  kinds_distinct constants /\
  run (Processor.UnitexProcessor._free constants
         (closed_processor (sample_config true false)
            (Some [("alphabet", "a"); ("grammar", "g"); ("dictionary", "d")])))
      (sample_world "") []
  = ((Val tt,
      closed_processor (sample_config true false)
        (Some [("alphabet", "a"); ("grammar", "g"); ("dictionary", "d")])),
     [free_persistent_alphabet "a"; free_persistent_fst2 "g";
      free_persistent_dictionary "d"]) /\
  Processor.UnitexProcessor._free constants
    (closed_processor (sample_config false false) None)
  = Ret (Val tt, closed_processor (sample_config false false) None).
Proof.
  assert (Hd : kinds_distinct constants).
  { repeat split; discriminate. }
  split; [exact Hd | split].
  - apply (proj1 (free_releases_tracked constants
                    (closed_processor (sample_config true false)
                       (Some [("alphabet", "a"); ("grammar", "g");
                              ("dictionary", "d")])) Hd)
             [(Alphabet, "a"); (Grammar, "g"); (Dictionary, "d")]).
    reflexivity.
  - apply (proj1 (proj2 (free_releases_tracked constants
                    (closed_processor (sample_config false false) None) Hd))).
    left. reflexivity.
Defined.

(** C9 as stated fails: a second [_free] is not a no-op.  The processor
    keeps its list of handles, so the second invocation frees the grammar
    handle again. *)
Lemma free_twice_frees_twice :
  ~ (forall (UC : UnitexConstants) (self : Processor.UnitexProcessor.obj)
            (w : world),
       trace (bindM (Processor.UnitexProcessor._free UC)
                (fun _ => Processor.UnitexProcessor._free UC) self) w
       = trace (Processor.UnitexProcessor._free UC self) w).
Proof.
  intro H.
  specialize (H constants
                (closed_processor (sample_config true false)
                   (Some [("grammar", "g")]))
                (sample_world "")).
  vm_compute in H. discriminate H.
Qed.


(** ** The file handle through a cycle of use *)

(** X1. A handle that is closed refuses [close]; once opened it can be
    closed, which takes it back to a closed handle (only the BOM flag of
    the last [open] stays), so that a further [open] is accepted and
    records its own file, mode (['r'] when none is given) and flag.  None
    of this calls the native layer: [open] does not look at the file. *)
Theorem UnitexFile_open_close_cycle (f : IO.UnitexFile.obj)
    (file : string) (mode : option string) (use_bom : bool) :
  IO.UnitexFile.__path f = None ->
  (exists msg,
     IO.UnitexFile.close f = Ret (Exc (UnitexException msg), f)) /\
  (IO.UnitexFile.open file mode use_bom ;; IO.UnitexFile.close) f
  = Ret (Val tt, {| IO.UnitexFile.__use_bom := Some use_bom;
                    IO.UnitexFile.__path := None;
                    IO.UnitexFile.__mode := None |}) /\
  (forall file' mode' use_bom',
     (IO.UnitexFile.open file mode use_bom ;; IO.UnitexFile.close ;;
      IO.UnitexFile.open file' mode' use_bom') f
     = Ret (Val tt,
            {| IO.UnitexFile.__use_bom := Some use_bom';
               IO.UnitexFile.__path := Some file';
               IO.UnitexFile.__mode :=
                 Some (match mode' with None => "r" | Some x => x end) |})).
Proof.
  destruct f as [bom path m]. simpl. intro Hp. subst path.
  split; [eexists; reflexivity |].
  split; [reflexivity |].
  intros file' mode' use_bom'. reflexivity.
Qed.

Lemma UnitexFile_open_close_cycle_witness :
  (IO.UnitexFile.open "a.txt" None false ;; IO.UnitexFile.close)
    IO.UnitexFile.init
  = Ret (Val tt, {| IO.UnitexFile.__use_bom := Some false;
                    IO.UnitexFile.__path := None;
                    IO.UnitexFile.__mode := None |}).
Proof.
  apply (proj1 (proj2 (UnitexFile_open_close_cycle IO.UnitexFile.init
                         "a.txt" None false eq_refl))).
Defined.

(** X2. [write] on an open handle makes exactly one native call and
    leaves the handle as it is: in mode ['w'] the write of the file, with
    the BOM argument 1 exactly when the handle was opened with
    [use_bom=True]; in mode ['a'] the append, which is given no BOM. *)
Theorem UnitexFile_write_dispatch (f : IO.UnitexFile.obj)
    (path data : string) (w : world) (h : list call) :
  IO.UnitexFile.__path f = Some path ->
  (IO.UnitexFile.__mode f = Some "w" ->
   run (IO.UnitexFile.write data f) w h
   = ((Val tt, f),
      (h ++ [unitex_write_file path data
               (match IO.UnitexFile.__use_bom f with
                | Some true => 1%Z
                | _ => 0%Z
                end)])%list)) /\
  (IO.UnitexFile.__mode f = Some "a" ->
   run (IO.UnitexFile.write data f) w h
   = ((Val tt, f), (h ++ [unitex_append_to_file path data])%list)).
Proof.
  destruct f as [bom p m]. simpl. intro Hp. subst p.
  split; intro Hm; subst m; unfold IO.UnitexFile.write, bindM, get; simpl.
  - destruct (w (unitex_write_file path data _) h). reflexivity.
  - destruct (w (unitex_append_to_file path data) h). reflexivity.
Qed.

Lemma UnitexFile_write_dispatch_witness :
  run (IO.UnitexFile.write "text"
         {| IO.UnitexFile.__use_bom := Some true;
            IO.UnitexFile.__path := Some "out.txt";
            IO.UnitexFile.__mode := Some "w" |})
      (sample_world "") []
  = ((Val tt,
      {| IO.UnitexFile.__use_bom := Some true;
         IO.UnitexFile.__path := Some "out.txt";
         IO.UnitexFile.__mode := Some "w" |}),
     [unitex_write_file "out.txt" "text" 1%Z]).
Proof.
  apply (proj1 (UnitexFile_write_dispatch
                  {| IO.UnitexFile.__use_bom := Some true;
                     IO.UnitexFile.__path := Some "out.txt";
                     IO.UnitexFile.__mode := Some "w" |}
                  "out.txt" "text" (sample_world "") [] eq_refl)).
  reflexivity.
Defined.

(** X3. Opening a closed handle and reading it: with no mode, or with
    ['r'], one call reads the file as text and its answer is returned;
    with ['b'] one call reads it as binary; with any other mode the read
    is refused and nothing is called.  The handle stays open on the file
    in every case. *)
Theorem UnitexFile_open_then_read (f : IO.UnitexFile.obj) (file : string)
    (mode : option string) (use_bom : bool) (w : world) (h : list call) :
  IO.UnitexFile.__path f = None ->
  let m := match mode with None => "r" | Some x => x end in
  let opened :=
    {| IO.UnitexFile.__use_bom := Some use_bom;
       IO.UnitexFile.__path := Some file;
       IO.UnitexFile.__mode := Some m |} in
  let r := run ((IO.UnitexFile.open file mode use_bom ;; IO.UnitexFile.read) f)
               w h in
  if m =? "r"
  then r = ((Val (Some (w (unitex_read_file file) h : string)), opened),
            (h ++ [unitex_read_file file])%list)
  else if m =? "b"
  then r = ((Val (Some (w (unitex_read_binary_file file) h : string)), opened),
            (h ++ [unitex_read_binary_file file])%list)
  else exists msg, r = ((Exc (UnitexException msg), opened), h).
Proof.
  destruct f as [bom path m0]. simpl. intro Hp. subst path.
  unfold IO.UnitexFile.open, IO.UnitexFile.read, bindM, get,
    IO.UnitexFile.set_use_bom, IO.UnitexFile.set_path,
    IO.UnitexFile.set_mode, IO.UnitexFile.mode_in, in_list;
    cbn [bind IO.UnitexFile.__path IO.UnitexFile.__mode
         IO.UnitexFile.__use_bom existsb].
  destruct (match mode with None => "r" | Some x => x end =? "r") eqn:Er.
  - cbn [orb negb]. reflexivity.
  - destruct (match mode with None => "r" | Some x => x end =? "b") eqn:Eb.
    + cbn [orb negb]. reflexivity.
    + cbn [orb negb]. eexists. reflexivity.
Qed.

Lemma UnitexFile_open_then_read_witness :
  run ((IO.UnitexFile.open "concord.ind" None false ;; IO.UnitexFile.read)
         IO.UnitexFile.init) (sample_world "abc") []
  = ((Val (Some "abc"),
      {| IO.UnitexFile.__use_bom := Some false;
         IO.UnitexFile.__path := Some "concord.ind";
         IO.UnitexFile.__mode := Some "r" |}),
     [unitex_read_file "concord.ind"]).
Proof.
  apply (UnitexFile_open_then_read IO.UnitexFile.init "concord.ind" None
           false (sample_world "abc") [] eq_refl).
Defined.

(** ** The stages of [open] *)

(** [open] is its staging calls followed by its stages, run on the
    processor with the new session. *)
Lemma run_open_stages (UC : UnitexConstants) (path mode : string)
    (tagged : bool) (self : Processor.UnitexProcessor.obj) (w : world)
    (h : list call) :
  let c := Processor.UnitexProcessor.__config self in
  let d := working_directory path in
  let staging : list call :=
    if virtualization c then [unitex_cp path (VFS_PREFIX UC ++ path)]
    else [] in
  let making : list call :=
    if (w (os_path_exists d) (h ++ staging)%list : bool)
    then [] else [unitex_mkdir d] in
  run (Processor.UnitexProcessor.open UC path mode tagged self) w h
  = run ((Processor.UnitexProcessor._normalize ;;
          when (negb tagged)
            (when (Str.contains mode "s")
               (Processor.UnitexProcessor._segment) ;;
             when (Str.contains mode "r")
               (Processor.UnitexProcessor._replace)) ;;
          when (Str.contains mode "t") (Processor.UnitexProcessor._tokenize) ;;
          when (Str.contains mode "l")
            (Processor.UnitexProcessor._lexicalize))
           (opened_processor UC c
              (Processor.UnitexProcessor.__persisted_objects self) path))
        w (h ++ staging ++ [os_path_exists d] ++ making)%list.
Proof.
  intros c d staging making. subst c d staging making.
  unfold Processor.UnitexProcessor.open, opened_processor, staged,
    working_directory, normalized_text.
  destruct (PosixPath.split path) as [directory filename].
  destruct (PosixPath.splitext filename) as [name extension].
  do 3 (rewrite run_bindM;
        cbn [Processor.UnitexProcessor.set_txt
             Processor.UnitexProcessor.set_snt
             Processor.UnitexProcessor.set_dir run fst snd
             Processor.UnitexProcessor.__config
             Processor.UnitexProcessor.__persisted_objects
             Processor.UnitexProcessor.__txt
             Processor.UnitexProcessor.__snt
             Processor.UnitexProcessor.__dir]).
  set (d := PosixPath.join directory (name ++ "_snt")).
  set (n := PosixPath.join directory (name ++ ".snt")).
  set (c := Processor.UnitexProcessor.__config self).
  set (p := Processor.UnitexProcessor.__persisted_objects self).
  rewrite run_bindM.
  match goal with
  | |- context [run (bindM get ?f ?s) w h] =>
      assert (E : run (bindM get f s) w h
                  = ((Val tt,
                      {| Processor.UnitexProcessor.__config := c;
                         Processor.UnitexProcessor.__persisted_objects := p;
                         Processor.UnitexProcessor.__txt :=
                           Some (if virtualization c
                                 then VFS_PREFIX UC ++ path else path);
                         Processor.UnitexProcessor.__snt :=
                           Some (if virtualization c
                                 then VFS_PREFIX UC ++ n else n);
                         Processor.UnitexProcessor.__dir := Some d |}),
                     (h ++ (if virtualization c
                            then [unitex_cp path (VFS_PREFIX UC ++ path)]
                            else []))%list))
  end.
  { unfold bindM, get; cbn [bind Processor.UnitexProcessor.__config].
    destruct (virtualization c).
    - reflexivity.
    - simpl. rewrite app_nil_r. reflexivity. }
  rewrite E. cbn [fst snd]. clear E.
  set (h1 := (h ++ _)%list).
  set (s' := {| Processor.UnitexProcessor.__config := c |}).
  rewrite run_bindM.
  match goal with
  | |- context [run (bindM get ?f s') w h1] =>
      assert (E : run (bindM get f s') w h1
                  = ((Val tt, s'),
                     (h1 ++ [os_path_exists d]
                         ++ (if (w (os_path_exists d) h1 : bool)
                             then [] else [unitex_mkdir d]))%list))
  end.
  { unfold bindM, get; cbn [bind]. simpl.
    destruct (w (os_path_exists d) h1); simpl.
    - reflexivity.
    - rewrite <- app_assoc. reflexivity. }
  rewrite E. cbn [fst snd]. clear E.
  subst h1. rewrite <- app_assoc. reflexivity.
Qed.

Lemma walk_app (w : world) (l1 l2 : list (call * string)) :
  forall h,
    walk w h (l1 ++ l2)
    = match fst (walk w h l1) with
      | Val _ => walk w (snd (walk w h l1)) l2
      | Exc e => (Exc e, snd (walk w h l1))
      end.
Proof.
  induction l1 as [| [c msg] l1 IH]; intro h; cbn [app walk].
  - reflexivity.
  - destruct (answered w c h); [apply IH | reflexivity].
Qed.

Lemma runs_as_nil {S : Type} (s : S) : runs_as (ret tt) s [].
Proof. intros w h. reflexivity. Qed.

Lemma runs_as_seq {S : Type} (m1 m2 : M S unit) (s : S)
    (l1 l2 : list (call * string)) :
  runs_as m1 s l1 -> runs_as m2 s l2 -> runs_as (m1 ;; m2) s (l1 ++ l2).
Proof.
  intros H1 H2 w h. rewrite run_bindM, (H1 w h), walk_app. cbn [fst snd].
  destruct (fst (walk w h l1)) as [[] | e].
  - rewrite (H2 w (snd (walk w h l1))).
    destruct (walk w (snd (walk w h l1)) l2). reflexivity.
  - reflexivity.
Qed.

Lemma runs_as_when {S : Type} (c : bool) (m : M S unit) (s : S)
    (l : list (call * string)) :
  runs_as m s l -> runs_as (when c m) s (if c then l else []).
Proof. intro H. destruct c; [exact H | apply runs_as_nil]. Qed.

(** X4. Without an alphabet no stage after the normalization can run:
    segmentation, replacement, tokenization, lexicalization, locate and
    concordance each raise the configuration error at once, before any
    call, and leave the processor as it is. *)
Theorem stages_require_alphabet (UC : UnitexConstants)
    (self : Processor.UnitexProcessor.obj) :
  alphabet (resources (Processor.UnitexProcessor.__config self)) = None ->
  (exists msg, Processor.UnitexProcessor._segment self
               = Ret (Exc (UnitexException msg), self)) /\
  (exists msg, Processor.UnitexProcessor._replace self
               = Ret (Exc (UnitexException msg), self)) /\
  (exists msg, Processor.UnitexProcessor._tokenize self
               = Ret (Exc (UnitexException msg), self)) /\
  (exists msg, Processor.UnitexProcessor._lexicalize self
               = Ret (Exc (UnitexException msg), self)) /\
  (forall grammar match_mode output_mode, exists msg,
     Processor.UnitexProcessor._locate UC grammar match_mode output_mode self
     = Ret (Exc (UnitexException msg), self)) /\
  (forall index merge output, exists msg,
     Processor.UnitexProcessor._concord UC index merge output self
     = Ret (Exc (UnitexException msg), self)).
Proof.
  intro Ha.
  repeat split; intros;
    unfold Processor.UnitexProcessor._segment,
      Processor.UnitexProcessor._replace,
      Processor.UnitexProcessor._tokenize,
      Processor.UnitexProcessor._lexicalize,
      Processor.UnitexProcessor._locate,
      Processor.UnitexProcessor._concord, bindM, get; cbn [bind];
    rewrite Ha.
  - destruct (sentence _); eexists; reflexivity.
  - destruct (replace _); eexists; reflexivity.
  - eexists; reflexivity.
  - destruct (dictionaries _) as [[| x l] |]; eexists; reflexivity.
  - eexists; reflexivity.
  - eexists; reflexivity.
Qed.

Lemma stages_require_alphabet_witness :
  exists msg,
    Processor.UnitexProcessor._tokenize
      (closed_processor
         {| persistence := false; virtualization := false;
            resources := {| alphabet := None; alphabet_sorted := None;
                            sentence := None; replace := None;
                            dictionaries := None |};
            tools := sample_tools |} None)
    = Ret (Exc (UnitexException msg),
           closed_processor
             {| persistence := false; virtualization := false;
                resources := {| alphabet := None; alphabet_sorted := None;
                                sentence := None; replace := None;
                                dictionaries := None |};
                tools := sample_tools |} None).
Proof.
  apply (proj1 (proj2 (proj2 (stages_require_alphabet constants
           (closed_processor
              {| persistence := false; virtualization := false;
                 resources := {| alphabet := None; alphabet_sorted := None;
                                 sentence := None; replace := None;
                                 dictionaries := None |};
                 tools := sample_tools |} None) eq_refl)))).
Defined.

Lemma open_stages_run (UC : UnitexConstants) (c : Config)
    (p : option (list (string * string))) (path mode : string)
    (tagged : bool) (a s r d : string) (ds : list string) :
  alphabet (resources c) = Some a ->
  sentence (resources c) = Some s ->
  replace (resources c) = Some r ->
  dictionaries (resources c) = Some (d :: ds) ->
  runs_as
    (Processor.UnitexProcessor._normalize ;;
     when (negb tagged)
       (when (Str.contains mode "s") (Processor.UnitexProcessor._segment) ;;
        when (Str.contains mode "r") (Processor.UnitexProcessor._replace)) ;;
     when (Str.contains mode "t") (Processor.UnitexProcessor._tokenize) ;;
     when (Str.contains mode "l") (Processor.UnitexProcessor._lexicalize))
    (opened_processor UC c p path)
    (stages_of (tools c) mode tagged (staged UC c path)
       (staged UC c (normalized_text path)) a s r (d :: ds)).
Proof.
  intros Ha Hs Hr Hd.
  assert (Hc : Processor.UnitexProcessor.__config
                 (opened_processor UC c p path) = c) by reflexivity.
  unfold stages_of.
  match goal with
  | |- runs_as _ _ (?n ++ ?A ++ ?B ++ ?T ++ ?L)%list =>
      replace (n ++ A ++ B ++ T ++ L)%list
        with (n ++ (A ++ B) ++ (T ++ L))%list
        by (rewrite <- (app_assoc A B); reflexivity)
  end.
  apply runs_as_seq.
  { intros w h.
    unfold Processor.UnitexProcessor._normalize, bindM, get; cbn [bind].
    simpl. unfold answered.
    destruct (w (normalize _ _) h); reflexivity. }
  apply runs_as_seq.
  { destruct tagged; cbn [negb andb when].
    - apply (runs_as_nil (opened_processor UC c p path)).
    - apply runs_as_seq; apply runs_as_when.
      + intros w h.
        unfold Processor.UnitexProcessor._segment, bindM, get; cbn [bind].
        rewrite Hc, Hs, Ha. simpl. unfold answered.
        destruct (w (fst2txt _ _ _ _) h); reflexivity.
      + intros w h.
        unfold Processor.UnitexProcessor._replace, bindM, get; cbn [bind].
        rewrite Hc, Hr, Ha. simpl. unfold answered.
        destruct (w (fst2txt _ _ _ _) h); reflexivity. }
  apply runs_as_seq; apply runs_as_when.
  - intros w h.
    unfold Processor.UnitexProcessor._tokenize, bindM, get; cbn [bind].
    rewrite Hc, Ha. simpl. unfold answered.
    destruct (w (tokenize _ _ _) h); reflexivity.
  - intros w h.
    unfold Processor.UnitexProcessor._lexicalize, bindM, get; cbn [bind].
    rewrite Hc, Hd, Ha. simpl. unfold answered.
    destruct (w (dico _ _ _ _) h); reflexivity.
Qed.

(** X5. On a processor with an alphabet, both grammars and at least one
    dictionary, [open] makes its staging calls and then runs, in this
    order, the normalization of the original text and the stages that the
    mode selects on the normalized text: segmentation (['s']) and
    replacement (['r']) unless the text is tagged, tokenization (['t']),
    lexicalization (['l']).  It stops at the first stage the engine fails
    and raises that stage's error: no later stage is called.  The session
    is the new one in every case. *)
Theorem open_runs_pipeline (UC : UnitexConstants) (path mode : string)
    (tagged : bool) (self : Processor.UnitexProcessor.obj) (w : world)
    (h : list call) (a s r d : string) (ds : list string) :
  let c := Processor.UnitexProcessor.__config self in
  alphabet (resources c) = Some a ->
  sentence (resources c) = Some s ->
  replace (resources c) = Some r ->
  dictionaries (resources c) = Some (d :: ds) ->
  let wd := working_directory path in
  let staging : list call :=
    if virtualization c then [unitex_cp path (VFS_PREFIX UC ++ path)]
    else [] in
  let making : list call :=
    if (w (os_path_exists wd) (h ++ staging)%list : bool)
    then [] else [unitex_mkdir wd] in
  let staged_calls := (h ++ staging ++ [os_path_exists wd] ++ making)%list in
  let stages :=
    stages_of (tools c) mode tagged (staged UC c path)
      (staged UC c (normalized_text path)) a s r (d :: ds) in
  run (Processor.UnitexProcessor.open UC path mode tagged self) w h
  = ((fst (walk w staged_calls stages),
      opened_processor UC c
        (Processor.UnitexProcessor.__persisted_objects self) path),
     snd (walk w staged_calls stages)).
Proof.
  intros c Ha Hs Hr Hd wd staging making staged_calls stages.
  unfold staged_calls, stages, making, staging, wd.
  rewrite run_open_stages. fold c.
  apply (open_stages_run UC c _ path mode tagged a s r d ds Ha Hs Hr Hd).
Qed.

(** The whole pipeline on [corpus/foo.txt] with a virtualized processor
    in a world where every stage succeeds. *)
Lemma open_runs_pipeline_witness :
  run (Processor.UnitexProcessor.open constants "corpus/foo.txt" "srtl" false
         (closed_processor (sample_config false true) None))
      (sample_world "") []
  = ((Val tt,
      opened_processor constants (sample_config false true) None
        "corpus/foo.txt"),
     [unitex_cp "corpus/foo.txt" "$:corpus/foo.txt";
      os_path_exists "corpus/foo_snt";
      normalize "$:corpus/foo.txt" [];
      fst2txt "Sentence.fst2" "$:corpus/foo.snt" "Alphabet.txt"
        [("start_on_space", PBool false); ("char_by_char", PBool false);
         ("merge", PBool true)];
      fst2txt "Replace.fst2" "$:corpus/foo.snt" "Alphabet.txt"
        [("start_on_space", PBool false); ("char_by_char", PBool false);
         ("merge", PBool false)];
      tokenize "$:corpus/foo.snt" "Alphabet.txt" [];
      dico ["Dela.bin"] "$:corpus/foo.snt" "Alphabet.txt" []]).
Proof.
  apply (open_runs_pipeline constants "corpus/foo.txt" "srtl" false
           (closed_processor (sample_config false true) None)
           (sample_world "") []
           "Alphabet.txt" "Sentence.fst2" "Replace.fst2" "Dela.bin" []
           eq_refl eq_refl eq_refl eq_refl).
Defined.

Lemma emits_when {S : Type} (P : call -> bool) (c : bool) (m : M S unit) :
  emits P m -> emits P (when c m).
Proof. intro H. destruct c; [exact H | apply emits_ret]. Qed.

(** X6. Whatever the world answers, the only calls [open] makes are the
    copy into the virtual namespace, the existence check and the creation
    of the working directory, and the stages normalize, fst2txt, tokenize
    and dico: it removes nothing, reads and writes no file, and never runs
    locate or concord.  When the text is tagged it makes no fst2txt call
    at all, whatever the mode says. *)
Theorem open_only_stages (UC : UnitexConstants) (path mode : string)
    (tagged : bool) (self : Processor.UnitexProcessor.obj) (w : world)
    (h : list call) :
  exists calls,
    snd (run (Processor.UnitexProcessor.open UC path mode tagged self) w h)
    = (h ++ calls)%list /\
    forallb (fun c => is_staging_call c && negb (tagged && is_fst2txt c))
            calls = true.
Proof.
  revert self w h.
  change (emits (fun c => is_staging_call c && negb (tagged && is_fst2txt c))
                (Processor.UnitexProcessor.open UC path mode tagged)).
  unfold Processor.UnitexProcessor.open.
  destruct (PosixPath.split path) as [directory filename].
  destruct (PosixPath.splitext filename) as [name extension].
  assert (Hset : forall m : M Processor.UnitexProcessor.obj unit,
            (forall s, exists s', m s = Ret (Val tt, s')) ->
            emits (fun c => is_staging_call c
                            && negb (tagged && is_fst2txt c)) m).
  { intros m Hm s. destruct (Hm s) as [s' E]. rewrite E.
    apply emits_prog_ret. }
  unfold Processor.UnitexProcessor._normalize,
    Processor.UnitexProcessor._segment, Processor.UnitexProcessor._replace,
    Processor.UnitexProcessor._tokenize,
    Processor.UnitexProcessor._lexicalize.
  destruct tagged; cbn [negb andb when];
    repeat first
      [ apply Hset; intro; eexists; reflexivity
      | apply emits_when
      | progress emit ].
Qed.

(** ** Closing, locating, building concordances *)

(** As [emit], with [known] tried first on every method met. *)
Ltac emit_over known :=
  repeat first
    [ known
    | apply emits_ret | apply emits_raise | apply emits_get | apply emits_arg
    | apply emits_when
    | apply emits_lift; first
        [ apply emits_prog_trigger; reflexivity
        | apply emits_exists; reflexivity ]
    | apply emits_bindM; [| intro]
    | match goal with
      | |- emits _ (match ?x with _ => _ end) => destruct x
      | |- emits _ (if ?x then _ else _) => destruct x
      | |- emits _ (let '(_, _) := ?x in _) => destruct x
      end ].

(** X7. [close] without cleaning, or on a processor that has no session,
    removes nothing and does not raise: it makes no call but those of the
    teardown when [free] is set, and leaves the processor with no
    session. *)
Theorem close_without_cleaning (UC : UnitexConstants) (clean free : bool)
    (self : Processor.UnitexProcessor.obj) (w : world) (h : list call) :
  clean = false \/ Processor.UnitexProcessor.__txt self = None ->
  run (Processor.UnitexProcessor.close UC clean free self) w h
  = ((Val tt,
      closed_processor (Processor.UnitexProcessor.__config self)
        (Processor.UnitexProcessor.__persisted_objects self)),
     if free then snd (run (Processor.UnitexProcessor._free UC self) w h)
     else h).
Proof.
  intro H. unfold Processor.UnitexProcessor.close.
  rewrite run_bindM.
  assert (E : run (when clean (Processor.UnitexProcessor._clean UC) self) w h
              = ((Val tt, self), h)).
  { destruct H as [-> | Ht]; [reflexivity |].
    destruct clean; [| reflexivity].
    cbn [when]. unfold Processor.UnitexProcessor._clean, bindM, get;
      cbn [bind]. rewrite Ht. reflexivity. }
  rewrite E. cbn [fst snd]. rewrite run_bindM.
  destruct free; cbn [when].
  - destruct (free_returns UC self w h) as [l Hl]. rewrite Hl. reflexivity.
  - reflexivity.
Qed.

Lemma close_without_cleaning_witness :
  run (Processor.UnitexProcessor.close constants true false
         (closed_processor (sample_config false true) None))
      (sample_world "") []
  = ((Val tt, closed_processor (sample_config false true) None), []).
Proof.
  apply (close_without_cleaning constants true false
           (closed_processor (sample_config false true) None)
           (sample_world "") []).
  right. reflexivity.
Defined.

(** X8. [tag] without [xml] leaves the writing of the output to the
    engine: whatever the world answers it never opens, writes or closes a
    file itself and removes nothing; and when it returns, it returns
    [True]. *)
Theorem tag_plain_leaves_output_to_engine (UC : UnitexConstants)
    (grammar output : string) (match_mode output_mode : option string)
    (self : Processor.UnitexProcessor.obj) (w : world) (h : list call) :
  (exists calls,
     snd (run (Processor.UnitexProcessor.tag UC grammar output false
                 match_mode output_mode self) w h) = (h ++ calls)%list /\
     forallb (fun c => negb (is_output_call c)) calls = true) /\
  match fst (fst (run (Processor.UnitexProcessor.tag UC grammar output false
                         match_mode output_mode self) w h)) with
  | Val b => b = true
  | Exc _ => True
  end.
Proof.
  split.
  - revert self w h.
    change (emits (fun c => negb (is_output_call c))
              (Processor.UnitexProcessor.tag UC grammar output false
                 match_mode output_mode)).
    unfold Processor.UnitexProcessor.tag. cbn [negb].
    emit_over ltac:(first [apply emits_locate | apply emits_concord]).
  - unfold Processor.UnitexProcessor.tag. cbn [negb].
    destruct (negb (in_list _ _)); [exact I |].
    destruct (negb (in_list _ _)); [exact I |].
    rewrite run_bindM.
    destruct (fst (run (Processor.UnitexProcessor._locate UC grammar _ _ self)
                     w h)) as [[index | e] s1];
      [| exact I].
    rewrite run_bindM.
    destruct (fst (run (Processor.UnitexProcessor._concord UC index true
                          (Some output) s1) w _)) as [[res | e] s2];
      [| exact I].
    rewrite run_bindM, run_lift. cbn [fst snd].
    destruct (fst (run (IO.exists_ UC output) w _)); cbn [negb];
      [reflexivity | exact I].
Qed.

(** X9. When [_locate] returns, what it returns is the path of
    [concord.ind] under the working directory of the session (behind the
    virtual prefix when the processor is virtualized); it has made one
    call to the engine's locate, on the normalized text, with the
    alphabet and with the two modes among the options, which succeeded;
    and the only calls after it are those of the existence check of the
    index, which answered yes. *)
Theorem locate_returns_index (UC : UnitexConstants)
    (grammar match_mode output_mode : string)
    (self : Processor.UnitexProcessor.obj) (w : world) (h : list call)
    (index : string) :
  fst (fst (run (Processor.UnitexProcessor._locate UC grammar match_mode
                   output_mode self) w h)) = Val index ->
  exists a snt d kw,
    alphabet (resources (Processor.UnitexProcessor.__config self)) = Some a /\
    Processor.UnitexProcessor.__snt self = Some snt /\
    Processor.UnitexProcessor.__dir self = Some d /\
    index = staged UC (Processor.UnitexProcessor.__config self)
              (PosixPath.join d "concord.ind") /\
    In ("match_mode", PStr match_mode) kw /\
    In ("output_mode", PStr output_mode) kw /\
    answered w (locate grammar snt a kw) h = true /\
    fst (run (IO.exists_ UC index) w (h ++ [locate grammar snt a kw])%list)
    = true /\
    snd (run (Processor.UnitexProcessor._locate UC grammar match_mode
                output_mode self) w h)
    = snd (run (IO.exists_ UC index) w (h ++ [locate grammar snt a kw])%list).
Proof.
  unfold Processor.UnitexProcessor._locate.
  rewrite run_bindM. cbn [get run fst snd].
  destruct (alphabet (resources (Processor.UnitexProcessor.__config self)))
    as [a |]; [| intro H; discriminate H].
  destruct (negb (in_list match_mode _)); [intro H; discriminate H |].
  destruct (negb (in_list output_mode _)); [intro H; discriminate H |].
  rewrite run_bindM.
  destruct (Processor.UnitexProcessor.__snt self) as [snt |];
    [| intro H; discriminate H].
  cbn [arg ret run fst snd].
  rewrite run_bindM, run_lift. cbn [trigger run fst snd].
  match goal with
  | |- context [w (locate grammar snt a ?k) h] => set (kw := k)
  end.
  destruct (w (locate grammar snt a kw) h) eqn:Ew; cbn [negb];
    [| intro H; discriminate H].
  rewrite run_bindM.
  destruct (Processor.UnitexProcessor.__dir self) as [d |];
    [| intro H; discriminate H].
  cbn [arg ret run fst snd].
  rewrite run_bindM, run_lift. cbn [fst snd].
  match goal with
  | |- context [run (IO.exists_ UC ?i) w _] => set (idx := i)
  end.
  destruct (fst (run (IO.exists_ UC idx) w (h ++ [locate grammar snt a kw])%list))
    eqn:Ee; cbn [negb]; [| intro H; discriminate H].
  cbn [ret run fst snd]. intro H. injection H as <-.
  exists a, snt, d, kw.
  repeat split; try reflexivity.
  - unfold kw. apply in_or_app. left. apply in_or_app. right. left.
    reflexivity.
  - unfold kw. apply in_or_app. right. left. reflexivity.
  - unfold answered. exact Ew.
  - exact Ee.
Qed.

Lemma locate_returns_index_witness :
  exists a snt d kw,
    alphabet (resources (sample_config false true)) = Some a /\
    Some "$:corpus/foo.snt" = Some snt /\
    Some "corpus/foo_snt" = Some d /\
    "$:corpus/foo_snt/concord.ind"
    = staged constants (sample_config false true)
        (PosixPath.join d "concord.ind") /\
    In ("match_mode", PStr "longest") kw /\
    In ("output_mode", PStr "merge") kw /\
    answered (sample_world "") (locate "g.fst2" snt a kw) [] = true /\
    fst (run (IO.exists_ constants "$:corpus/foo_snt/concord.ind")
           (sample_world "") ([] ++ [locate "g.fst2" snt a kw])%list)
    = true /\
    snd (run (Processor.UnitexProcessor._locate constants "g.fst2" "longest"
                "merge"
                (opened_processor constants (sample_config false true) None
                   "corpus/foo.txt")) (sample_world "") [])
    = snd (run (IO.exists_ constants "$:corpus/foo_snt/concord.ind")
             (sample_world "") ([] ++ [locate "g.fst2" snt a kw])%list).
Proof.
  apply (locate_returns_index constants "g.fst2" "longest" "merge"
           (opened_processor constants (sample_config false true) None
              "corpus/foo.txt")
           (sample_world "") [] "$:corpus/foo_snt/concord.ind" eq_refl).
Defined.



(** ** Loading and releasing the persistent resources *)

Lemma run_persisted_append (_type _object : string)
    (s : Processor.UnitexProcessor.obj) (pl : list (string * string))
    (w : world) (h : list call) :
  Processor.UnitexProcessor.__persisted_objects s = Some pl ->
  run (Processor.UnitexProcessor.persisted_append _type _object s) w h
  = ((Val tt,
      {| Processor.UnitexProcessor.__config :=
           Processor.UnitexProcessor.__config s;
         Processor.UnitexProcessor.__persisted_objects :=
           Some (pl ++ [(_type, _object)])%list;
         Processor.UnitexProcessor.__txt := Processor.UnitexProcessor.__txt s;
         Processor.UnitexProcessor.__snt := Processor.UnitexProcessor.__snt s;
         Processor.UnitexProcessor.__dir := Processor.UnitexProcessor.__dir s
      |}), h).
Proof.
  intro Hp. unfold Processor.UnitexProcessor.persisted_append, bindM, get;
    cbn [bind]. rewrite Hp. reflexivity.
Qed.

Lemma run_load_dictionaries (UC : UnitexConstants) (w : world)
    (l : list string) :
  forall (acc : M Processor.UnitexProcessor.obj (list string))
         (self s1 : Processor.UnitexProcessor.obj) (h h1 : list call)
         (objs : list string) (pl : list (string * string)),
    run (acc self) w h = ((Val objs, s1), h1) ->
    Processor.UnitexProcessor.__persisted_objects s1 = Some pl ->
    let got := loaded w h1 (map (fun p => (Dictionary, p)) l) in
    run (fold_left
           (fun acc dictionary =>
              _objects <- acc ;;
              _object <- lift (trigger (load_persistent_dictionary dictionary)) ;;
              Processor.UnitexProcessor.persisted_append
                (RESOURCE_DICTIONARY UC) _object ;;
              ret (_objects ++ [_object])%list)
           l acc self) w h
    = ((Val (objs ++ map snd got)%list,
        {| Processor.UnitexProcessor.__config :=
             Processor.UnitexProcessor.__config s1;
           Processor.UnitexProcessor.__persisted_objects :=
             Some (pl ++ map (tracked UC) got)%list;
           Processor.UnitexProcessor.__txt :=
             Processor.UnitexProcessor.__txt s1;
           Processor.UnitexProcessor.__snt :=
             Processor.UnitexProcessor.__snt s1;
           Processor.UnitexProcessor.__dir :=
             Processor.UnitexProcessor.__dir s1 |}),
       (h1 ++ map matching_load (map (fun p => (Dictionary, p)) l))%list).
Proof.
  induction l as [| d l IH]; intros acc self s1 h h1 objs pl Hacc Hp got.
  - subst got. cbn [fold_left map loaded]. rewrite Hacc, !app_nil_r.
    destruct s1 as [c p t n dd]. simpl in Hp. subst p. reflexivity.
  - cbn [fold_left].
    set (o := (w (load_persistent_dictionary d) h1 : string)).
    rewrite (IH _ self
               {| Processor.UnitexProcessor.__config :=
                    Processor.UnitexProcessor.__config s1;
                  Processor.UnitexProcessor.__persisted_objects :=
                    Some (pl ++ [(RESOURCE_DICTIONARY UC, o)])%list;
                  Processor.UnitexProcessor.__txt :=
                    Processor.UnitexProcessor.__txt s1;
                  Processor.UnitexProcessor.__snt :=
                    Processor.UnitexProcessor.__snt s1;
                  Processor.UnitexProcessor.__dir :=
                    Processor.UnitexProcessor.__dir s1 |}
               h (h1 ++ [load_persistent_dictionary d])%list
               (objs ++ [o])%list
               (pl ++ [(RESOURCE_DICTIONARY UC, o)])%list).
    + subst got. cbn [map loaded fst snd matching_load loaded_handle].
      fold o. cbn [Processor.UnitexProcessor.__config
                   Processor.UnitexProcessor.__txt
                   Processor.UnitexProcessor.__snt
                   Processor.UnitexProcessor.__dir].
      rewrite <- !app_assoc. reflexivity.
    + rewrite run_bindM, Hacc. cbn [fst snd].
      rewrite run_bindM, run_lift. cbn [trigger run fst snd]. fold o.
      rewrite run_bindM, (run_persisted_append _ _ _ pl _ _ Hp).
      reflexivity.
    + reflexivity.
Qed.

(** X11. [__init__] without persistence calls nothing and keeps the
    configuration.  With persistence it loads what is configured, in this
    order and with the operation of each kind: the alphabet, the sorted
    alphabet, the sentence grammar, the replace grammar, each dictionary;
    it tracks every handle it got with its kind, in that order; and the
    configuration it leaves holds the handles in the place of the paths,
    what was not configured staying unset.  A teardown after it (the
    names of the kinds being different) then releases exactly the handles
    that the loads returned, in the order of the loads, each with the free
    operation of the kind it was loaded as. *)
Theorem init_loads_plan (UC : UnitexConstants) (config : Config) (w : world)
    (h : list call) :
  let plan := load_plan (resources config) in
  let got := loaded w h plan in
  let made := run (Processor.UnitexProcessor.init UC config) w h in
  made
  = (if persistence config
     then ((Val tt,
            closed_processor
              {| persistence := persistence config;
                 virtualization := virtualization config;
                 resources := with_handles (resources config) (map snd got);
                 tools := tools config |}
              (Some (map (tracked UC) got))),
           (h ++ map matching_load plan)%list)
     else ((Val tt, closed_processor config None), h)) /\
  (kinds_distinct UC ->
   forall w' h',
     run (Processor.UnitexProcessor._free UC (snd (fst made))) w' h'
     = ((Val tt, snd (fst made)),
        (h' ++ (if persistence config then map release got else []))%list)).
Proof.
  intros plan got made.
  assert (E : made
              = (if persistence config
                 then ((Val tt,
                        closed_processor
                          {| persistence := persistence config;
                             virtualization := virtualization config;
                             resources :=
                               with_handles (resources config) (map snd got);
                             tools := tools config |}
                          (Some (map (tracked UC) got))),
                       (h ++ map matching_load plan)%list)
                 else ((Val tt, closed_processor config None), h)));
    [| split; [exact E |];
       intros Hd w' h'; rewrite E;
       destruct (persistence config); cbn [fst snd];
       unfold Processor.UnitexProcessor._free, bindM, get; cbn [bind];
       cbn [closed_processor Processor.UnitexProcessor.__persisted_objects];
       [apply run_free_loop; exact Hd
       | simpl; rewrite app_nil_r; reflexivity]].
  subst made got plan.
  unfold Processor.UnitexProcessor.init, Processor.UnitexProcessor._load.
  destruct config as [p v [a b s rp ds] t].
  rewrite run_bindM.
  cbn [get run fst snd Processor.UnitexProcessor.__config persistence].
  destruct p; cbn [negb]; [| reflexivity].
  unfold closed_processor.
  rewrite run_bindM.
  cbn [Processor.UnitexProcessor.set_persisted_objects run fst snd
       Processor.UnitexProcessor.__config
       Processor.UnitexProcessor.__txt Processor.UnitexProcessor.__snt
       Processor.UnitexProcessor.__dir].
  destruct a as [a |], b as [b |], s as [s |], rp as [rp |];
    do 4 (rewrite run_bindM;
          match goal with
          | |- context [fst (run ?p w ?hh)] =>
              let r := eval simpl in (run p w hh) in
              change (run p w hh) with r
          end;
          cbn [fst snd]);
    (destruct ds as [ds |];
     [ unfold bindM at 1, get at 1;
       cbn [bind Processor.UnitexProcessor.__config resources dictionaries];
       rewrite run_bindM;
       erewrite run_load_dictionaries; [| reflexivity | reflexivity];
       cbv zeta; cbn [fst snd];
       unfold load_plan, with_handles;
       cbn [alphabet alphabet_sorted sentence replace dictionaries app map
            loaded fst snd hd tl matching_load loaded_handle tracked
            kind_name];
       simpl run; repeat rewrite <- app_assoc; reflexivity
     | simpl; repeat rewrite <- app_assoc; try rewrite app_nil_r;
       reflexivity ]).
Qed.

(** A persistent configuration with an alphabet, two grammars and one
    dictionary, in a world whose handles are the paths. *)
Lemma init_loads_plan_witness :
  run (Processor.UnitexProcessor._free constants
         (snd (fst (run (Processor.UnitexProcessor.init constants
                           (sample_config true false))
                      (sample_world "") []))))
      (sample_world "") [unitex_rm "corpus/foo.snt"]
  = ((Val tt,
      snd (fst (run (Processor.UnitexProcessor.init constants
                       (sample_config true false))
                  (sample_world "") []))),
     [unitex_rm "corpus/foo.snt";
      free_persistent_alphabet "Alphabet.txt";
      free_persistent_fst2 "Sentence.fst2";
      free_persistent_fst2 "Replace.fst2";
      free_persistent_dictionary "Dela.bin"]).
Proof.
  apply (proj2 (init_loads_plan constants (sample_config true false)
                  (sample_world "") [])
           ltac:(repeat split; discriminate)
           (sample_world "") [unitex_rm "corpus/foo.snt"]).
Defined.

(** ** The escaping of the tagged text *)

Lemma amp_escaped_length (s : string) :
  String.length (amp_escaped s)
  = (String.length s + 4 * count_char "&" s)%nat.
Proof.
  induction s as [| a s IH]; [reflexivity |].
  cbn [amp_escaped count_char String.length].
  destruct (Ascii.eqb a "&").
  - cbn [append String.length]. rewrite IH. lia.
  - cbn [String.length]. rewrite IH. lia.
Qed.

Lemma amp_escaped_count (s : string) :
  count_char "&" (amp_escaped s) = count_char "&" s.
Proof.
  induction s as [| a s IH]; [reflexivity |].
  cbn [amp_escaped count_char].
  destruct (Ascii.eqb a "&") eqn:Ea.
  - cbn [append count_char]. rewrite IH. reflexivity.
  - cbn [count_char]. rewrite Ea, IH. reflexivity.
Qed.

Lemma lacks_count (c : ascii) (s : string) :
  lacks c s = true <-> count_char c s = 0%nat.
Proof.
  unfold lacks. induction s as [| a s IH]; cbn [all_chars count_char].
  - split; reflexivity.
  - destruct (Ascii.eqb a c); cbn [negb andb].
    + split; [discriminate | intro H; simpl in H; discriminate H].
    + exact IH.
Qed.

(** X12. The module's [escape] lengthens its argument by four characters
    for each ampersand and by nothing else; it changes a text exactly when
    the text has an ampersand; and it leaves as many ampersands as it
    found, so that escaping a text that was already escaped escapes it
    again. *)
Theorem escape_ampersands_only (s : string) :
  String.length (Processor.escape s)
  = (String.length s + 4 * count_char "&" s)%nat /\
  count_char "&" (Processor.escape s) = count_char "&" s /\
  (if lacks "&" s
   then Processor.escape s = s
   else Processor.escape s <> s /\
        Processor.escape (Processor.escape s) <> Processor.escape s).
Proof.
  rewrite !escape_amp.
  split; [apply amp_escaped_length |].
  split; [apply amp_escaped_count |].
  destruct (lacks "&" s) eqn:El.
  - clear - El. unfold lacks in El.
    induction s as [| a s IH]; [reflexivity |].
    cbn [all_chars] in El. apply andb_true_iff in El.
    destruct El as [Ha Hs]. apply negb_true_iff in Ha.
    cbn [amp_escaped]. rewrite Ha, (IH Hs). reflexivity.
  - assert (Hc : count_char "&" s <> 0%nat).
    { intro H. apply lacks_count in H. rewrite H in El. discriminate El. }
    assert (Hgrow : forall t, count_char "&" t <> 0%nat ->
                              amp_escaped t <> t).
    { intros t Ht E.
      pose proof (amp_escaped_length t) as Hl. rewrite E in Hl. lia. }
    split.
    + apply Hgrow. exact Hc.
    + apply Hgrow. rewrite amp_escaped_count. exact Hc.
Qed.

(** ** Names at the edge of the naming convention *)

Lemma split_bare (p : string) :
  lacks "/" p = true -> PosixPath.split p = ("", p).
Proof.
  intro El. unfold PosixPath.split, PosixPath.sep.
  rewrite (rfind_absent "/" p El). simpl.
  unfold Str.slice_to, Str.slice_from, Str.bound. simpl.
  destruct p; reflexivity.
Qed.

Lemma rfind_lower (s : string) (c : ascii) : (-1 <= Str.rfind s c)%Z.
Proof.
  induction s as [| a s IH]; cbn [Str.rfind]; [lia |].
  destruct (Z.leb_spec 0 (Str.rfind s c)); [lia |].
  destruct (Ascii.eqb a c); lia.
Qed.

Lemma splitext_no_dot (p : string) :
  lacks "." p = true -> PosixPath.splitext p = (p, "").
Proof.
  intro El. unfold PosixPath.splitext, PosixPath.extsep.
  rewrite (rfind_absent "." p El).
  pose proof (rfind_lower p PosixPath.sep) as Hl.
  destruct (Z.ltb_spec (Str.rfind p PosixPath.sep) (-1)); [lia | reflexivity].
Qed.

Lemma startswith_lacks (c x : ascii) (name t : string) :
  lacks c name = true -> Ascii.eqb x c = false ->
  Str.startswith (name ++ String x t) (String c "") = false.
Proof.
  intros Hn Hx. unfold Str.startswith.
  destruct name as [| a name']; cbn [append prefix].
  - destruct (Ascii.ascii_dec c x) as [E | E]; [| reflexivity].
    subst x. rewrite Ascii.eqb_refl in Hx. discriminate Hx.
  - unfold lacks in Hn. cbn [all_chars] in Hn. apply andb_true_iff in Hn.
    destruct Hn as [Ha _]. apply negb_true_iff in Ha.
    destruct (Ascii.ascii_dec c a) as [E | E]; [| reflexivity].
    subst a. rewrite Ascii.eqb_refl in Ha. discriminate Ha.
Qed.

(** X13. Opening a file that already has the extension [.snt] makes the
    normalized path the path of the file itself: on a processor that is
    not virtualized the session keeps the same path as original and as
    normalized text, and [close(clean=True)] then removes that file, the
    input, before the working directory. *)
Theorem open_snt_input_removed_by_close (UC : UnitexConstants)
    (dir name mode : string) (tagged : bool)
    (self : Processor.UnitexProcessor.obj) (w0 w : world)
    (h0 h : list call) :
  Str.endswith dir "/" = false ->
  lacks "/" name = true ->
  all_chars (Ascii.eqb ".") name = false ->
  virtualization (Processor.UnitexProcessor.__config self) = false ->
  let path := dir ++ "/" ++ name ++ ".snt" in
  let self' :=
    snd (fst (run (Processor.UnitexProcessor.open UC path mode tagged self)
                w0 h0)) in
  Processor.UnitexProcessor.__txt self' = Some path /\
  Processor.UnitexProcessor.__snt self' = Some path /\
  snd (run (Processor.UnitexProcessor.close UC true false self') w h)
  = (h ++ [unitex_rm path; unitex_rmdir (dir ++ "/" ++ name ++ "_snt")])%list.
Proof.
  intros Hdir Hname Hdots Hv path self'.
  assert (Hn : normalized_text path = path /\
               working_directory path = dir ++ "/" ++ name ++ "_snt").
  { unfold normalized_text, working_directory, path.
    change (dir ++ "/" ++ name ++ ".snt")
      with (dir ++ String "/" (name ++ String "." "snt")).
    rewrite split_dir_file;
      [| rewrite lacks_append, Hname; reflexivity | exact Hdir].
    rewrite (splitext_name_ext name "snt" Hname eq_refl eq_refl Hdots).
    rewrite !join_dir_file;
      try exact Hdir; try (apply startswith_name; assumption).
    split; reflexivity. }
  destruct Hn as [Hn Hw].
  unfold self'. rewrite open_state.
  unfold opened_processor at 1 2, staged. rewrite Hv, Hn.
  cbn [Processor.UnitexProcessor.__txt Processor.UnitexProcessor.__snt].
  split; [reflexivity | split; [reflexivity |]].
  unfold Processor.UnitexProcessor.close.
  rewrite run_bindM. cbn [when]. rewrite run_clean. cbn [fst snd].
  unfold cleaning. rewrite Hv, Hn, Hw. reflexivity.
Qed.

Lemma open_snt_input_removed_by_close_witness :
  snd (run (Processor.UnitexProcessor.close constants true false
              (snd (fst (run (Processor.UnitexProcessor.open constants
                                "corpus/foo.snt" "" false
                                (closed_processor (sample_config false false)
                                   None))
                           (sample_world "") []))))
         (sample_world "") [])
  = [unitex_rm "corpus/foo.snt"; unitex_rmdir "corpus/foo_snt"].
Proof.
  apply (open_snt_input_removed_by_close constants "corpus" "foo" "" false
           (closed_processor (sample_config false false) None)
           (sample_world "") (sample_world "") [] []
           eq_refl eq_refl eq_refl eq_refl).
Defined.

(** X14. Names outside the form [dir/name.ext].  A file name with no
    directory gives a normalized text and a working directory with no
    directory either; a path with no extension gets [.snt] and [_snt]
    appended to its whole file name. *)
Theorem open_names_without_directory_or_extension (UC : UnitexConstants)
    (dir name ext mode : string) (tagged : bool)
    (self : Processor.UnitexProcessor.obj) (w : world) (h : list call) :
  Str.endswith dir "/" = false ->
  lacks "/" name = true ->
  all_chars (Ascii.eqb ".") name = false ->
  lacks "/" ext = true ->
  lacks "." ext = true ->
  let after path :=
    snd (fst (run (Processor.UnitexProcessor.open UC path mode tagged self)
                w h)) in
  let v s := staged UC (Processor.UnitexProcessor.__config self) s in
  (Processor.UnitexProcessor.__snt (after (name ++ "." ++ ext))
   = Some (v (name ++ ".snt")) /\
   Processor.UnitexProcessor.__dir (after (name ++ "." ++ ext))
   = Some (name ++ "_snt")) /\
  (lacks "." name = true ->
   Processor.UnitexProcessor.__snt (after (dir ++ "/" ++ name))
   = Some (v (dir ++ "/" ++ name ++ ".snt")) /\
   Processor.UnitexProcessor.__dir (after (dir ++ "/" ++ name))
   = Some (dir ++ "/" ++ name ++ "_snt")).
Proof.
  intros Hdir Hname Hdots Hext Hdot after v. unfold after, v.
  split.
  - rewrite open_state.
    unfold opened_processor, normalized_text, working_directory.
    cbn [Processor.UnitexProcessor.__snt Processor.UnitexProcessor.__dir].
    change (name ++ "." ++ ext) with (name ++ String "." ext).
    rewrite split_bare; [| rewrite lacks_append, Hname; exact Hext].
    rewrite (splitext_name_ext name ext Hname Hext Hdot Hdots).
    assert (Hj : forall x, PosixPath.join "" x = x).
    { intro x. unfold PosixPath.join. destruct (Str.startswith _ _);
        reflexivity. }
    rewrite !Hj. split; reflexivity.
  - intro Hnd. rewrite open_state.
    unfold opened_processor, normalized_text, working_directory.
    cbn [Processor.UnitexProcessor.__snt Processor.UnitexProcessor.__dir].
    change (dir ++ "/" ++ name) with (dir ++ String "/" name).
    rewrite (split_dir_file dir name Hname Hdir).
    rewrite (splitext_no_dot name Hnd).
    rewrite !join_dir_file;
      try exact Hdir; try (apply startswith_name; assumption).
    split; reflexivity.
Qed.

Lemma open_names_without_directory_or_extension_witness :
  Processor.UnitexProcessor.__snt
    (snd (fst (run (Processor.UnitexProcessor.open constants "foo.txt" ""
                      false (closed_processor (sample_config false false)
                               None))
                 (sample_world "") [])))
  = Some "foo.snt" /\
  Processor.UnitexProcessor.__dir
    (snd (fst (run (Processor.UnitexProcessor.open constants "corpus/foo" ""
                      false (closed_processor (sample_config false false)
                               None))
                 (sample_world "") [])))
  = Some "corpus/foo_snt".
Proof.
  pose proof (open_names_without_directory_or_extension constants "corpus"
                "foo" "txt" "" false
                (closed_processor (sample_config false false) None)
                (sample_world "") []
                eq_refl eq_refl eq_refl eq_refl eq_refl) as [[H1 _] H2].
  split; [exact H1 | exact (proj2 (H2 eq_refl))].
Defined.

(** ** The pattern of [iter] on a line outside the index format *)

Section Fails.

Context {R : Type}.
Variable P : string -> Prop.
Hypothesis P_tail : forall a s, P (String a s) -> P s.

(** A pattern followed by a continuation that fails on every input of a
    family closed under taking tails fails on that family. *)
Lemma m_fails (r : Re.regex) :
  forall (s : string) (c : Re.caps) (k : string -> Re.caps -> option R),
    P s -> (forall s' c', P s' -> k s' c' = None) -> Re.m r s c k = None.
Proof.
  induction r as [a | p | r1 IH1 r2 IH2 | r1 IH1 | r1 IH1 | i r1 IH1];
    intros s c k Hs Hk; cbn [Re.m].
  - destruct s as [| b s']; [reflexivity |].
    destruct (Ascii.eqb a b); [apply Hk, (P_tail b), Hs | reflexivity].
  - destruct s as [| b s']; [reflexivity |].
    destruct (p b); [apply Hk, (P_tail b), Hs | reflexivity].
  - apply IH1; [exact Hs |]. intros s' c' Hs'. apply IH2; assumption.
  - generalize (String.length s). intro fuel. revert s c Hs.
    induction fuel as [| fuel IHf]; intros s c Hs; cbn [Re.star_loop].
    + apply Hk, Hs.
    + rewrite IH1; [apply Hk, Hs | exact Hs |].
      intros s' c' Hs'.
      destruct (String.length s' <? String.length s)%nat;
        [apply IHf, Hs' | reflexivity].
  - rewrite IH1; [apply Hk, Hs | exact Hs | exact Hk].
  - apply IH1; [exact Hs |]. intros s' c' Hs'. apply Hk, Hs'.
Qed.

End Fails.

Lemma lacks_tail (c a : ascii) (s : string) :
  lacks c (String a s) = true -> lacks c s = true.
Proof.
  unfold lacks. cbn [all_chars]. intro H.
  apply andb_true_iff in H. apply H.
Qed.

(** A line without a space has no match of the pattern anywhere. *)
Lemma search_ind_no_space (s : string) :
  lacks " " s = true -> Re.search Processor.ind s = None.
Proof.
  intro Hs.
  assert (Hm : forall t, lacks " " t = true ->
                 Re.match_here Processor.ind t = None).
  { intros t Ht. unfold Re.match_here, Processor.ind. cbn [Re.m].
    apply (m_fails (fun x => lacks " " x = true) (lacks_tail " "));
      [exact Ht |].
    intros s' c' Hs'. destruct s' as [| b s'']; [reflexivity |].
    unfold lacks in Hs'. cbn [all_chars] in Hs'.
    apply andb_true_iff in Hs'. destruct Hs' as [Hb _].
    apply negb_true_iff in Hb. rewrite Ascii.eqb_sym, Hb. reflexivity. }
  induction s as [| a s IH]; cbn [Re.search]; rewrite (Hm _ Hs).
  - reflexivity.
  - apply IH. exact (lacks_tail " " a s Hs).
Qed.

Lemma iter_lines_stop (UC : UnitexConstants) (output_mode bad : string)
    (rest : list string) :
  Str.is_empty (Str.rstrip bad) = false ->
  lacks " " (Str.rstrip bad) = true ->
  forall good records,
    Forall (fun l => lacks "010" l = true) good ->
    index_records UC output_mode good = Some records ->
    Processor.UnitexProcessor.iter_lines UC output_mode
      (good ++ bad :: rest)%list
    = (records, Some AttributeError).
Proof.
  intros Hne Hsp good.
  induction good as [| line good IH]; intros records Hl H.
  - simpl in H. injection H as <-.
    cbn [app Processor.UnitexProcessor.iter_lines].
    rewrite Hne, (search_ind_no_space _ Hsp). reflexivity.
  - pose proof (iter_lines_index UC output_mode [line]) as Hone.
    inversion Hl as [| x xs Hline Hgood]; subst x xs.
    cbn [index_records] in H.
    cbn [app Processor.UnitexProcessor.iter_lines].
    cbn [index_records Processor.UnitexProcessor.iter_lines] in Hone.
    destruct (Str.is_empty (Str.rstrip line)); [apply IH; assumption |].
    destruct (index_line (Str.rstrip line)) as [e |]; [| discriminate H].
    destruct (index_records UC output_mode good) as [rs |];
      [| discriminate H].
    injection H as <-.
    specialize (Hone (Forall_cons _ Hline (Forall_nil _)) _ eq_refl).
    destruct (Re.search Processor.ind (Str.rstrip line)) as [found |];
      [| discriminate Hone].
    rewrite (IH rs Hgood eq_refl).
    cbv zeta in Hone |- *. injection Hone as Hone.
    f_equal. f_equal. exact Hone.
Qed.

Lemma run_iter_located (UC : UnitexConstants) (grammar : string)
    (match_mode output_mode : option string)
    (self : Processor.UnitexProcessor.obj) (w : world) (h : list call)
    (index : string) :
  let mm := match match_mode with
            | Some x => x
            | None => MATCH_MODE_LONGEST UC
            end in
  let om := match output_mode with
            | Some x => x
            | None => OUTPUT_MODE_MERGE UC
            end in
  let located :=
    run (Processor.UnitexProcessor._locate UC grammar mm om self) w h in
  let content : string := w (unitex_read_file index) (snd located) in
  fst (fst located) = Val index ->
  run (Processor.UnitexProcessor.iter UC grammar match_mode output_mode self)
      w h
  = ((Processor.UnitexProcessor.iter_lines UC om
        (tl (Str.split content "010")), self),
     (snd located ++ [unitex_read_file index])%list).
Proof.
  intros mm om located content Hloc.
  destruct (locate_value_modes UC grammar mm om index self w h Hloc)
    as [Hmm Hom].
  assert (Hom' : in_list om [OUTPUT_MODE_MERGE UC; OUTPUT_MODE_IGNORE UC;
                             OUTPUT_MODE_REPLACE UC] = true).
  { apply in_list_In. apply in_list_In in Hom. simpl in *. tauto. }
  pose proof (preserves_locate UC grammar mm om self w h) as Hself.
  change (snd (fst located) = self) in Hself.
  unfold Processor.UnitexProcessor.iter, Processor.UnitexProcessor.generator.
  fold mm. rewrite Hmm. cbn [negb]. fold om. rewrite Hom'. cbn [negb].
  rewrite run_bind, run_bindM. fold located.
  unfold content. clearbody located.
  destruct located as [[o s'] h1]. cbn [fst snd] in *. subst o s'.
  reflexivity.
Qed.

(** X15. A line of the index that is not blank and has no space in it
    stops [iter]: the records of the lines before it (all of them in the
    index format, or blank) are yielded, then the iteration ends with an
    [AttributeError], the lookup of the groups of a match that is not
    there; nothing of the lines after it is yielded. *)
Theorem iter_stops_at_line_without_space (UC : UnitexConstants)
    (grammar : string) (match_mode output_mode : option string)
    (self : Processor.UnitexProcessor.obj) (w : world) (h : list call)
    (index header bad : string) (good rest : list string)
    (records : list Processor.match_record) :
  let mm := match match_mode with
            | Some x => x
            | None => MATCH_MODE_LONGEST UC
            end in
  let om := match output_mode with
            | Some x => x
            | None => OUTPUT_MODE_MERGE UC
            end in
  let located :=
    run (Processor.UnitexProcessor._locate UC grammar mm om self) w h in
  let content : string := w (unitex_read_file index) (snd located) in
  fst (fst located) = Val index ->
  Str.split content "010" = (header :: good ++ bad :: rest)%list ->
  index_records UC om good = Some records ->
  Str.is_empty (Str.rstrip bad) = false ->
  lacks " " (Str.rstrip bad) = true ->
  fst (fst (run (Processor.UnitexProcessor.iter UC grammar match_mode
                   output_mode self) w h))
  = (records, Some AttributeError).
Proof.
  intros mm om located content Hloc Hsplit Hrec Hne Hsp.
  rewrite (run_iter_located UC grammar match_mode output_mode self w h index
             Hloc).
  cbn [fst]. fold mm om located content. rewrite Hsplit. cbn [tl].
  apply iter_lines_stop; try assumption.
  pose proof (split_lacks "010" content) as Hs. rewrite Hsplit in Hs.
  inversion Hs as [| x xs _ Hall]; subst x xs.
  apply Forall_app in Hall. apply Hall.
Qed.

Lemma iter_stops_at_line_without_space_witness :
  fst (fst (run (Processor.UnitexProcessor.iter constants "g.fst2" None None
                   (opened_processor constants (sample_config false false)
                      None "corpus/foo.txt"))
              (sample_world
                 ("abc" ++ String "010" ("0 5 Hello" ++ String "010"
                    ("foo" ++ String "010" "6 11 World")))) []))
  = ([ {| Processor.offsets := (Some "0", Some "5");
          Processor.match_ := Some "Hello" |} ], Some AttributeError).
Proof.
  apply (iter_stops_at_line_without_space constants "g.fst2" None None
           (opened_processor constants (sample_config false false) None
              "corpus/foo.txt")
           (sample_world
              ("abc" ++ String "010" ("0 5 Hello" ++ String "010"
                 ("foo" ++ String "010" "6 11 World")))) []
           "corpus/foo_snt/concord.ind" "abc" "foo" ["0 5 Hello"]
           ["6 11 World"]
           [ {| Processor.offsets := (Some "0", Some "5");
                Processor.match_ := Some "Hello" |} ]
           eq_refl eq_refl eq_refl eq_refl eq_refl).
Defined.

(** ** The two states of a processor *)

Lemma preserves_tag (UC : UnitexConstants) (grammar output : string)
    (xml : bool) (match_mode output_mode : option string) :
  preserves (Processor.UnitexProcessor.tag UC grammar output xml match_mode
               output_mode).
Proof. unfold Processor.UnitexProcessor.tag. preserve. Qed.

Lemma iter_state (UC : UnitexConstants) (grammar : string)
    (match_mode output_mode : option string)
    (self : Processor.UnitexProcessor.obj) (w : world) (h : list call) :
  snd (fst (run (Processor.UnitexProcessor.iter UC grammar match_mode
                   output_mode self) w h)) = self.
Proof.
  unfold Processor.UnitexProcessor.iter, Processor.UnitexProcessor.generator.
  rewrite run_bind.
  match goal with
  | |- context [run (?m self) w h] =>
      assert (Hp : preserves m) by preserve;
      specialize (Hp self w h);
      destruct (run (m self) w h) as [[[g | e] s'] h']
  end; cbn [fst snd] in *; exact Hp.
Qed.

Lemma close_state (UC : UnitexConstants) (clean free : bool) (c : Config)
    (p : option (list (string * string))) (session : option string)
    (w : world) (h : list call) :
  fst (run (Processor.UnitexProcessor.close UC clean free
              (processor_in UC c p session)) w h)
  = (Val tt, closed_processor c p).
Proof.
  unfold Processor.UnitexProcessor.close. rewrite run_bindM.
  assert (Hc : exists h1,
            run (when clean (Processor.UnitexProcessor._clean UC)
                   (processor_in UC c p session)) w h
            = ((Val tt, processor_in UC c p session), h1)).
  { destruct clean; cbn [when]; [| eexists; reflexivity].
    destruct session as [path |]; cbn [processor_in].
    - rewrite run_clean. eexists; reflexivity.
    - eexists; reflexivity. }
  destruct Hc as [h1 Hc]. rewrite Hc. cbn [fst snd].
  rewrite run_bindM.
  assert (Hf : exists h2,
            run (when free (Processor.UnitexProcessor._free UC)
                   (processor_in UC c p session)) w h1
            = ((Val tt, processor_in UC c p session), h2)).
  { destruct free; cbn [when]; [| eexists; reflexivity].
    destruct (free_returns UC (processor_in UC c p session) w h1)
      as [l Hl].
    rewrite Hl. eexists; reflexivity. }
  destruct Hf as [h2 Hf]. rewrite Hf. cbn [fst snd].
  destruct session; reflexivity.
Qed.

Lemma perform_state (UC : UnitexConstants) (o : operation) (c : Config)
    (p : option (list (string * string))) (session : option string)
    (w : world) (h : list call) :
  fst (run (perform UC o (processor_in UC c p session)) w h)
  = processor_in UC c p (session_after [o] session).
Proof.
  assert (Hcp : forall s,
            Processor.UnitexProcessor.__config (processor_in UC c p s) = c /\
            Processor.UnitexProcessor.__persisted_objects
              (processor_in UC c p s) = p)
    by (intros [x |]; split; reflexivity).
  destruct o; cbn [perform session_after]; rewrite run_bind; cbn [run fst].
  - rewrite open_state.
    destruct (Hcp session) as [-> ->]. reflexivity.
  - rewrite close_state. reflexivity.
  - apply iter_state.
  - apply preserves_tag.
  - reflexivity.
  - reflexivity.
Qed.

(** X16. A processor has two states and only [open] and [close] move it:
    from a closed processor, or one open on a corpus, any sequence of
    calls of [open], [close], [iter], [tag], [search] and [extract],
    whatever the engine answers and whichever of them raise, leaves the
    processor open on the corpus of the last [open] that no [close]
    follows, and closed otherwise, with its configuration and its tracked
    resources as they were. *)
Theorem session_follows_operations (UC : UnitexConstants)
    (ops : list operation) :
  forall (c : Config) (p : option (list (string * string)))
         (session : option string) (w : world) (h : list call),
    fst (run (perform_all UC ops (processor_in UC c p session)) w h)
    = processor_in UC c p (session_after ops session).
Proof.
  induction ops as [| o ops IH]; intros c p session w h;
    cbn [perform_all]; [reflexivity |].
  rewrite run_bind.
  pose proof (perform_state UC o c p session w h) as Ho.
  destruct (run (perform UC o (processor_in UC c p session)) w h)
    as [s1 h1].
  cbn [fst snd] in *. subst s1. rewrite IH.
  destruct o; reflexivity.
Qed.

(** ** A tagging that fails *)


